(** * Couples Gallery: the client-side logic of the admin panel and of the
      public gallery, embedded from the React sources.

    The repository holds the single-page application only: every handler
    below is a function of the component state and of what the HTTP layer
    answers.  JS numbers that carry money are binary64 floats ([float]);
    counters, indexes and quantities are integers well below 2^53 and are
    kept as [nat] or [Z]; JS strings that are normalised character by
    character are lists of UTF-16 code units, all others are [string]. *)

From Stdlib Require Import ZArith NArith List String Ascii Floats Lia Bool.
From Stdlib Require Import Numbers.DecimalString.
From stdpp Require Import base list strings.
Import ListNotations.

Local Open Scope bool_scope.
Local Open Scope string_scope.

(** ** What the components share: toasts and HTTP exchanges *)

Module Ui.

Inductive Toast : Type :=
| ToastSuccess (msg : string)
| ToastError (msg : string)
| ToastInfo (msg : string).

(** `${n}` for a non-negative integer counter. *)
Definition show_nat (n : nat) : string := NilEmpty.string_of_uint (Nat.to_uint n).

(** The body of a response once [res.json()] or [JSON.parse] has run: the
    text does not parse (the exception's message), or it is the error
    object of the API (with its [detail], when it has one), or it is the
    payload of the endpoint. *)
Inductive Json (A : Type) : Type :=
| SyntaxError (message : string)
| ErrorObject (detail : option string)
| Data (data : A).
Arguments SyntaxError {A} message.
Arguments ErrorObject {A} detail.
Arguments Data {A} data.

Record Response (A : Type) : Type := mkResponse {
  status : nat;
  json : Json A
}.
Arguments mkResponse {A} status json.
Arguments status {A} r.
Arguments json {A} r.

(** [res.ok], and the test [xhr.status >= 200 && xhr.status < 300]. *)
Definition ok {A} (res : Response A) : bool :=
  (200 <=? status res)%nat && (status res <? 300)%nat.

(** What the network hands to the handler: a response, or a rejected
    promise ([xhr.onerror]) carrying the message of the exception. *)
Inductive Fetched (A : Type) : Type :=
| Resolved (res : Response A)
| Rejected (message : string).
Arguments Resolved {A} res.
Arguments Rejected {A} message.

(** JS truthiness of a nullable string: [null] and [''] are falsy. *)
Definition truthy (s : option string) : bool :=
  match s with
  | None => false
  | Some s => negb (String.eqb s "")
  end.

End Ui.

(** ** JS strings that the code inspects character by character *)

Module Js.

(** A JS string as its UTF-16 code units. *)
Definition jsstring : Type := list N.

Definition of_string (s : string) : jsstring :=
  List.map N_of_ascii (list_ascii_of_string s).

Local Open Scope N_scope.

(** [String.prototype.toLowerCase], one code unit at a time.  The mapping
    is exact on ASCII and Latin-1 and on the two code points outside
    Latin-1 whose lowercase form contains an ASCII letter (U+0130, which
    becomes "i" followed by U+0307, and the Kelvin sign U+212A, which
    becomes "k").  Every other code unit lowercases to code units outside
    ASCII and is left as it is here. *)
Definition lowerUnit (c : N) : list N :=
  if (65 <=? c) && (c <=? 90) then [c + 32]
  else if (192 <=? c) && (c <=? 222) && negb (c =? 215) then [c + 32]
  else if c =? 304 then [105; 775]
  else if c =? 8490 then [107]
  else [c].

Definition toLowerCase (s : jsstring) : jsstring := List.flat_map lowerUnit s.

(** The white space that [trim] removes. *)
Definition isWhiteSpace (c : N) : bool :=
  ((9 <=? c) && (c <=? 13)) || (c =? 32) || (c =? 160) || (c =? 5760)
  || ((8192 <=? c) && (c <=? 8202)) || (c =? 8232) || (c =? 8233)
  || (c =? 8239) || (c =? 8287) || (c =? 12288) || (c =? 65279).

(** [!s.trim()]: nothing is left once the white space is trimmed. *)
Definition trimsToEmpty (s : jsstring) : bool := List.forallb isWhiteSpace s.

(** [s.includes(c)] for a single character. *)
Definition includes (c : N) (s : jsstring) : bool := List.existsb (N.eqb c) s.

End Js.

(** ** Share tokens (ShareManager.js) *)

Module ShareManager.

Import Js.

Local Open Scope N_scope.

(** The character class [a-z0-9]. *)
Definition isLowerAlnum (c : N) : bool :=
  ((97 <=? c) && (c <=? 122)) || ((48 <=? c) && (c <=? 57)).

(** The same class as a proposition on code units. *)
Definition lower_alnum (c : N) : Prop :=
  97 <= c <= 122 \/ 48 <= c <= 57.

(** [s.replace(/[^a-z0-9]/g, '')] *)
Definition stripNonAlnum (s : jsstring) : jsstring := List.filter isLowerAlnum s.

(** [token.toLowerCase().replace(/[^a-z0-9]/g, '')], the expression of
    [createShare] and of the link preview under the token input. *)
Definition cleanToken (token : jsstring) : jsstring :=
  stripNonAlnum (toLowerCase token).

Local Close Scope N_scope.

Record NewShare : Type := mkNewShare {
  folder_id : string;
  token : jsstring;
  permission : string
}.

(** The body of [POST /api/shares]. *)
Record ShareRequest : Type := mkShareRequest {
  req_folder_id : string;
  req_token : jsstring;
  req_permission : string
}.

Inductive CreateStep : Type :=
| Refused (t : Ui.Toast)
| Posted (body : ShareRequest).

(** [createShare], up to the request it sends. *)
Definition createShare (newShare : NewShare) : CreateStep :=
  if String.eqb (folder_id newShare) "" || trimsToEmpty (token newShare)
  then Refused (Ui.ToastError "Please fill in all fields")
  else Posted {| req_folder_id := folder_id newShare;
                 req_token := cleanToken (token newShare);
                 req_permission := permission newShare |}.

(** The preview line "This will create: SHARE_DOMAIN/..." under the input:
    the cleaned token, or 'yourtoken' when it is empty. *)
Definition previewToken (newShare : NewShare) : jsstring :=
  match cleanToken (token newShare) with
  | [] => of_string "yourtoken"
  | t => t
  end.

End ShareManager.

(** ** The server side of shares *)

Module Backend.

Inductive Tier : Type := TierRead | TierEdit | TierFull.

Inductive Operation : Type := OpView | OpDownload | OpUpload | OpFavourite | OpDelete.

Inductive Verdict : Type := Accept | Forbidden | NotFound.

(** Modelled from the spec: a stored share, with its normalised token, the
    folder it opens and its permission tier. *)
Record Share : Type := mkShare {
  token : Js.jsstring;
  folder_id : string;
  permission : Tier
}.

(** Modelled from the spec: the name of a tier on the wire, the
    [permission] field of a share and of the answer of
    [GET /api/gallery/{token}] (read, edit, full). *)
Definition tier_name (t : Tier) : string :=
  match t with
  | TierRead => "read"
  | TierEdit => "edit"
  | TierFull => "full"
  end.

(** Modelled from the spec: the permission table of the server, which is
    not part of these sources.  read: view and download; edit: also upload
    and favourite; full: also delete. *)
Definition allows (t : Tier) (op : Operation) : bool :=
  match op, t with
  | OpView, _ | OpDownload, _ => true
  | OpUpload, TierRead | OpFavourite, TierRead => false
  | OpUpload, _ | OpFavourite, _ => true
  | OpDelete, TierFull => true
  | OpDelete, _ => false
  end.

(** Modelled from the spec: the token lookup of the server, which is not
    part of these sources.  "A submitted token is lowercased and stripped of
    non-alphanumeric characters before both creation and lookup": the
    lookup cleans the submitted token and returns the share stored under
    the result, if any. *)
Definition findShare (shares : list Share) (submitted : Js.jsstring)
  : option Share :=
  List.find (fun s => bool_decide (token s = ShareManager.cleanToken submitted)) shares.

(** Modelled from the spec: [resolveShare], which "fails with NotFound if
    token does not match any share or the share's folder no longer exists".
    [folders] holds the ids of the folders that exist. *)
Definition resolveShare (folders : list string) (shares : list Share)
    (submitted : Js.jsstring) : option Share :=
  match findShare shares submitted with
  | Some s => if bool_decide (elem_of (folder_id s) folders) then Some s else None
  | None => None
  end.

(** Modelled from the spec: the check every mutating public operation
    makes.  The token is resolved on each request; a token that does not
    resolve is [NotFound], an operation above the tier of the share is
    [Forbidden]. *)
Definition gate (folders : list string) (shares : list Share)
    (submitted : Js.jsstring) (op : Operation) : Verdict :=
  match resolveShare folders shares submitted with
  | None => NotFound
  | Some s => if allows (permission s) op then Accept else Forbidden
  end.

(** Modelled from the spec: share creation on the server, which cleans the
    submitted token as the lookup does before it stores the share
    (a duplicate token is a [Conflict], shown here as [None]). *)
Definition createShare (shares : list Share) (submitted : Js.jsstring)
    (folder : string) (t : Tier) : option (list Share) :=
  match findShare shares submitted with
  | Some _ => None
  | None => Some (shares ++ [mkShare (ShareManager.cleanToken submitted) folder t])%list
  end.

End Backend.

(** ** The print cart (PrintOrderCart.js) *)

Module PrintOrderCart.

Definition SHIPPING_FEE : float := 2.5%float.
Definition MIN_ORDER : float := 15%float.

(** A gallery file and a catalogue product, as far as the cart reads them. *)
Record File : Type := mkFile {
  id : string;
  name : string;
  thumbnail_url : string
}.

Record Product : Type := mkProduct {
  product_id_of : string;
  product_name_of : string;
  size_of : string;
  paper_type_of : string;
  price_of : float
}.

Record Item : Type := mkItem {
  file_id : string;
  file_name : string;
  file_thumbnail : string;
  product_id : string;
  product_name : string;
  size : string;
  paper_type : string;
  price : float;
  quantity : Z
}.

Abbreviation Cart := (list Item).

Definition with_quantity (item : Item) (q : Z) : Item :=
  mkItem (file_id item) (file_name item) (file_thumbnail item) (product_id item)
         (product_name item) (size item) (paper_type item) (price item) q.

(** The object literal that [addToCart] and [handleAddToCart] append. *)
Definition newItem (file : File) (product : Product) : Item :=
  mkItem (id file) (name file) (thumbnail_url file) (product_id_of product)
         (product_name_of product) (size_of product) (paper_type_of product)
         (price_of product) 1.

(** [item => item.file_id === file.id && item.product_id === product.id] *)
Definition sameLine (file : File) (product : Product) (item : Item) : Prop :=
  file_id item = id file /\ product_id item = product_id_of product.

#[global] Instance sameLine_dec file product item : Decision (sameLine file product item).
Proof. unfold sameLine. apply _. Defined.

(** [addToCart]: [findIndex] gives the first matching line; its quantity is
    incremented in place, or a new line of quantity 1 is appended. *)
Definition addToCart (file : File) (product : Product) (cart : Cart) : Cart :=
  match list_find (sameLine file product) cart with
  | Some (existingIndex, item) =>
      <[existingIndex := with_quantity item (quantity item + 1)]> cart
  | None => (cart ++ [newItem file product])%list
  end.

(** [updateQuantity]: reading [newCart[index].quantity] past the end throws,
    so [setCart] is not reached and the cart stays as it is. *)
Definition updateQuantity (index : nat) (delta : Z) (cart : Cart) : Cart :=
  match cart !! index with
  | None => cart
  | Some item =>
      let q := (quantity item + delta)%Z in
      if (q <=? 0)%Z then delete index cart
      else <[index := with_quantity item q]> cart
  end.

(** [removeItem]: [splice(index, 1)], which removes nothing past the end. *)
Definition removeItem (index : nat) (cart : Cart) : Cart := delete index cart.

(** An integral JS number as a float. *)
Definition number_of_Z (z : Z) : float :=
  SF2Prim (binary_normalize prec emax z 0 false).

(** [cart.reduce((sum, item) => sum + (item.price * item.quantity), 0)] *)
Definition subtotal (cart : Cart) : float :=
  List.fold_left (fun sum item => (sum + price item * number_of_Z (quantity item))%float)
                 cart 0%float.

(** [subtotal + SHIPPING_FEE] *)
Definition total (cart : Cart) : float := (subtotal cart + SHIPPING_FEE)%float.

Inductive Step : Type := StepCart | StepDetails | StepConfirm.

Record CustomerDetails : Type := mkDetails {
  email : Js.jsstring;
  cname : Js.jsstring;
  line1 : Js.jsstring;
  line2 : Js.jsstring;
  city : Js.jsstring;
  county : Js.jsstring;
  postcode : Js.jsstring;
  phone : Js.jsstring
}.

Definition noDetails : CustomerDetails := mkDetails [] [] [] [] [] [] [] [].

Record State : Type := mkState {
  cart : Cart;
  step : Step;
  customerDetails : CustomerDetails
}.

(** The component as it mounts, before the saved cart is loaded. *)
Definition initial : State := mkState [] StepCart noDetails.

(** The first effect: the cart saved in local storage replaces the state
    when it parses ([saved] is [None] when there is nothing usable). *)
Definition loadSaved (saved : option Cart) (st : State) : State :=
  match saved with
  | Some c => mkState c (step st) (customerDetails st)
  | None => st
  end.

(** The shortfall line under the totals, with the two amounts it formats. *)
Record Shortfall : Type := mkShortfall {
  minimum : float;
  more_needed : float
}.

(** The cart step: the empty-cart panel, or the lines with the totals, the
    shortfall line when there is one, and the state of the
    "Continue to Checkout" button. *)
Inductive CartPanel : Type :=
| EmptyCart
| Lines (items : Cart) (sub shipping tot : float)
        (shortfall : option Shortfall) (continueDisabled : bool).

Definition cartPanel (c : Cart) : CartPanel :=
  match c with
  | [] => EmptyCart
  | _ =>
      Lines c (subtotal c) SHIPPING_FEE (total c)
            (if (subtotal c <? MIN_ORDER)%float
             then Some (mkShortfall MIN_ORDER (MIN_ORDER - subtotal c)%float)
             else None)
            (subtotal c <? MIN_ORDER)%float
  end.

(** Whether a click on "Continue to Checkout" reaches its handler: the
    button is on screen and it is not disabled. *)
Definition canContinue (st : State) : bool :=
  match step st, cartPanel (cart st) with
  | StepCart, Lines _ _ _ _ _ disabled => negb disabled
  | _, _ => false
  end.


(** [validateDetails]: the first required field that trims to nothing is
    reported (with 'line1' shown as 'address'), then the e-mail and the
    postcode are checked. *)
Definition validateDetails (d : CustomerDetails) : option Ui.Toast :=
  let required :=
    [("email", email d); ("name", cname d); ("address", line1 d);
     ("city", city d); ("postcode", postcode d); ("phone", phone d)] in
  match List.find (fun f => Js.trimsToEmpty (snd f)) required with
  | Some (field, _) => Some (Ui.ToastError ("Please fill in " +:+ field))
  | None =>
      if negb (Js.includes 64%N (email d))
      then Some (Ui.ToastError "Please enter a valid email")
      else if (length (postcode d) <? 5)%nat
      then Some (Ui.ToastError "Please enter a valid UK postcode")
      else None
  end.

Record Address : Type := mkAddress {
  addr_name : Js.jsstring;
  addr_line1 : Js.jsstring;
  addr_line2 : Js.jsstring;
  addr_city : Js.jsstring;
  addr_county : Js.jsstring;
  addr_postcode : Js.jsstring;
  addr_phone : Js.jsstring
}.

(** A line of the order: the cart line without its thumbnail. *)
Record OrderItem : Type := mkOrderItem {
  oi_file_id : string;
  oi_file_name : string;
  oi_product_id : string;
  oi_product_name : string;
  oi_size : string;
  oi_paper_type : string;
  oi_quantity : Z;
  oi_price : float
}.

(** The body of [POST /api/orders]. *)
Record OrderData : Type := mkOrderData {
  share_token : string;
  customer_email : Js.jsstring;
  delivery_address : Address;
  items : list OrderItem;
  shipping : float
}.

Definition orderItem (item : Item) : OrderItem :=
  mkOrderItem (file_id item) (file_name item) (product_id item) (product_name item)
              (size item) (paper_type item) (quantity item) (price item).

Definition orderData (shareToken : string) (st : State) : OrderData :=
  let d := customerDetails st in
  mkOrderData shareToken (email d)
    (mkAddress (cname d) (line1 d) (line2 d) (city d) (county d) (postcode d) (phone d))
    (List.map orderItem (cart st))
    SHIPPING_FEE.

(** [submitOrder], up to the request: nothing is sent when the details do
    not validate. *)
Definition submitOrder (shareToken : string) (st : State) : Ui.Toast + OrderData :=
  match validateDetails (customerDetails st) with
  | Some t => inl t
  | None => inr (orderData shareToken st)
  end.

(** What the customer can do in the dialog.  [Submit] carries what the
    server answers to the request if one is sent. *)
Inductive Event : Type :=
| Minus (index : nat)
| Plus (index : nat)
| Remove (index : nat)
| Continue
| BackToCart
| Edit (d : CustomerDetails)
| Submit (answer : Ui.Fetched unit)
| Close.

(** The handler behind each control.  A control acts only in the step that
    renders it: the quantity and remove buttons and "Continue to Checkout"
    in the cart step, the form, "Back to cart" and "Submit Order" in the
    details step, "Close" in the confirmation.  After an ok answer
    [submitOrder] awaits [res.json()] before it empties the cart and moves
    on: a body that does not parse throws into the [catch], and the dialog
    stays where it is. *)
Definition handle (shareToken : string) (e : Event) (st : State) : State :=
  match step st, e with
  | StepCart, Minus i =>
      mkState (updateQuantity i (-1) (cart st)) StepCart (customerDetails st)
  | StepCart, Plus i =>
      mkState (updateQuantity i 1 (cart st)) StepCart (customerDetails st)
  | StepCart, Remove i =>
      mkState (removeItem i (cart st)) StepCart (customerDetails st)
  | StepCart, Continue =>
      if canContinue st then mkState (cart st) StepDetails (customerDetails st) else st
  | StepDetails, BackToCart => mkState (cart st) StepCart (customerDetails st)
  | StepDetails, Edit d => mkState (cart st) StepDetails d
  | StepDetails, Submit answer =>
      match submitOrder shareToken st, answer with
      | inr _, Ui.Resolved res =>
          if Ui.ok res
          then match Ui.json res with
               | Ui.SyntaxError _ => st
               | _ => mkState [] StepConfirm (customerDetails st)
               end
          else st
      | _, _ => st
      end
  | StepConfirm, Close => mkState (cart st) StepCart (customerDetails st)
  | _, _ => st
  end.

Definition run (shareToken : string) (events : list Event) (st : State) : State :=
  List.fold_left (fun s e => handle shareToken e s) events st.

(** The order that a click on "Submit Order" posts in state [st], if any. *)
Definition posts (shareToken : string) (st : State) : option OrderData :=
  match step st, submitOrder shareToken st with
  | StepDetails, inr data => Some data
  | _, _ => None
  end.

(** Where the details step is, the cart passed the minimum. *)
Definition passedGate (st : State) : Prop :=
  step st = StepDetails -> (subtotal (cart st) <? MIN_ORDER)%float = false.

End PrintOrderCart.

(** ** Orders in the admin panel (OrdersManager.js) *)

Module OrdersManager.

(** The keys of [STATUS_CONFIG], which are the values of the status menu. *)
Inductive Status : Type :=
| Pending | Paid | Processing | Shipped | Completed | Cancelled.

#[global] Instance Status_eq_dec : EqDecision Status.
Proof. solve_decision. Defined.

Definition status_value (s : Status) : string :=
  match s with
  | Pending => "pending"
  | Paid => "paid"
  | Processing => "processing"
  | Shipped => "shipped"
  | Completed => "completed"
  | Cancelled => "cancelled"
  end.

(** The items of the "Update Status" menu of an order, top to bottom.  The
    menu is the same whatever the status of the order is. *)
Definition statusOptions (current : Status) : list Status :=
  [Pending; Paid; Processing; Shipped; Completed; Cancelled].

(** The request of [updateStatus]: [PUT /api/orders/{id}/status] with the
    admin's bearer token and the new status as body. *)
Record StatusRequest : Type := mkStatusRequest {
  req_order : string;
  req_bearer : string;
  req_status : string
}.

Record Outcome : Type := mkOutcome {
  sent : StatusRequest;
  toast : Ui.Toast;
  refetched : bool
}.

(** [updateStatus]: the request is sent; an ok answer is reported and the
    orders and the statistics are fetched again, any other answer and a
    failed request are reported as an error. *)
Definition updateStatus (token orderId : string) (newStatus : Status)
    (answer : Ui.Fetched unit) : Outcome :=
  let request := mkStatusRequest orderId token (status_value newStatus) in
  match answer with
  | Ui.Resolved res =>
      if Ui.ok res
      then mkOutcome request
             (Ui.ToastSuccess ("Order updated to " +:+ status_value newStatus)) true
      else mkOutcome request (Ui.ToastError "Failed to update order") false
  | Ui.Rejected _ => mkOutcome request (Ui.ToastError "Failed to update order") false
  end.

(** The admin picks [target] in the menu of an order whose status is
    [current]: [onValueChange] calls [updateStatus] when the item is in the
    menu. *)
Definition pick (token orderId : string) (current target : Status)
    (answer : Ui.Fetched unit) : option Outcome :=
  if bool_decide (elem_of target (statusOptions current))
  then Some (updateStatus token orderId target answer)
  else None.

End OrdersManager.

(** ** The server side of orders *)

Module OrderBackend.

Import PrintOrderCart.

Record Order : Type := mkOrder {
  order_share_token : string;
  order_items : list OrderItem;
  order_subtotal : float;
  order_shipping : float;
  order_total : float;
  order_status : OrdersManager.Status
}.

(** Modelled from the spec: order creation on the server, which is not part
    of these sources.  The stored order keeps the submitted lines and
    shipping; its subtotal is the sum of price times quantity over the
    lines, its total is subtotal plus shipping, and it starts [pending]. *)
Definition createOrder (data : OrderData) : Order :=
  let sub :=
    List.fold_left
      (fun sum line => (sum + oi_price line * number_of_Z (oi_quantity line))%float)
      (items data) 0%float in
  mkOrder (share_token data) (items data) sub (shipping data)
          (sub + shipping data)%float OrdersManager.Pending.

End OrderBackend.

(** ** Uploads: what a batch handler sends and what the server does with it *)

Module Upload.

(** A browser [File] picked or dropped by the user. *)
Record UploadFile : Type := mkUploadFile {
  name : string;
  bytes : N
}.

(** The multipart request of one file: the endpoint, the file and the
    [folder_id] field. *)
Record Request : Type := mkRequest {
  url : string;
  file : UploadFile;
  folder_id : string
}.

(** A stored file record. *)
Record FileRecord : Type := mkFileRecord {
  rec_name : string;
  rec_folder : string;
  rec_bytes : N
}.

(** Modelled from the spec: why the server turns an upload down, after the
    error taxonomy of the API. *)
Inductive Refusal : Type :=
| NotFound | Forbidden | ValidationError | Unauthorized | StorageError.

Definition refusal_status (why : Refusal) : nat :=
  match why with
  | NotFound => 404
  | Forbidden => 403
  | ValidationError => 400
  | Unauthorized => 401
  | StorageError => 500
  end.

(** An upload that does not go through: the server turns it down (with the
    [detail] of its answer), or the request does not reach it. *)
Inductive Failure : Type :=
| Refuses (why : Refusal) (detail : option string)
| Unreachable (message : string).

Definition Store : Type := list FileRecord.

Definition turnedDown (verdict : UploadFile -> option Failure) (f : UploadFile) : bool :=
  match verdict f with
  | Some _ => true
  | None => false
  end.

Definition recordOf (folder : string) (f : UploadFile) : FileRecord :=
  mkFileRecord (name f) folder (bytes f).

(** Modelled from the spec: what the client receives for the upload of [f],
    200 for an upload that goes through, the status of the refusal with its
    [detail] otherwise, or no answer at all. *)
Definition answerTo (verdict : UploadFile -> option Failure) (f : UploadFile)
  : Ui.Fetched unit :=
  match verdict f with
  | None => Ui.Resolved (Ui.mkResponse 200 (Ui.Data tt))
  | Some (Refuses why detail) =>
      Ui.Resolved (Ui.mkResponse (refusal_status why) (Ui.ErrorObject detail))
  | Some (Unreachable message) => Ui.Rejected message
  end.

(** Modelled from the spec: the upload endpoint of the server, which is not
    part of these sources.  "Each file succeeds or fails independently":
    [verdict] says which uploads fail (corrupted or oversized file, missing
    folder, permission, storage); an upload that does not fail creates one
    file record and is answered 200, one that fails creates none. *)
Definition endpoint (verdict : UploadFile -> option Failure)
    (req : Request) (store : Store) : Ui.Fetched unit * Store :=
  (answerTo verdict (file req),
   if turnedDown verdict (file req) then store
   else (store ++ [recordOf (folder_id req) (file req)])%list).

End Upload.

(** ** The admin's folder view (FolderManager.js) *)

Module FolderManager.

Import Upload.

Section OnDrop.

(** The network and the server behind it: a request changes the world
    and is answered. *)
Context {World : Type}.
Variable send : Request -> World -> Ui.Fetched unit * World.

(** The variables of the loop of [onDrop]: the counter [completed], the
    toasts raised so far (oldest first), the requests sent so far, and
    the world. *)
Record Loop : Type := mkLoop {
  completed : nat;
  toasts : list Ui.Toast;
  requests : list Request;
  world : World
}.

(** The toast of a failed upload.  [onload] with a status outside 2xx
    parses the response text and shows its [detail]; when the text does
    not parse the inner [catch] shows the plain message, as [onerror]
    does. *)
Definition failureToast (f : UploadFile) (answer : Ui.Fetched unit) : Ui.Toast :=
  match answer with
  | Ui.Resolved res =>
      match Ui.json res with
      | Ui.ErrorObject (Some d) =>
          Ui.ToastError ("Failed to upload " +:+ name f +:+ ": " +:+ d)
      | Ui.ErrorObject None =>
          Ui.ToastError ("Failed to upload " +:+ name f +:+ ": undefined")
      | Ui.Data _ =>
          Ui.ToastError ("Failed to upload " +:+ name f +:+ ": undefined")
      | Ui.SyntaxError _ => Ui.ToastError ("Failed to upload " +:+ name f)
      end
  | Ui.Rejected _ => Ui.ToastError ("Failed to upload " +:+ name f)
  end.

(** One turn of the [for ... of] loop: the promise resolves on a 2xx
    answer and [completed] is incremented; otherwise it rejects after
    its toast, and the empty [catch] lets the loop go on. *)
Definition uploadOne (currentFolderId : string) (acc : Loop) (f : UploadFile) : Loop :=
  let req := mkRequest "/api/files/upload" f currentFolderId in
  let '(answer, w) := send req (world acc) in
  let succeeded :=
    match answer with
    | Ui.Resolved res => Ui.ok res
    | Ui.Rejected _ => false
    end in
  if succeeded
  then mkLoop (S (completed acc)) (toasts acc) (requests acc ++ [req])%list w
  else mkLoop (completed acc) (toasts acc ++ [failureToast f answer])%list
              (requests acc ++ [req])%list w.

(** What [onDrop] leaves behind. *)
Record Dropped : Type := mkDropped {
  shown : list Ui.Toast;
  posted : list Request;
  done : nat;
  refreshed : bool;
  after : World
}.

(** [onDrop]: without a current folder nothing is sent; otherwise every
    accepted file is sent in turn and the report
    "Uploaded completed/total file(s)" closes the batch. *)
Definition onDrop (currentFolderId : option string) (acceptedFiles : list UploadFile)
    (w : World) : Dropped :=
  match currentFolderId with
  | None | Some "" =>
      mkDropped [Ui.ToastError "Please select a folder first"] [] 0 false w
  | Some folder =>
      let total := length acceptedFiles in
      let l := List.fold_left (uploadOne folder) acceptedFiles (mkLoop 0 [] [] w) in
      mkDropped
        (toasts l ++
         [Ui.ToastSuccess ("Uploaded " +:+ Ui.show_nat (completed l) +:+ "/"
                           +:+ Ui.show_nat total +:+ " file(s)")])%list
        (requests l) (completed l) true (world l)
  end.

End OnDrop.

End FolderManager.

(** ** The public gallery (GalleryPage.js) *)

Module GalleryPage.

Import Upload.

(** The answer of [GET /api/gallery/{token}], as far as the page reads it.
    A field that the object does not have is [None]. *)
Record GalleryData : Type := mkGallery {
  folder_id : option string;
  folder_name : option string;
  permission : option string
}.

Record FileEntry : Type := mkFileEntry {
  id : string;
  file_name : string;
  file_type : string
}.

Record State : Type := mkState {
  gallery : option GalleryData;
  files : list FileEntry;
  loading : bool;
  error : option string;
  selectionMode : bool;
  favouritesMode : bool;
  uploading : bool
}.

(** The [useState] initial values. *)
Definition initial : State := mkState None [] true None false false false.

Definition setGallery (st : State) (g : GalleryData) : State :=
  mkState (Some g) (files st) (loading st) (error st)
          (selectionMode st) (favouritesMode st) (uploading st).

Definition setError (st : State) (message : string) : State :=
  mkState (gallery st) (files st) (loading st) (Some message)
          (selectionMode st) (favouritesMode st) (uploading st).

Definition setLoading (st : State) (b : bool) : State :=
  mkState (gallery st) (files st) b (error st)
          (selectionMode st) (favouritesMode st) (uploading st).

(** [fetchGallery]: a response that is not ok throws
    [new Error('Gallery not found')]; the [catch] stores the message of
    whatever was thrown; [finally] clears [loading]. *)
Definition fetchGallery (st : State) (answer : Ui.Fetched GalleryData) : State :=
  let st' :=
    match answer with
    | Ui.Resolved res =>
        if negb (Ui.ok res) then setError st "Gallery not found"
        else match Ui.json res with
             | Ui.SyntaxError message => setError st message
             | Ui.ErrorObject _ => setGallery st (mkGallery None None None)
             | Ui.Data data => setGallery st data
             end
    | Ui.Rejected message => setError st message
    end in
  setLoading st' false.

(** [gallery?.permission === 'edit' || gallery?.permission === 'full'] *)
Definition canEdit (st : State) : bool :=
  match gallery st with
  | Some g =>
      bool_decide (permission g = Some "edit") || bool_decide (permission g = Some "full")
  | None => false
  end.

(** [files.filter(f => f.file_type === 'image')] *)
Definition imageFiles (st : State) : list FileEntry :=
  List.filter (fun f => String.eqb (file_type f) "image") (files st).

(** The controls of the page that act on the gallery, by their
    [data-testid]. *)
Inductive Control : Type :=
| section_upload_btn
| select_btn
| slideshow_btn
| download_all_btn
| select_favourites_btn
| upload_btn
| select_all_btn
| save_favourites_btn
| download_selected_btn
| cancel_select_btn.

#[global] Instance Control_eq_dec : EqDecision Control.
Proof. solve_decision. Defined.

(** The "Upload Photos & Videos" section:
    [imageFiles.length === 0 && canEdit]. *)
Definition uploadSection (st : State) : list Control :=
  if (length (imageFiles st) =? 0)%nat && canEdit st then [section_upload_btn] else [].

(** The action buttons over the photos. *)
Definition actionButtons (st : State) : list Control :=
  if negb (selectionMode st)
  then ([select_btn]
        ++ (if (0 <? length (imageFiles st))%nat then [slideshow_btn] else [])
        ++ [download_all_btn]
        ++ (if canEdit st then [select_favourites_btn; upload_btn] else []))%list
  else ([select_all_btn]
        ++ [if favouritesMode st then save_favourites_btn else download_selected_btn]
        ++ [cancel_select_btn])%list.

(** The photos section: [imageFiles.length > 0]. *)
Definition photosSection (st : State) : list Control :=
  if (0 <? length (imageFiles st))%nat then actionButtons st else [].

Definition controls (st : State) : list Control :=
  (uploadSection st ++ photosSection st)%list.

Inductive View : Type :=
| LoadingView
| ErrorView (heading text : string)
| GalleryView (controls : list Control).

(** The three [return]s of the component. *)
Definition render (st : State) : View :=
  if loading st then LoadingView
  else if Ui.truthy (error st)
  then ErrorView "Gallery Not Found" "This gallery link may have expired or been removed."
  else GalleryView (uploadSection st ++ photosSection st)%list.

(** [a || b] on nullable strings. *)
Definition orElse (a b : option string) : option string :=
  if Ui.truthy a then a else b.

Section HandleUpload.

Context {World : Type}.
Variable send : Request -> World -> Ui.Fetched unit * World.

Record Loop : Type := mkLoop {
  uploaded : nat;
  toasts : list Ui.Toast;
  requests : list Request;
  world : World
}.

(** One turn of the loop: [uploaded] counts the ok answers; an answer that
    is not ok and a failed request raise the same toast. *)
Definition uploadOne (token folderId : string) (acc : Loop) (f : UploadFile) : Loop :=
  let req := mkRequest ("/api/gallery/" +:+ token +:+ "/upload") f folderId in
  let '(answer, w) := send req (world acc) in
  let succeeded :=
    match answer with
    | Ui.Resolved res => Ui.ok res
    | Ui.Rejected _ => false
    end in
  if succeeded
  then mkLoop (S (uploaded acc)) (toasts acc) (requests acc ++ [req])%list w
  else mkLoop (uploaded acc)
              (toasts acc ++ [Ui.ToastError ("Failed to upload " +:+ name f)])%list
              (requests acc ++ [req])%list w.

Record Uploaded : Type := mkUploaded {
  shown : list Ui.Toast;
  posted : list Request;
  count : nat;
  refreshed : bool;
  after : World
}.

(** [handleUpload]: nothing happens on an empty selection; the target is
    [currentFolderId || gallery?.folder_id]; every file is sent in turn;
    the success toast and the refresh follow when at least one upload
    went through. *)
Definition handleUpload (token : string) (currentFolderId : option string)
    (st : State) (picked : list UploadFile) (w : World) : Uploaded :=
  match picked with
  | [] => mkUploaded [] [] 0 false w
  | _ =>
      let fallback :=
        match gallery st with
        | Some g => folder_id g
        | None => None
        end in
      match orElse currentFolderId fallback with
      | Some folderId =>
          if String.eqb folderId ""
          then mkUploaded [Ui.ToastError "Cannot upload here"] [] 0 false w
          else
            let l := List.fold_left (uploadOne token folderId) picked (mkLoop 0 [] [] w) in
            if (0 <? uploaded l)%nat
            then mkUploaded
                   (toasts l ++
                    [Ui.ToastSuccess ("Uploaded " +:+ Ui.show_nat (uploaded l)
                                      +:+ " file(s)")])%list
                   (requests l) (uploaded l) true (world l)
            else mkUploaded (toasts l) (requests l) (uploaded l) false (world l)
      | None => mkUploaded [Ui.ToastError "Cannot upload here"] [] 0 false w
      end
  end.

End HandleUpload.

(** [currentFolderId || gallery?.folder_id], the folder that [handleUpload]
    sends to: the folder of the URL, or at the root of the gallery the
    folder of the share. *)
Definition targetFolder (currentFolderId : option string) (st : State) : option string :=
  orElse currentFolderId
    match gallery st with
    | Some g => folder_id g
    | None => None
    end.

(** [handleAddToCart]: the cart is read from local storage ([saved] is
    [None] when nothing is stored or when it does not parse), the line is
    merged or appended as in the cart component, and the result is
    written back (the cart count, the selector and the toast are left
    out). *)
Definition handleAddToCart (file : PrintOrderCart.File) (product : PrintOrderCart.Product)
    (saved : option PrintOrderCart.Cart) : PrintOrderCart.Cart :=
  let cart := match saved with Some c => c | None => [] end in
  match list_find (PrintOrderCart.sameLine file product) cart with
  | Some (existingIndex, item) =>
      <[existingIndex :=
          PrintOrderCart.with_quantity item (PrintOrderCart.quantity item + 1)]> cart
  | None => (cart ++ [PrintOrderCart.newItem file product])%list
  end.

End GalleryPage.

(** ** The other copy of the public gallery (GalleryPage.js without
       selection, uploads and prints) *)

Module GalleryPageV1.

Record State : Type := mkState {
  gallery : option GalleryPage.GalleryData;
  loading : bool;
  error : option string
}.

Definition initial : State := mkState None true None.

(** [fetchGallery], the same handler as in the later page. *)
Definition fetchGallery (st : State) (answer : Ui.Fetched GalleryPage.GalleryData) : State :=
  let st' :=
    match answer with
    | Ui.Resolved res =>
        if negb (Ui.ok res) then mkState (gallery st) (loading st) (Some "Gallery not found")
        else match Ui.json res with
             | Ui.SyntaxError message => mkState (gallery st) (loading st) (Some message)
             | Ui.ErrorObject _ =>
                 mkState (Some (GalleryPage.mkGallery None None None)) (loading st) (error st)
             | Ui.Data data => mkState (Some data) (loading st) (error st)
             end
    | Ui.Rejected message => mkState (gallery st) (loading st) (Some message)
    end in
  mkState (gallery st') false (error st').

(** What a render comes to: the element it returns, or the exception it
    throws. *)
Inductive Rendered : Type :=
| Returns (view : GalleryPage.View)
| Throws (message : string).

(** The three [return]s of the component.  The loading view and the header
    of the gallery view hold a [<Camera>] element, and [Camera] is neither
    imported (the import from 'lucide-react' lists FolderOpen, ChevronRight,
    Download, X, Play, Image, Film and ChevronLeft) nor declared in the
    module: evaluating the element throws a ReferenceError.  The error view
    does not use it. *)
Definition render (st : State) : Rendered :=
  if loading st then Throws "Camera is not defined"
  else if Ui.truthy (error st)
  then Returns (GalleryPage.ErrorView "Gallery Not Found"
                  "This gallery link may have expired or been removed.")
  else Throws "Camera is not defined".

(** Opening the page.  The component is rendered with its initial state
    first; the effect that calls [fetchGallery] runs only after a render
    that returned, and the answer of the server is rendered after it. *)
Definition visit (answer : Ui.Fetched GalleryPage.GalleryData) : Rendered :=
  match render initial with
  | Throws message => Throws message
  | Returns _ => render (fetchGallery initial answer)
  end.

End GalleryPageV1.

(** ** The activity log of the admin panel (ActivityLogs.js) *)

Module ActivityLogs.

Record LogEntry : Type := mkLogEntry {
  action : string;
  share_token : string;
  folder_name : string;
  file_name : string
}.

Record State : Type := mkState {
  logs : list LogEntry;
  total : nat;
  page : nat;
  showClearConfirm : bool;
  searchTerm : string
}.

(** [handleSearch] *)
Definition handleSearch (value : string) (st : State) : State :=
  mkState (logs st) (total st) 0 (showClearConfirm st) value.

(** The statements that follow [handleSearch] in the component, from
    [try] to [setShowClearConfirm(false)]: the [DELETE] request, and on an
    ok answer the success toast and the reset of [logs], [total] and
    [page].  No declaration precedes them. *)
Definition clearStatements (answer : Ui.Fetched unit) (st : State)
  : list Ui.Toast * State :=
  match answer with
  | Ui.Resolved res =>
      if Ui.ok res
      then ([Ui.ToastSuccess "Activity logs cleared"], mkState [] 0 0 false (searchTerm st))
      else ([], mkState (logs st) (total st) (page st) false (searchTerm st))
  | Ui.Rejected _ =>
      ([Ui.ToastError "Failed to clear logs"],
       mkState (logs st) (total st) (page st) false (searchTerm st))
  end.

(** What a name of the component stands for. *)
Inductive Binding : Type :=
| Value
| Setter
| Handler (run : Ui.Fetched unit -> State -> list Ui.Toast * State).

(** The names that the module and the component declare, in source order:
    the imports and constants of the module, then the [const]s of
    [ActivityLogs]. *)
Definition scope : list (string * Binding) :=
  [("useState", Value); ("useEffect", Value); ("toast", Value); ("motion", Value);
   ("Activity", Value); ("Eye", Value); ("Download", Value); ("Upload", Value);
   ("Archive", Value); ("Trash2", Value); ("RefreshCw", Value);
   ("ChevronLeft", Value); ("ChevronRight", Value); ("Search", Value);
   ("Button", Value);
   ("AlertDialog", Value); ("AlertDialogAction", Value); ("AlertDialogCancel", Value);
   ("AlertDialogContent", Value); ("AlertDialogDescription", Value);
   ("AlertDialogFooter", Value); ("AlertDialogHeader", Value);
   ("AlertDialogTitle", Value); ("useAuth", Value);
   ("BACKEND_URL", Value); ("API", Value);
   ("ACTION_ICONS", Value); ("ACTION_LABELS", Value); ("ACTION_COLORS", Value);
   ("ActivityLogs", Value); ("token", Value);
   ("logs", Value); ("setLogs", Setter);
   ("total", Value); ("setTotal", Setter);
   ("page", Value); ("setPage", Setter);
   ("loading", Value); ("setLoading", Setter);
   ("showClearConfirm", Value); ("setShowClearConfirm", Setter);
   ("searchTerm", Value); ("setSearchTerm", Setter);
   ("limit", Value); ("headers", Value);
   ("fetchLogs", Handler (fun _ st => ([], st)));
   ("handleSearch", Handler (fun _ st => ([], st)));
   ("formatDate", Value); ("totalPages", Value)].

Definition resolve (name : string) : option Binding :=
  snd <$> List.find (fun b => String.eqb (fst b) name) scope.

(** The [onClick] of "Clear All Logs" in the confirmation dialog. *)
Definition clearAllOnClick : string := "clearLogs".

(** A click on "Clear All Logs": the handler that the name resolves to
    runs; [None] when the name resolves to no function. *)
Definition confirmClear (answer : Ui.Fetched unit) (st : State)
  : option (list Ui.Toast * State) :=
  match resolve clearAllOnClick with
  | Some (Handler run) => Some (run answer st)
  | _ => None
  end.

End ActivityLogs.

(** ** Byte counts as text: the two copies of [formatBytes] *)

Module JsNumber.

Local Open Scope Z_scope.

(** An integer below 2^53 as a JS number. *)
Definition number (z : Z) : float := SF2Prim (binary_normalize prec emax z 0 false).

(** What [Math.floor] returns: an integer, or its argument when that is NaN
    or an infinity. *)
Inductive Floored : Type :=
| Whole (i : Z)
| NotANumber
| Infinite (negative : bool).

Definition floor (x : float) : Floored :=
  match Prim2SF x with
  | S754_zero _ => Whole 0
  | S754_infinity s => Infinite s
  | S754_nan => NotANumber
  | S754_finite s m e =>
      let z := if s then Z.neg m else Z.pos m in
      Whole (if 0 <=? e then z * 2 ^ e else z / 2 ^ (- e))
  end.

(** [Math.floor(Math.log(bytes) / Math.log(k))] for [k = 1024].  [Math.log]
    belongs to the engine, which approximates the logarithm as it sees
    fit; it is a parameter here.  The division and the floor are those of
    binary64. *)
Definition index (log : float -> float) (bytes : Z) : Floored :=
  floor (log (number bytes) / log (number 1024))%float.

(** The values of [Math.log] that the examples need, in binary64:
    6.931471805599453 at 1024, 27.725887222397812 at 2^40, and
    34.657359027997266 at 2^50 and already at 2^50 - 3 (at a power of two
    these are the nearest binary64 numbers to the logarithm).  Every other
    argument is left out ([nan]). *)
Definition logAt (x : float) : float :=
  if (x =? number 1024)%float then 0x1.bb9d3beb8c86bp+2%float
  else if (x =? number (2 ^ 40))%float then 0x1.bb9d3beb8c86bp+4%float
  else if (x =? number (2 ^ 50 - 3))%float then 0x1.1542457337d43p+5%float
  else if (x =? number (2 ^ 50))%float then 0x1.1542457337d43p+5%float
  else nan.

(** [(bytes / Math.pow(1024, i)).toFixed(2)] in hundredths: the integer [n]
    for which [n / 100] is closest to the quotient, the larger one on a
    tie.  For [0 < bytes < 2^53] the quotient is exact in binary64 (a
    division by a power of two, or by infinity from [i = 103] on, where the
    formula gives 0 as well); for a negative index the quotient is the
    product [bytes * 1024^-i]. *)
Definition toFixed2 (bytes i : Z) : Z :=
  if 0 <=? i then (200 * bytes + 1024 ^ i) / (2 * 1024 ^ i)
  else 100 * bytes * 1024 ^ (- i).

Definition digits (n : Z) : string := NilEmpty.string_of_uint (N.to_uint (Z.to_N n)).

(** [parseFloat(text) + ''] for the text of [n] hundredths: the decimal
    without trailing zeros. *)
Definition showHundredths (n : Z) : string :=
  let whole := n / 100 in
  let frac := n mod 100 in
  if frac =? 0 then digits whole
  else if frac mod 10 =? 0 then digits whole +:+ "." +:+ digits (frac / 10)
  else digits whole +:+ "." +:+ digits (frac / 10) +:+ digits (frac mod 10).

(** [parseFloat((bytes / Math.pow(k, i)).toFixed(2))] inside the string
    concatenation, for [0 < bytes < 2^53].  With a NaN index the power and
    the quotient are NaN; with an infinite index the power is infinity or 0
    and the quotient 0 or infinity.  [None] stands for a number of 2^53 or
    more, whose text (the shortest decimal that reads back) is not embedded;
    only a negative index leads there. *)
Definition quotientText (bytes : Z) (i : Floored) : option string :=
  match i with
  | Whole i =>
      let n := toFixed2 bytes i in
      if n / 100 <? 2 ^ 53 then Some (showHundredths n) else None
  | NotANumber => Some "NaN"
  | Infinite false => Some "0"
  | Infinite true => Some "Infinity"
  end.

(** [sizes[i]]: the element at a whole index inside the list, [undefined]
    for every other index. *)
Definition unitAt (sizes : list string) (i : Floored) : option string :=
  match i with
  | Whole i => if 0 <=? i then sizes !! Z.to_nat i else None
  | NotANumber | Infinite _ => None
  end.

(** [undefined] inside a string concatenation. *)
Definition orUndefined (s : option string) : string :=
  match s with
  | Some u => u
  | None => "undefined"
  end.

End JsNumber.

Module FolderManagerBytes.

Import JsNumber.
Local Open Scope Z_scope.

Definition sizes : list string := ["Bytes"; "KB"; "MB"; "GB"].

(** [formatBytes] of FolderManager.js, on the byte counts that are
    integers from 0 up to 2^53 (excluded); [None] outside them and where
    [quotientText] has no text. *)
Definition formatBytes (log : float -> float) (bytes : Z) : option string :=
  if bytes =? 0 then Some "0 Bytes"
  else if (bytes <? 0) || (2 ^ 53 <=? bytes) then None
  else
    let i := index log bytes in
    match quotientText bytes i with
    | Some text => Some (text +:+ " " +:+ orUndefined (unitAt sizes i))
    | None => None
    end.

End FolderManagerBytes.

Module DashboardHome.

Import JsNumber.
Local Open Scope Z_scope.

Definition sizes : list string := ["Bytes"; "KB"; "MB"; "GB"; "TB"].

(** [formatBytes] of DashboardHome.js, on the same byte counts. *)
Definition formatBytes (log : float -> float) (bytes : Z) : option string :=
  if bytes =? 0 then Some "0 Bytes"
  else if (bytes <? 0) || (2 ^ 53 <=? bytes) then None
  else
    let i := index log bytes in
    match quotientText bytes i with
    | Some text => Some (text +:+ " " +:+ orUndefined (unitAt sizes i))
    | None => None
    end.

End DashboardHome.

(** ** The operations on a cart, from both components *)

Module CartOps.

Import PrintOrderCart.

Inductive Op : Type :=
| AddToCart (file : File) (product : Product)
| HandleAddToCart (file : File) (product : Product)
| UpdateQuantity (index : nat) (delta : Z)
| RemoveItem (index : nat).

(** One operation on the cart that it reads: the operations of the dialog
    read the cart of the component, [handleAddToCart] reads the cart in
    local storage.  [CartStores] below keeps the two stores apart. *)
Definition apply (op : Op) (cart : Cart) : Cart :=
  match op with
  | AddToCart file product => addToCart file product cart
  | HandleAddToCart file product => GalleryPage.handleAddToCart file product (Some cart)
  | UpdateQuantity index delta => updateQuantity index delta cart
  | RemoveItem index => removeItem index cart
  end.


(** The pair that identifies a line. *)
Definition lineKey (item : Item) : string * string := (file_id item, product_id item).

(** Every line has a quantity of at least 1 and no two lines have the same
    file and product. *)
Definition wellFormed (cart : Cart) : Prop :=
  Forall (fun item => (1 <= quantity item)%Z) cart /\ NoDup (lineKey <$> cart).

End CartOps.

(** ** The couple's names in the heading of the gallery (GalleryPage.js) *)

Module CoupleNames.

Import Js.

Local Open Scope N_scope.

(** [\d] *)
Definition isDigit (c : N) : bool := (48 <=? c) && (c <=? 57).

(** [[\.\-\/]] *)
Definition isDateSep (c : N) : bool := (c =? 46) || (c =? 45) || (c =? 47).

Local Close Scope N_scope.

(** A character that can be part of a date with its surrounding white
    space. *)
Definition dateChar (c : N) : bool := isWhiteSpace c || isDigit c || isDateSep c.

(** [\s*] at the head of a text: what is left after the white space. *)
Fixpoint skipSpaces (s : jsstring) : jsstring :=
  match s with
  | c :: rest => if isWhiteSpace c then skipSpaces rest else s
  | [] => []
  end.

(** [\d{n}] at the head of a text: what is left after [n] digits. *)
Fixpoint digitsThen (n : nat) (s : jsstring) : option jsstring :=
  match n with
  | O => Some s
  | S n' =>
      match s with
      | c :: rest => if isDigit c then digitsThen n' rest else None
      | [] => None
      end
  end.

(** [[\.\-\/]] at the head of a text. *)
Definition sepThen (s : jsstring) : option jsstring :=
  match s with
  | c :: rest => if isDateSep c then Some rest else None
  | [] => None
  end.

(** [\s*$]: only white space is left. *)
Definition spacesToEnd (s : jsstring) : bool := List.forallb isWhiteSpace s.

(** Whether a text, from its first character to its end, matches
    [\s*\d{2}[\.\-\/]\d{2}[\.\-\/]\d{2,4}\s*$]. *)
Definition matchesDotted (s : jsstring) : bool :=
  match digitsThen 2 (skipSpaces s) with
  | Some r1 =>
      match sepThen r1 with
      | Some r2 =>
          match digitsThen 2 r2 with
          | Some r3 =>
              match sepThen r3 with
              | Some r4 =>
                  List.existsb
                    (fun k => match digitsThen k r4 with
                              | Some r5 => spacesToEnd r5
                              | None => false
                              end)
                    [4; 3; 2]%nat
              | None => false
              end
          | None => false
          end
      | None => false
      end
  | None => false
  end.

(** Whether a text, from its first character to its end, matches
    [\s*\d{n}\s*$]. *)
Definition matchesDigits (n : nat) (s : jsstring) : bool :=
  match digitsThen n (skipSpaces s) with
  | Some rest => spacesToEnd rest
  | None => false
  end.

(** [s.replace(re, '')] for a pattern that ends in [$] and has no [g] flag:
    the match that starts leftmost is removed, and it runs to the end of the
    text. *)
Fixpoint removeMatch (matches : jsstring -> bool) (s : jsstring) : jsstring :=
  if matches s then []
  else match s with
       | c :: rest => c :: removeMatch matches rest
       | [] => []
       end.

(** [s.trim()] *)
Definition trim (s : jsstring) : jsstring :=
  List.rev (skipSpaces (List.rev (skipSpaces s))).

(** [extractCoupleNames]: [null] for a missing or empty folder name;
    otherwise the name without its date, or the name itself when nothing is
    left of it. *)
Definition extractCoupleNames (folderName : option jsstring) : option jsstring :=
  match folderName with
  | None | Some [] => None
  | Some name =>
      let withoutDate :=
        trim (removeMatch (matchesDigits 8)
                (removeMatch (matchesDigits 6)
                   (removeMatch matchesDotted name))) in
      match withoutDate with
      | [] => Some name
      | _ => Some withoutDate
      end
  end.

End CoupleNames.

(** ** Selections: a JS [Set] of file ids *)

Module JsSet.

(** The elements of the set in insertion order, each once. *)
Definition has (x : string) (s : list string) : bool := bool_decide (elem_of x s).

(** [s.add(x)]: a new element goes last, a present one stays where it is. *)
Definition add (x : string) (s : list string) : list string :=
  if has x s then s else (s ++ [x])%list.

(** [s.delete(x)] *)
Definition delete (x : string) (s : list string) : list string :=
  filter (fun y => y <> x) s.

(** [new Set(array)] *)
Definition ofList (l : list string) : list string :=
  List.fold_left (fun s x => add x s) l [].

End JsSet.

(** ** Selecting photos in the gallery and files in the admin's folder view *)

Module Selection.

(** [toggleSelectFile], the same in GalleryPage.js and FolderManager.js. *)
Definition toggleSelectFile (fileId : string) (selectedFiles : list string)
  : list string :=
  if JsSet.has fileId selectedFiles
  then JsSet.delete fileId selectedFiles
  else JsSet.add fileId selectedFiles.

(** [selectAllFiles]: [ids] are the ids of the files that can be selected
    (the images of the gallery, the files of the admin's folder), in the
    order of the list. *)
Definition selectAllFiles (ids : list string) (selectedFiles : list string)
  : list string :=
  if (length selectedFiles =? length ids)%nat then [] else JsSet.ofList ids.

(** [selectAllFiles] of GalleryPage.js. *)
Definition gallerySelectAll (st : GalleryPage.State) (selectedFiles : list string)
  : list string :=
  selectAllFiles (List.map GalleryPage.id (GalleryPage.imageFiles st)) selectedFiles.

(** [selectAllFiles] of FolderManager.js, over the files of the folder. *)
Definition folderSelectAll (files : list GalleryPage.FileEntry)
    (selectedFiles : list string) : list string :=
  selectAllFiles (List.map GalleryPage.id files) selectedFiles.

Section DeleteSelected.

Context {World : Type}.
Variable send : string -> World -> Ui.Fetched unit * World.

Record Loop : Type := mkLoop {
  deleted : nat;
  requests : list string;
  world : World
}.

(** One turn of the loop of [deleteSelectedFiles]: [DELETE /api/files/{id}];
    an answer that is not ok and a failed request are passed over (the
    latter is logged to the console). *)
Definition deleteOne (acc : Loop) (fileId : string) : Loop :=
  let '(answer, w) := send fileId (world acc) in
  let succeeded :=
    match answer with
    | Ui.Resolved res => Ui.ok res
    | Ui.Rejected _ => false
    end in
  mkLoop (if succeeded then S (deleted acc) else deleted acc)
         (requests acc ++ [fileId])%list w.

Record Outcome : Type := mkOutcome {
  shown : list Ui.Toast;
  posted : list string;
  count : nat;
  selectedAfter : list string;
  selectionModeAfter : bool;
  refreshed : bool;
  after : World
}.

(** [deleteSelectedFiles] of FolderManager.js. *)
Definition deleteSelectedFiles (selectedFiles : list string) (selectionMode : bool)
    (w : World) : Outcome :=
  match selectedFiles with
  | [] => mkOutcome [] [] 0 selectedFiles selectionMode false w
  | _ =>
      let l := List.fold_left deleteOne selectedFiles (mkLoop 0 [] w) in
      mkOutcome
        [Ui.ToastSuccess ("Deleted " +:+ Ui.show_nat (deleted l) +:+ " file(s)")]
        (requests l) (deleted l) [] false true (world l)
  end.

End DeleteSelected.

End Selection.

(** ** The lightbox and its slideshow (GalleryPage.js) *)

Module Lightbox.

Record State : Type := mkState {
  lightboxIndex : option nat;
  slideshowPlaying : bool
}.

Definition closed : State := mkState None false.

(** What happens to the lightbox.  [Open] is a click on the photo at
    [index] of the grid, [OpenFirst] the "Slideshow" button of the action
    bar, [Tick] the interval of the running slideshow. *)
Inductive Event : Type :=
| Open (index : nat)
| OpenFirst
| Next
| Prev
| ToggleSlideshow
| Tick
| Close.

(** The callback of the interval:
    [prev < imageFiles.length - 1 ? prev + 1 : 0]. *)
Definition advance (count : nat) (prev : nat) : nat :=
  if (prev + 1 <? count)%nat then prev + 1 else 0.

(** The handlers, for a page with [count] photos.  The grid has a photo at
    [index] only below [count], the "Slideshow" button is there only when
    there is a photo, and the controls of the lightbox and the interval act
    only while the lightbox is open. *)
Definition handle (count : nat) (selectionMode : bool) (e : Event) (st : State) : State :=
  match e, lightboxIndex st with
  | Open index, _ =>
      if (index <? count)%nat && negb selectionMode
      then mkState (Some index) (slideshowPlaying st)
      else st
  | OpenFirst, _ =>
      if (0 <? count)%nat && negb selectionMode
      then mkState (Some 0) (slideshowPlaying st)
      else st
  | Next, Some i =>
      if (i + 1 <? count)%nat then mkState (Some (i + 1)) (slideshowPlaying st)
      else if slideshowPlaying st then mkState (Some 0) true
      else st
  | Prev, Some i =>
      if (0 <? i)%nat then mkState (Some (i - 1)) (slideshowPlaying st) else st
  | ToggleSlideshow, Some i => mkState (Some i) (negb (slideshowPlaying st))
  | Tick, Some i =>
      if slideshowPlaying st then mkState (Some (advance count i)) true else st
  | Close, Some i => mkState None false
  | _, None => st
  end.

Definition run (count : nat) (selectionMode : bool) (events : list Event) (st : State)
  : State :=
  List.fold_left (fun s e => handle count selectionMode e s) events st.

(** The lightbox shows a photo: [lightboxIndex !== null &&
    imageFiles[lightboxIndex]]. *)
Definition showing (count : nat) (st : State) : option nat :=
  match lightboxIndex st with
  | Some i => if (i <? count)%nat then Some i else None
  | None => None
  end.

End Lightbox.

(** ** The third upload button of the gallery: the empty state *)

Module EmptyState.

(** [folders.length === 0 && files.length === 0], and inside it
    [canEdit && ...] around the button [empty-upload-btn]. *)
Definition emptyUploadShown (folderCount : nat) (st : GalleryPage.State) : bool :=
  (folderCount =? 0)%nat && (length (GalleryPage.files st) =? 0)%nat
  && GalleryPage.canEdit st.

End EmptyState.

(** ** The admin session (AuthContext.js) *)

Module AuthContext.

(** The answer of [POST /api/auth/login], as far as [login] reads it. *)
Record LoginData : Type := mkLoginData {
  data_token : string;
  data_username : string
}.

(** The object kept in [user]: the answer of [GET /api/auth/me], or
    [{ username }] after a login.  A field that the object does not have is
    [None]. *)
Record UserObject : Type := mkUser {
  username : option string
}.

(** [token], [user], [loading], and the item 'admin_token' of local
    storage. *)
Record State : Type := mkState {
  token : option string;
  user : option UserObject;
  loading : bool;
  stored : option string
}.

(** The provider as it mounts: [useState(localStorage.getItem('admin_token'))]. *)
Definition mount (storage : option string) : State := mkState storage None true storage.

(** [!!token && !!user] *)
Definition isAuthenticated (st : State) : bool :=
  Ui.truthy (token st) && match user st with Some _ => true | None => false end.

(** [logout] *)
Definition logout (st : State) : State := mkState None None (loading st) None.

(** [verifyToken]: an ok answer sets the user; an answer that is not ok, a
    body that does not parse and a failed request log out; [finally] clears
    [loading]. *)
Definition verifyToken (answer : Ui.Fetched UserObject) (st : State) : State :=
  let st' :=
    match answer with
    | Ui.Resolved res =>
        if Ui.ok res
        then match Ui.json res with
             | Ui.Data u => mkState (token st) (Some u) (loading st) (stored st)
             | Ui.ErrorObject _ =>
                 mkState (token st) (Some (mkUser None)) (loading st) (stored st)
             | Ui.SyntaxError _ => logout st
             end
        else logout st
    | Ui.Rejected _ => logout st
    end in
  mkState (token st') (user st') false (stored st').

(** The effect on [token]: a truthy token is verified, otherwise [loading]
    is cleared. *)
Definition tokenEffect (answer : Ui.Fetched UserObject) (st : State) : State :=
  if Ui.truthy (token st) then verifyToken answer st
  else mkState (token st) (user st) false (stored st).

(** [login]: what it throws ([inl], the message of the exception) or
    returns ([inr]), and the state it leaves.  An answer that is not ok
    throws [error.detail || 'Login failed']; an ok answer stores the token
    and sets [token] and [user].  An ok answer without the fields stores the
    text "undefined" while [token] itself is undefined. *)
Definition login (answer : Ui.Fetched LoginData) (st : State)
  : (string + option LoginData) * State :=
  match answer with
  | Ui.Rejected message => (inl message, st)
  | Ui.Resolved res =>
      if negb (Ui.ok res)
      then match Ui.json res with
           | Ui.SyntaxError message => (inl message, st)
           | Ui.ErrorObject detail =>
               (inl (if Ui.truthy detail
                     then match detail with Some d => d | None => "" end
                     else "Login failed"), st)
           | Ui.Data _ => (inl "Login failed", st)
           end
      else match Ui.json res with
           | Ui.SyntaxError message => (inl message, st)
           | Ui.ErrorObject _ =>
               (inr None, mkState None (Some (mkUser None)) (loading st) (Some "undefined"))
           | Ui.Data d =>
               (inr (Some d),
                mkState (Some (data_token d)) (Some (mkUser (Some (data_username d))))
                        (loading st) (Some (data_token d)))
           end
  end.

(** What happens to the session. *)
Inductive Op : Type :=
| Login (answer : Ui.Fetched LoginData)
| Logout
| TokenEffect (answer : Ui.Fetched UserObject).

Definition apply (op : Op) (st : State) : State :=
  match op with
  | Login answer => snd (login answer st)
  | Logout => logout st
  | TokenEffect answer => tokenEffect answer st
  end.

Definition run (ops : list Op) (st : State) : State :=
  List.fold_left (fun s op => apply op s) ops st.

End AuthContext.

(** ** The routes (App.js) *)

Module App.

(** The route that matches the location. *)
Inductive Location : Type :=
| AdminSetup        (* /admin/setup *)
| AdminLogin        (* /admin/login *)
| Admin             (* /admin/* *)
| Gallery (token : string)   (* /:token *)
| Root.             (* / *)

Inductive Page : Type :=
| LoadingPage
| SetupPage
| LoginPage
| AdminDashboard
| GalleryPage (token : string).

Inductive Element : Type :=
| Show (page : Page)
| Navigate (to : Location).

(** [checkSetup]: [data.setup_complete] of the answer, whatever its status;
    [false] when the request fails or the body does not parse. *)
Definition checkSetup (answer : Ui.Fetched bool) : bool :=
  match answer with
  | Ui.Resolved res =>
      match Ui.json res with
      | Ui.Data setup_complete => setup_complete
      | Ui.ErrorObject _ => false
      | Ui.SyntaxError _ => false
      end
  | Ui.Rejected _ => false
  end.

(** [ProtectedRoute] around the dashboard. *)
Definition protectedRoute (isAuthenticated loading : bool) : Element :=
  if loading then Show LoadingPage
  else if negb isAuthenticated then Navigate AdminLogin
  else Show AdminDashboard.

(** [AppRoutes]: [setupComplete] is [None] until [checkSetup] has answered. *)
Definition route (setupComplete : option bool) (isAuthenticated loading : bool)
    (location : Location) : Element :=
  match setupComplete with
  | None => Show LoadingPage
  | Some complete =>
      match location with
      | AdminSetup => if complete then Navigate Admin else Show SetupPage
      | AdminLogin =>
          if negb complete then Navigate AdminSetup
          else if isAuthenticated then Navigate Admin
          else Show LoginPage
      | Admin =>
          if negb complete then Navigate AdminSetup
          else protectedRoute isAuthenticated loading
      | Gallery token => Show (GalleryPage token)
      | Root => if negb complete then Navigate AdminSetup else Navigate Admin
      end
  end.

(** Following [Navigate] at most [hops] times. *)
Fixpoint settle (hops : nat) (setupComplete : option bool)
    (isAuthenticated loading : bool) (location : Location) : option Page :=
  match route setupComplete isAuthenticated loading location with
  | Show page => Some page
  | Navigate to =>
      match hops with
      | O => None
      | S hops' => settle hops' setupComplete isAuthenticated loading to
      end
  end.

End App.

(** ** The pages of the activity log (ActivityLogs.js) *)

Module LogPaging.

Local Open Scope Z_scope.

Definition limit : Z := 20.

(** [Math.ceil(total / limit)] for a count [total >= 0]. *)
Definition totalPages (total : Z) : Z := (total + limit - 1) / limit.

(** [skip] of [fetchLogs]. *)
Definition skip (page : Z) : Z := page * limit.

(** The pagination bar: [totalPages > 1]. *)
Definition barShown (total : Z) : bool := 1 <? totalPages total.

Definition prevDisabled (page : Z) : bool := page =? 0.

(** [page >= totalPages - 1] *)
Definition nextDisabled (page total : Z) : bool := totalPages total - 1 <=? page.

(** "Showing from - to of total" *)
Definition shownFrom (page : Z) : Z := page * limit + 1.
Definition shownTo (page total : Z) : Z := Z.min ((page + 1) * limit) total.

Inductive Click : Type := Previous | Following.

(** A click on a button of the bar reaches [setPage] when the bar is shown
    and the button is not disabled. *)
Definition click (total : Z) (c : Click) (page : Z) : Z :=
  if barShown total
  then match c with
       | Previous => if prevDisabled page then page else page - 1
       | Following => if nextDisabled page total then page else page + 1
       end
  else page.

Definition clicks (total : Z) (cs : list Click) (page : Z) : Z :=
  List.fold_left (fun p c => click total c p) cs page.

End LogPaging.

(** ** The cart badge and the confirmation of an order *)

Module CartBadge.

Import PrintOrderCart.

(** [cart.reduce((sum, item) => sum + item.quantity, 0)], the number of
    [updateCartCount]. *)
Definition countOf (cart : Cart) : Z :=
  List.fold_left (fun sum item => (sum + quantity item)%Z) cart 0%Z.

(** The amount of the confirmation step and of its PayPal link:
    [total], from the cart of the state. *)
Definition confirmAmount (st : State) : float := total (cart st).

(** The index of the line that [addToCart] touches: the matching line, or
    the end of the cart for a new line. *)
Definition lineIndex (file : File) (product : Product) (cart : Cart) : nat :=
  match list_find (sameLine file product) cart with
  | Some (i, _) => i
  | None => length cart
  end.

End CartBadge.

(** ** Selection mode and favourites mode of the gallery (GalleryPage.js) *)

Module GalleryModes.

Import GalleryPage.

Definition setModes (st : State) (selection favourites : bool) : State :=
  mkState (gallery st) (files st) (loading st) (error st) selection favourites
          (uploading st).

(** Whether a control is on the page that [render] returns. *)
Definition onPage (c : Control) (st : State) : bool :=
  match render st with
  | GalleryView cs => bool_decide (elem_of c cs)
  | _ => false
  end.

(** What the visitor does: a click on a control ([accepted] says whether
    the request behind "Save Album Favourites" went through), a move to
    another folder, and the arrival of the files of the folder. *)
Inductive Event : Type :=
| Click (c : Control) (accepted : bool)
| NavigateToFolder
| ContentLoaded (content : list FileEntry).

(** The handlers that change the two modes: "Select" ([setSelectionMode(true)]),
    [enterFavouritesMode], [exitSelectionMode] behind "Cancel" and after a
    saved selection, and [navigateToFolder]. *)
Definition handle (e : Event) (st : State) : State :=
  match e with
  | Click c accepted =>
      if onPage c st
      then match c with
           | select_btn => setModes st true (favouritesMode st)
           | select_favourites_btn => setModes st true true
           | cancel_select_btn => setModes st false false
           | save_favourites_btn => if accepted then setModes st false false else st
           | _ => st
           end
      else st
  | NavigateToFolder => setModes st false false
  | ContentLoaded content =>
      mkState (gallery st) content (loading st) (error st) (selectionMode st)
              (favouritesMode st) (uploading st)
  end.

Definition run (events : list Event) (st : State) : State :=
  List.fold_left (fun s e => handle e s) events st.

End GalleryModes.

(** ** The sidebar of the admin panel (AdminDashboard.js) *)

Module AdminNav.

Record NavItem : Type := mkNavItem {
  path : string;
  label : string;
  exact : bool
}.

Definition navItems : list NavItem :=
  [mkNavItem "/admin" "Dashboard" true;
   mkNavItem "/admin/folders" "Galleries" false;
   mkNavItem "/admin/shares" "Share Links" false;
   mkNavItem "/admin/activity" "Activity Logs" false].

(** [isActive(item.path, item.exact)] at [location.pathname]. *)
Definition isActive (pathname : string) (item : NavItem) : bool :=
  if exact item then String.eqb pathname (path item)
  else String.prefix (path item) pathname.

(** [handleLogout]: the session after [logout], the location of
    [navigate], and the toast. *)
Definition handleLogout (st : AuthContext.State)
  : AuthContext.State * App.Location * Ui.Toast :=
  (AuthContext.logout st, App.AdminLogin, Ui.ToastSuccess "Logged out successfully").

End AdminNav.

(** ** The two carts of a gallery session: the state of the dialog and
       local storage *)

Module CartStores.

Import PrintOrderCart.

(** [component] is the [cart] of the mounted [PrintOrderCart]; [stored] is
    the item 'print_cart_<token>' of local storage once parsed, [None] when
    it is absent or does not parse. *)
Record Stores : Type := mkStores {
  component : Cart;
  stored : option Cart
}.

Definition start : Stores := mkStores [] None.

(** The second effect of the dialog, which runs after every render with a
    new [cart]: [localStorage.setItem(key, JSON.stringify(cart))]. *)
Definition save (c : Cart) : Stores := mkStores c (Some c).

(** What happens to the two carts: the dialog mounts (a page load), the
    three operations of the dialog, an order that the server accepted, and
    a print added from the gallery. *)
Inductive Op : Type :=
| Mount
| AddToCart (file : File) (product : Product)
| UpdateQuantity (index : nat) (delta : Z)
| RemoveItem (index : nat)
| OrderAccepted
| HandleAddToCart (file : File) (product : Product).

(** The dialog mounts with an empty cart, loads the stored one and saves
    what it shows.  Its operations call [setCart] with a new array, so the
    second effect saves the result; [updateQuantity] past the end throws
    before [setCart].  [submitOrder] empties the cart and removes the item,
    and the second effect stores the empty cart.  [handleAddToCart] of the
    gallery page reads and writes local storage only. *)
Definition apply (op : Op) (s : Stores) : Stores :=
  match op with
  | Mount => save (cart (loadSaved (stored s) initial))
  | AddToCart file product => save (addToCart file product (component s))
  | UpdateQuantity index delta =>
      match component s !! index with
      | Some _ => save (updateQuantity index delta (component s))
      | None => s
      end
  | RemoveItem index => save (removeItem index (component s))
  | OrderAccepted => save []
  | HandleAddToCart file product =>
      mkStores (component s) (Some (GalleryPage.handleAddToCart file product (stored s)))
  end.

Definition run (ops : list Op) (s : Stores) : Stores :=
  List.fold_left (fun acc op => apply op acc) ops s.

End CartStores.

(** * Properties *)

(** ** Share token normalisation *)

Section CleanToken.

Import Js ShareManager.

Lemma isLowerAlnum_spec (c : N) : isLowerAlnum c = true <-> lower_alnum c.
Proof.
  unfold isLowerAlnum, lower_alnum.
  rewrite orb_true_iff, !andb_true_iff, !N.leb_le. reflexivity.
Qed.

Lemma lowerUnit_alnum (c : N) : isLowerAlnum c = true -> lowerUnit c = [c].
Proof.
  intros H. apply isLowerAlnum_spec in H. unfold lower_alnum in H. unfold lowerUnit.
  assert (E1 : (65 <=? c)%N && (c <=? 90)%N = false)
    by (rewrite andb_false_iff, !N.leb_gt; lia).
  assert (E2 : (192 <=? c)%N && (c <=? 222)%N && negb (c =? 215)%N = false)
    by (rewrite !andb_false_iff, !N.leb_gt; lia).
  assert (E3 : (c =? 304)%N = false) by (rewrite N.eqb_neq; lia).
  assert (E4 : (c =? 8490)%N = false) by (rewrite N.eqb_neq; lia).
  rewrite E1, E2, E3, E4. reflexivity.
Qed.

Lemma toLowerCase_alnum (s : jsstring) :
  List.forallb isLowerAlnum s = true -> toLowerCase s = s.
Proof.
  induction s as [|c s IH]; simpl; [reflexivity|].
  intros [Hc Hs]%andb_prop. rewrite (lowerUnit_alnum c Hc), (IH Hs). reflexivity.
Qed.

Lemma stripNonAlnum_forallb (s : jsstring) :
  List.forallb isLowerAlnum (stripNonAlnum s) = true.
Proof.
  induction s as [|c s IH]; simpl; [reflexivity|].
  destruct (isLowerAlnum c) eqn:E; simpl; [rewrite E|]; exact IH.
Qed.

Lemma stripNonAlnum_alnum (s : jsstring) :
  List.forallb isLowerAlnum s = true -> stripNonAlnum s = s.
Proof.
  induction s as [|c s IH]; simpl; [reflexivity|].
  intros [Hc Hs]%andb_prop. rewrite Hc, (IH Hs). reflexivity.
Qed.

Lemma cleanToken_idempotent (s : jsstring) : cleanToken (cleanToken s) = cleanToken s.
Proof.
  unfold cleanToken at 1.
  pose proof (stripNonAlnum_forallb (toLowerCase s)) as H. fold (cleanToken s) in H.
  rewrite (toLowerCase_alnum _ H). apply stripNonAlnum_alnum, H.
Qed.

Lemma findShare_clean (shares : list Backend.Share) (t : jsstring) :
  Backend.findShare shares (cleanToken t) = Backend.findShare shares t.
Proof. unfold Backend.findShare. rewrite cleanToken_idempotent. reflexivity. Qed.

Lemma resolveShare_clean (folders : list string) (shares : list Backend.Share)
    (t : jsstring) :
  Backend.resolveShare folders shares (cleanToken t)
  = Backend.resolveShare folders shares t.
Proof. unfold Backend.resolveShare. rewrite findShare_clean. reflexivity. Qed.

End CleanToken.

(** C2. The expression [token.toLowerCase().replace(/[^a-z0-9]/g, '')] of
    the share form yields lowercase alphanumerics only, is idempotent, and
    sends "Gina Mark 30-10-21" and "ginamark301021" to the same token
    "ginamark301021".  [createShare] posts the cleaned token and the preview
    shows it; the server's lookup and creation clean what is submitted the
    same way, so a submitted token and its cleaned form resolve to the same
    share and the two variants resolve identically. *)
Theorem cleanToken_normalizes :
  (forall s, Forall ShareManager.lower_alnum (ShareManager.cleanToken s))
  /\ (forall s, ShareManager.cleanToken (ShareManager.cleanToken s) = ShareManager.cleanToken s)
  /\ ShareManager.cleanToken (Js.of_string "Gina Mark 30-10-21") = Js.of_string "ginamark301021"
  /\ ShareManager.cleanToken (Js.of_string "ginamark301021") = Js.of_string "ginamark301021"
  /\ (forall newShare body,
        ShareManager.createShare newShare = ShareManager.Posted body ->
        ShareManager.req_token body = ShareManager.cleanToken (ShareManager.token newShare))
  /\ (forall newShare,
        ShareManager.cleanToken (ShareManager.token newShare) <> [] ->
        ShareManager.previewToken newShare
        = ShareManager.cleanToken (ShareManager.token newShare))
  /\ (forall folders shares t,
        Backend.resolveShare folders shares (ShareManager.cleanToken t)
        = Backend.resolveShare folders shares t)
  /\ (forall shares folder tier,
        Backend.createShare shares (Js.of_string "Gina Mark 30-10-21") folder tier
        = Backend.createShare shares (Js.of_string "ginamark301021") folder tier)
  /\ (forall folders shares,
        Backend.resolveShare folders shares (Js.of_string "Gina Mark 30-10-21")
        = Backend.resolveShare folders shares (Js.of_string "ginamark301021")).
Proof.
  repeat split.
  - intros s. apply Forall_forall. intros c Hc.
    apply isLowerAlnum_spec.
    pose proof (stripNonAlnum_forallb (Js.toLowerCase s)) as H.
    rewrite List.forallb_forall in H. apply H.
    apply list_elem_of_In. exact Hc.
  - apply cleanToken_idempotent.
  - intros newShare body. unfold ShareManager.createShare.
    destruct (_ || _); [discriminate|]. intros [= <-]. reflexivity.
  - intros newShare H. unfold ShareManager.previewToken.
    destruct (ShareManager.cleanToken _); [contradiction|reflexivity].
  - intros. apply resolveShare_clean.
Qed.

(** ** Permission tiers *)

Section Permissions.

Import Backend GalleryPage.

Lemma canEdit_spec (st : State) :
  canEdit st = true <->
  exists g, gallery st = Some g /\ (permission g = Some "edit" \/ permission g = Some "full").
Proof.
  unfold canEdit. destruct (gallery st) as [g|].
  - rewrite orb_true_iff, !bool_decide_eq_true. split.
    + intros H. exists g. split; [reflexivity|exact H].
    + intros (g' & [= <-] & H). exact H.
  - split; [discriminate|]. intros (g & [=] & _).
Qed.

Lemma upload_on_page (st : State) :
  (elem_of section_upload_btn (controls st) \/ elem_of upload_btn (controls st))
  <-> canEdit st = true
      /\ (length (imageFiles st) = 0 \/ selectionMode st = false).
Proof.
  unfold controls, uploadSection, photosSection, actionButtons.
  destruct (length (imageFiles st)) as [|n]; destruct (selectionMode st);
    destruct (canEdit st); destruct (favouritesMode st); simpl;
    rewrite ?elem_of_cons, ?elem_of_nil; split; intros H;
    intuition (try discriminate; try lia).
Qed.

Lemma favourites_on_page (st : State) :
  elem_of select_favourites_btn (controls st)
  <-> canEdit st = true
      /\ 0 < length (imageFiles st) /\ selectionMode st = false.
Proof.
  unfold controls, uploadSection, photosSection, actionButtons.
  destruct (length (imageFiles st)) as [|n]; destruct (selectionMode st);
    destruct (canEdit st); destruct (favouritesMode st); simpl;
    rewrite ?elem_of_cons, ?elem_of_nil; split; intros H;
    intuition (try discriminate; try lia).
Qed.

Lemma onPage_spec (c : Control) (st : State) :
  GalleryModes.onPage c st = true
  <-> loading st = false /\ Ui.truthy (error st) = false /\ elem_of c (controls st).
Proof.
  unfold GalleryModes.onPage, render. fold (controls st).
  destruct (loading st); [split; [discriminate|intros (H & _); discriminate]|].
  destruct (Ui.truthy (error st)); [split; [discriminate|intros (_ & H & _); discriminate]|].
  rewrite bool_decide_eq_true. tauto.
Qed.

End Permissions.

Section ModesFacts.

Import GalleryPage GalleryModes.

Lemma favourites_button_needs_canEdit (st : State) :
  onPage select_favourites_btn st = true -> canEdit st = true.
Proof.
  unfold onPage, render. destruct (loading st); [discriminate|].
  destruct (Ui.truthy (error st)); [discriminate|].
  rewrite bool_decide_eq_true. intros H. apply favourites_on_page in H. apply H.
Qed.

Lemma handle_modes (e : Event) (st : State) :
  (favouritesMode st = true -> selectionMode st = true /\ canEdit st = true) ->
  gallery (handle e st) = gallery st
  /\ (favouritesMode (handle e st) = true ->
      selectionMode (handle e st) = true /\ canEdit (handle e st) = true).
Proof.
  intros Hinv.
  assert (Hcan : forall st', gallery st' = gallery st -> canEdit st' = canEdit st).
  { intros st' Hg. unfold canEdit. rewrite Hg. reflexivity. }
  destruct e as [c accepted| |content]; simpl.
  - destruct (onPage c st) eqn:Hon; [|split; [reflexivity|exact Hinv]].
    destruct c; try (split; [reflexivity|exact Hinv]).
    + split; [reflexivity|]. simpl. intros Hf. destruct (Hinv Hf) as [_ Hc].
      split; [reflexivity|]. rewrite <- Hc. apply Hcan. reflexivity.
    + split; [reflexivity|]. simpl. intros _. split; [reflexivity|].
      rewrite <- (favourites_button_needs_canEdit st Hon). apply Hcan. reflexivity.
    + destruct accepted; [|split; [reflexivity|exact Hinv]].
      split; [reflexivity|]. simpl. discriminate.
    + split; [reflexivity|]. simpl. discriminate.
  - split; [reflexivity|]. discriminate.
  - split; [reflexivity|]. simpl. intros Hf. destruct (Hinv Hf) as [Hs Hc].
    split; [exact Hs|]. rewrite <- Hc. apply Hcan. reflexivity.
Qed.

Lemma run_modes (events : list Event) (st : State) :
  (favouritesMode st = true -> selectionMode st = true /\ canEdit st = true) ->
  gallery (run events st) = gallery st
  /\ (favouritesMode (run events st) = true ->
      selectionMode (run events st) = true /\ canEdit (run events st) = true).
Proof.
  revert st. induction events as [|e events IH]; intros st Hinv; [split; [reflexivity|exact Hinv]|].
  simpl. destruct (handle_modes e st Hinv) as [Hg Hinv'].
  destruct (IH (handle e st) Hinv') as [Hg' Hinv'']. split; [congruence|exact Hinv''].
Qed.

Lemma save_button_in_favourites_mode (st : State) :
  elem_of save_favourites_btn (controls st) -> favouritesMode st = true.
Proof.
  unfold controls, uploadSection, photosSection, actionButtons.
  destruct (favouritesMode st); [reflexivity|].
  destruct ((length (imageFiles st) =? 0)%nat && canEdit st);
    destruct (0 <? length (imageFiles st))%nat; destruct (selectionMode st);
    destruct (canEdit st); simpl; rewrite ?elem_of_cons, ?elem_of_nil;
    intuition discriminate.
Qed.

End ModesFacts.

(** C1, the client half as stated: the upload and favourites operations
    would be offered exactly when the permission is edit or full.  A gallery
    opened through an edit share with one photo, after a click on "Select",
    shows the selection bar only, with no upload and no favourites control;
    an edit gallery without a photo shows the upload section and no
    favourites control. *)
Lemma offers_are_not_exactly_canEdit :
  GalleryPage.canEdit
    (GalleryPage.mkState
       (Some (GalleryPage.mkGallery (Some "f1") (Some "Lisa & Tara") (Some "edit")))
       [GalleryPage.mkFileEntry "p1" "one.jpg" "image"] false None true false false)
  = true
  /\ GalleryPage.render
       (GalleryPage.mkState
          (Some (GalleryPage.mkGallery (Some "f1") (Some "Lisa & Tara") (Some "edit")))
          [GalleryPage.mkFileEntry "p1" "one.jpg" "image"] false None true false false)
     = GalleryPage.GalleryView
         [GalleryPage.select_all_btn; GalleryPage.download_selected_btn;
          GalleryPage.cancel_select_btn]
  /\ GalleryPage.canEdit
       (GalleryPage.mkState
          (Some (GalleryPage.mkGallery (Some "f1") (Some "Lisa & Tara") (Some "edit")))
          [] false None false false false)
     = true
  /\ GalleryPage.render
       (GalleryPage.mkState
          (Some (GalleryPage.mkGallery (Some "f1") (Some "Lisa & Tara") (Some "edit")))
          [] false None false false false)
     = GalleryPage.GalleryView [GalleryPage.section_upload_btn]
  /\ ~ (forall st,
          GalleryPage.canEdit st = true ->
          GalleryModes.onPage GalleryPage.select_favourites_btn st = true
          /\ (GalleryModes.onPage GalleryPage.section_upload_btn st = true
              \/ GalleryModes.onPage GalleryPage.upload_btn st = true)).
Proof.
  split; [reflexivity|]. split; [reflexivity|]. split; [reflexivity|].
  split; [reflexivity|].
  intros H.
  destruct (H (GalleryPage.mkState
                 (Some (GalleryPage.mkGallery (Some "f1") (Some "Lisa & Tara")
                          (Some "edit")))
                 [] false None false false false) eq_refl) as [Hfav _].
  vm_compute in Hfav. discriminate Hfav.
Qed.

(** C1, amended.  On the server (its permission table and its lookup, as
    the specification gives them) an upload under a resolved share is
    [Forbidden] for a read share and accepted for an edit or a full one, a
    delete is accepted under full and [Forbidden] under edit, and a share
    whose folder is gone does not resolve.  In the gallery page [canEdit]
    holds exactly when the permission of the resolved gallery is 'edit' or
    'full'.  On the rendered page an upload control is there exactly when
    the gallery view is shown, [canEdit] holds and the page has no photo or
    is not in selection mode; the favourites control exactly when the
    gallery view is shown, [canEdit] holds, the page has a photo and is not
    in selection mode; the upload button of the empty state only when
    [canEdit] holds; and the button that saves the favourites, on a page
    that was not in favourites mode to begin with, only when [canEdit]
    holds, whatever the visitor did since.  So each of them is offered only
    under edit or full.
    For a permission that names a tier, [canEdit] is the server's answer
    for upload and for favourite.  On the share "lisatara": an upload
    through a read share is [Forbidden] (also when the token is typed
    "Lisa Tara"), an edit share accepts the upload and forbids a delete, a
    full share accepts the delete, and once the folder is deleted the
    upload is [NotFound]. *)
Theorem permission_tiers_bound_operations :
  (forall folders shares token s,
      Backend.resolveShare folders shares token = Some s ->
      (Backend.permission s = Backend.TierRead ->
       Backend.gate folders shares token Backend.OpUpload = Backend.Forbidden)
      /\ (Backend.permission s = Backend.TierEdit \/ Backend.permission s = Backend.TierFull ->
          Backend.gate folders shares token Backend.OpUpload = Backend.Accept)
      /\ (Backend.permission s = Backend.TierFull ->
          Backend.gate folders shares token Backend.OpDelete = Backend.Accept)
      /\ (Backend.permission s = Backend.TierEdit ->
          Backend.gate folders shares token Backend.OpDelete = Backend.Forbidden))
  /\ (forall folders shares token s op,
        Backend.findShare shares token = Some s ->
        ~ elem_of (Backend.folder_id s) folders ->
        Backend.gate folders shares token op = Backend.NotFound)
  /\ (forall st,
        GalleryPage.canEdit st = true <->
        exists g, GalleryPage.gallery st = Some g
                  /\ (GalleryPage.permission g = Some "edit"
                      \/ GalleryPage.permission g = Some "full"))
  /\ (forall st,
        (GalleryModes.onPage GalleryPage.section_upload_btn st = true
         \/ GalleryModes.onPage GalleryPage.upload_btn st = true)
        <-> GalleryPage.loading st = false
            /\ Ui.truthy (GalleryPage.error st) = false
            /\ GalleryPage.canEdit st = true
            /\ (length (GalleryPage.imageFiles st) = 0
                \/ GalleryPage.selectionMode st = false))
  /\ (forall st,
        GalleryModes.onPage GalleryPage.select_favourites_btn st = true
        <-> GalleryPage.loading st = false
            /\ Ui.truthy (GalleryPage.error st) = false
            /\ GalleryPage.canEdit st = true
            /\ 0 < length (GalleryPage.imageFiles st)
            /\ GalleryPage.selectionMode st = false)
  /\ (forall folderCount st,
        EmptyState.emptyUploadShown folderCount st = true ->
        GalleryPage.canEdit st = true)
  /\ (forall st events,
        GalleryPage.favouritesMode st = false ->
        GalleryModes.onPage GalleryPage.save_favourites_btn (GalleryModes.run events st)
        = true ->
        GalleryPage.canEdit (GalleryModes.run events st) = true)
  /\ (forall st g tier,
        GalleryPage.gallery st = Some g ->
        GalleryPage.permission g = Some (Backend.tier_name tier) ->
        GalleryPage.canEdit st = Backend.allows tier Backend.OpUpload
        /\ GalleryPage.canEdit st = Backend.allows tier Backend.OpFavourite)
  /\ Backend.gate ["folder-1"]
       [Backend.mkShare (Js.of_string "lisatara") "folder-1" Backend.TierRead]
       (Js.of_string "Lisa Tara") Backend.OpUpload = Backend.Forbidden
  /\ Backend.gate ["folder-1"]
       [Backend.mkShare (Js.of_string "lisatara") "folder-1" Backend.TierEdit]
       (Js.of_string "lisatara") Backend.OpUpload = Backend.Accept
  /\ Backend.gate ["folder-1"]
       [Backend.mkShare (Js.of_string "lisatara") "folder-1" Backend.TierEdit]
       (Js.of_string "lisatara") Backend.OpDelete = Backend.Forbidden
  /\ Backend.gate ["folder-1"]
       [Backend.mkShare (Js.of_string "lisatara") "folder-1" Backend.TierFull]
       (Js.of_string "lisatara") Backend.OpDelete = Backend.Accept
  /\ Backend.gate []
       [Backend.mkShare (Js.of_string "lisatara") "folder-1" Backend.TierEdit]
       (Js.of_string "lisatara") Backend.OpUpload = Backend.NotFound.
Proof.
  split; [|split; [|split; [|split; [|split; [|split; [|split; [|split]]]]]]].
  - intros folders shares token s Hs. unfold Backend.gate. rewrite Hs.
    repeat split; intros H.
    + rewrite H. reflexivity.
    + destruct H as [H|H]; rewrite H; reflexivity.
    + rewrite H. reflexivity.
    + rewrite H. reflexivity.
  - intros folders shares token s op Hs Hgone.
    unfold Backend.gate, Backend.resolveShare. rewrite Hs.
    rewrite bool_decide_eq_false_2 by exact Hgone. reflexivity.
  - apply canEdit_spec.
  - intros st. rewrite !onPage_spec, <- upload_on_page. tauto.
  - intros st. rewrite onPage_spec, favourites_on_page. tauto.
  - intros folderCount st H. unfold EmptyState.emptyUploadShown in H.
    apply andb_prop in H. apply H.
  - intros st events Hf Hon. apply onPage_spec in Hon. destruct Hon as (_ & _ & Hon).
    apply save_button_in_favourites_mode in Hon.
    destruct (run_modes events st) as [_ Hinv]; [rewrite Hf; discriminate|].
    apply Hinv, Hon.
  - intros st g tier Hg Hp. unfold GalleryPage.canEdit. rewrite Hg, Hp.
    destruct tier; split; reflexivity.
  - repeat split; vm_compute; reflexivity.
Qed.

(** ** What the gallery shows when the token does not resolve *)

(** C3.  In the gallery page with selection, uploads and prints: whatever
    two answers that are not ok the server gives to
    [GET /api/gallery/{token}] (a token that never existed, a share whose
    folder is gone, any other status outside 2xx, with any body), and
    whatever the page states were before, the page renders the same
    "Gallery Not Found" view with the same text.  The other copy of the
    page has the same handler, which stores the same message for every such
    answer, but the page never gets to it: its first render throws
    "Camera is not defined", so whatever the server would answer no request
    is made and no "Gallery Not Found" view is shown. *)
Theorem failure_cause_not_shown
    (r1 r2 : Ui.Response GalleryPage.GalleryData)
    (st1 st2 : GalleryPage.State) (old1 old2 : GalleryPageV1.State) :
  Ui.ok r1 = false -> Ui.ok r2 = false ->
  GalleryPage.render (GalleryPage.fetchGallery st1 (Ui.Resolved r1))
  = GalleryPage.ErrorView "Gallery Not Found"
      "This gallery link may have expired or been removed."
  /\ GalleryPage.render (GalleryPage.fetchGallery st1 (Ui.Resolved r1))
     = GalleryPage.render (GalleryPage.fetchGallery st2 (Ui.Resolved r2))
  /\ GalleryPageV1.error (GalleryPageV1.fetchGallery old1 (Ui.Resolved r1))
     = Some "Gallery not found"
  /\ GalleryPageV1.error (GalleryPageV1.fetchGallery old1 (Ui.Resolved r1))
     = GalleryPageV1.error (GalleryPageV1.fetchGallery old2 (Ui.Resolved r2))
  /\ GalleryPageV1.render GalleryPageV1.initial
     = GalleryPageV1.Throws "Camera is not defined"
  /\ (forall answer,
        GalleryPageV1.visit answer = GalleryPageV1.Throws "Camera is not defined").
Proof.
  intros H1 H2.
  unfold GalleryPage.fetchGallery, GalleryPageV1.fetchGallery.
  rewrite H1, H2. repeat split; reflexivity.
Qed.

(** Two failures with different causes: an unknown token and a share whose
    folder was deleted. *)
Lemma failure_cause_not_shown_witness :
  GalleryPage.render
    (GalleryPage.fetchGallery GalleryPage.initial
       (Ui.Resolved (Ui.mkResponse 404 (Ui.ErrorObject (Some "Share not found")))))
  = GalleryPage.render
      (GalleryPage.fetchGallery GalleryPage.initial
         (Ui.Resolved (Ui.mkResponse 500 (Ui.ErrorObject (Some "Folder not found"))))).
Proof.
  exact (proj1 (proj2 (failure_cause_not_shown
                         (Ui.mkResponse 404 (Ui.ErrorObject (Some "Share not found")))
                         (Ui.mkResponse 500 (Ui.ErrorObject (Some "Folder not found")))
                         GalleryPage.initial GalleryPage.initial
                         GalleryPageV1.initial GalleryPageV1.initial
                         eq_refl eq_refl))).
Defined.

(** ** Order status updates *)

(** C7. The status menu of an order lists the conventional chain in order
    (pending, paid, processing, shipped, completed) and then cancelled, and
    it is the same for every current status, so every status, cancelled and
    pending included, can be picked from every status, shipped included.
    Every pick sends one [PUT] for that order with the admin's bearer token
    and the picked status, and its answer is always reported: a success
    toast naming the status and a refetch when the server applied it, an
    error toast when the server rejected it or the request failed. *)
Theorem status_updates_are_reported :
  (forall current,
      OrdersManager.statusOptions current
      = [OrdersManager.Pending; OrdersManager.Paid; OrdersManager.Processing;
         OrdersManager.Shipped; OrdersManager.Completed; OrdersManager.Cancelled])
  /\ (forall current target, elem_of target (OrdersManager.statusOptions current))
  /\ (forall token orderId current target answer,
        exists o,
          OrdersManager.pick token orderId current target answer = Some o
          /\ OrdersManager.sent o
             = OrdersManager.mkStatusRequest orderId token (OrdersManager.status_value target)
          /\ match answer with
             | Ui.Resolved res =>
                 if Ui.ok res
                 then OrdersManager.toast o
                      = Ui.ToastSuccess ("Order updated to "
                                         +:+ OrdersManager.status_value target)
                      /\ OrdersManager.refetched o = true
                 else OrdersManager.toast o = Ui.ToastError "Failed to update order"
             | Ui.Rejected _ =>
                 OrdersManager.toast o = Ui.ToastError "Failed to update order"
             end)
  /\ (exists o,
        OrdersManager.pick "admin-jwt" "order-1" OrdersManager.Shipped OrdersManager.Pending
          (Ui.Resolved (Ui.mkResponse 200 (Ui.Data tt))) = Some o
        /\ OrdersManager.req_status (OrdersManager.sent o) = "pending"
        /\ OrdersManager.toast o = Ui.ToastSuccess "Order updated to pending").
Proof.
  assert (Hall : forall current target, elem_of target (OrdersManager.statusOptions current)).
  { intros current target. unfold OrdersManager.statusOptions.
    destruct target; rewrite !elem_of_cons; tauto. }
  split; [reflexivity|]. split; [exact Hall|]. split.
  - intros token orderId current target answer.
    exists (OrdersManager.updateStatus token orderId target answer).
    split; [|split].
    + unfold OrdersManager.pick. rewrite bool_decide_eq_true_2 by apply Hall. reflexivity.
    + unfold OrdersManager.updateStatus.
      destruct answer as [res|m]; [destruct (Ui.ok res)|]; reflexivity.
    + unfold OrdersManager.updateStatus.
      destruct answer as [res|m]; [destruct (Ui.ok res)|]; simpl; auto.
  - eexists. split; [reflexivity|]. split; reflexivity.
Qed.

(** ** Batches of uploads *)

Section UploadTarget.

Context {World : Type}.
Variable send : Upload.Request -> World -> Ui.Fetched unit * World.

(** [handleUpload] reads the current folder and the gallery through the
    target only. *)
Lemma handleUpload_target (token : string) (current : option string)
    (st : GalleryPage.State) (folder : string)
    (first : Upload.UploadFile) (others : list Upload.UploadFile) (w : World) :
  GalleryPage.targetFolder current st = Some folder ->
  folder <> "" ->
  GalleryPage.handleUpload send token current st (first :: others) w
  = GalleryPage.handleUpload send token (Some folder) GalleryPage.initial
      (first :: others) w.
Proof.
  intros Ht Hne. unfold GalleryPage.handleUpload.
  change (GalleryPage.orElse current _) with (GalleryPage.targetFolder current st).
  change (GalleryPage.orElse (Some folder) _)
    with (GalleryPage.targetFolder (Some folder) GalleryPage.initial).
  rewrite Ht. unfold GalleryPage.targetFolder, GalleryPage.orElse.
  destruct folder as [|a folder]; [contradiction|]. reflexivity.
Qed.

End UploadTarget.

Section Batches.

Import Upload.
Local Open Scope list_scope.

Variable verdict : UploadFile -> option Failure.

Lemma answerTo_ok (f : UploadFile) :
  match answerTo verdict f with
  | Ui.Resolved res => Ui.ok res
  | Ui.Rejected _ => false
  end = negb (turnedDown verdict f).
Proof.
  unfold answerTo, turnedDown.
  destruct (verdict f) as [[why detail|message]|]; [destruct why| |]; reflexivity.
Qed.

(** The loop of [onDrop] in closed form. *)
Lemma onDrop_loop (folder : string) (fs : list UploadFile) (acc : FolderManager.Loop) :
  List.fold_left (FolderManager.uploadOne (endpoint verdict) folder) fs acc
  = FolderManager.mkLoop
      (FolderManager.completed acc
       + length (List.filter (fun f => negb (turnedDown verdict f)) fs))
      (FolderManager.toasts acc
       ++ List.map (fun f => FolderManager.failureToast f (answerTo verdict f))
            (List.filter (turnedDown verdict) fs))
      (FolderManager.requests acc
       ++ List.map (fun f => mkRequest "/api/files/upload" f folder) fs)
      (FolderManager.world acc
       ++ List.map (recordOf folder)
            (List.filter (fun f => negb (turnedDown verdict f)) fs)).
Proof.
  revert acc. induction fs as [|f fs IH]; intros acc.
  - destruct acc. simpl. rewrite Nat.add_0_r, !app_nil_r. reflexivity.
  - simpl List.fold_left. rewrite IH. clear IH.
    unfold FolderManager.uploadOne, endpoint. simpl file. simpl folder_id.
    rewrite answerTo_ok. simpl List.filter.
    destruct (turnedDown verdict f); simpl; f_equal;
      rewrite <- ?app_assoc; simpl; try reflexivity; lia.
Qed.

(** The loop of [handleUpload] in closed form. *)
Lemma handleUpload_loop (token folder : string) (fs : list UploadFile)
    (acc : GalleryPage.Loop) :
  List.fold_left (GalleryPage.uploadOne (endpoint verdict) token folder) fs acc
  = GalleryPage.mkLoop
      (GalleryPage.uploaded acc
       + length (List.filter (fun f => negb (turnedDown verdict f)) fs))
      (GalleryPage.toasts acc
       ++ List.map (fun f => Ui.ToastError ("Failed to upload " +:+ name f))
            (List.filter (turnedDown verdict) fs))
      (GalleryPage.requests acc
       ++ List.map (fun f => mkRequest ("/api/gallery/" +:+ token +:+ "/upload") f folder) fs)
      (GalleryPage.world acc
       ++ List.map (recordOf folder)
            (List.filter (fun f => negb (turnedDown verdict f)) fs)).
Proof.
  revert acc. induction fs as [|f fs IH]; intros acc.
  - destruct acc. simpl. rewrite Nat.add_0_r, !app_nil_r. reflexivity.
  - simpl List.fold_left. rewrite IH. clear IH.
    unfold GalleryPage.uploadOne, endpoint. simpl file. simpl folder_id.
    rewrite answerTo_ok. simpl List.filter.
    destruct (turnedDown verdict f); simpl; f_equal;
      rewrite <- ?app_assoc; simpl; try reflexivity; lia.
Qed.

Lemma filter_split_length (fs : list UploadFile) :
  length (List.filter (fun f => negb (turnedDown verdict f)) fs)
  + length (List.filter (turnedDown verdict) fs) = length fs.
Proof.
  induction fs as [|f fs IH]; simpl; [reflexivity|].
  destruct (turnedDown verdict f); simpl; lia.
Qed.

Lemma map_file_requests (u folder : string) (fs : list UploadFile) :
  List.map file (List.map (fun f => mkRequest u f folder) fs) = fs.
Proof. rewrite List.map_map. simpl. apply List.map_id. Qed.

Lemma single_failure (fs : list UploadFile) :
  length (List.filter (turnedDown verdict) fs) = 1 ->
  exists f, In f fs /\ turnedDown verdict f = true
            /\ List.filter (turnedDown verdict) fs = [f].
Proof.
  intros H. destruct (List.filter (turnedDown verdict) fs) as [|f [|g l]] eqn:E;
    try discriminate.
  exists f. assert (Hf : In f (List.filter (turnedDown verdict) fs)) by (rewrite E; left; reflexivity).
  apply List.filter_In in Hf. destruct Hf as [Hin Ht]. auto.
Qed.

End Batches.

(** C5. A batch in which exactly one upload fails: both upload loops (the
    admin's [onDrop] into its current folder, and the gallery's
    [handleUpload] into its target, the folder of the URL or at the root of
    the gallery the folder of the share) send every file of the batch in
    order, the server creates a record for each of the other N-1 files and
    for no other, the counter ends at N-1, the failed file gets its own
    error toast, and the closing report counts N-1 uploads
    ("Uploaded N-1/N file(s)" for the admin). *)
Theorem batch_survives_one_failure
    (verdict : Upload.UploadFile -> option Upload.Failure)
    (token folder : string) (current : option string) (st : GalleryPage.State)
    (fs : list Upload.UploadFile) (store : Upload.Store) :
  folder <> "" ->
  GalleryPage.targetFolder current st = Some folder ->
  length (List.filter (Upload.turnedDown verdict) fs) = 1 ->
  exists failed,
    In failed fs /\ Upload.turnedDown verdict failed = true
    /\ (* the admin's folder view *)
       List.map Upload.file
         (FolderManager.posted
            (FolderManager.onDrop (Upload.endpoint verdict) (Some folder) fs store)) = fs
    /\ FolderManager.done
         (FolderManager.onDrop (Upload.endpoint verdict) (Some folder) fs store)
       = length fs - 1
    /\ FolderManager.after
         (FolderManager.onDrop (Upload.endpoint verdict) (Some folder) fs store)
       = (store ++ List.map (Upload.recordOf folder)
                     (List.filter (fun f => negb (Upload.turnedDown verdict f)) fs))%list
    /\ length (FolderManager.after
                 (FolderManager.onDrop (Upload.endpoint verdict) (Some folder) fs store))
       = length store + (length fs - 1)
    /\ FolderManager.shown
         (FolderManager.onDrop (Upload.endpoint verdict) (Some folder) fs store)
       = [FolderManager.failureToast failed (Upload.answerTo verdict failed);
          Ui.ToastSuccess ("Uploaded " +:+ Ui.show_nat (length fs - 1) +:+ "/"
                           +:+ Ui.show_nat (length fs) +:+ " file(s)")]
    /\ (* the public gallery *)
       List.map Upload.file
         (GalleryPage.posted
            (GalleryPage.handleUpload (Upload.endpoint verdict) token current st fs store))
       = fs
    /\ GalleryPage.count
         (GalleryPage.handleUpload (Upload.endpoint verdict) token current st fs store)
       = length fs - 1
    /\ GalleryPage.after
         (GalleryPage.handleUpload (Upload.endpoint verdict) token current st fs store)
       = (store ++ List.map (Upload.recordOf folder)
                     (List.filter (fun f => negb (Upload.turnedDown verdict f)) fs))%list
    /\ length (GalleryPage.after
                 (GalleryPage.handleUpload (Upload.endpoint verdict) token current st
                    fs store))
       = length store + (length fs - 1)
    /\ GalleryPage.shown
         (GalleryPage.handleUpload (Upload.endpoint verdict) token current st fs store)
       = (Ui.ToastError ("Failed to upload " +:+ Upload.name failed)
          :: if (0 <? length fs - 1)%nat
             then [Ui.ToastSuccess ("Uploaded " +:+ Ui.show_nat (length fs - 1)
                                    +:+ " file(s)")]
             else [])%list.
Proof.
  intros Hfolder Htarget Hone.
  destruct (single_failure verdict fs Hone) as (failed & Hin & Hdown & Hfilter).
  pose proof (filter_split_length verdict fs) as Hlen. rewrite Hone in Hlen.
  assert (Hgood : length (List.filter (fun f => negb (Upload.turnedDown verdict f)) fs)
                  = length fs - 1) by lia.
  exists failed. split; [exact Hin|]. split; [exact Hdown|].
  assert (Hdrop :
    FolderManager.onDrop (Upload.endpoint verdict) (Some folder) fs store
    = FolderManager.mkDropped
        ([FolderManager.failureToast failed (Upload.answerTo verdict failed)]
         ++ [Ui.ToastSuccess ("Uploaded " +:+ Ui.show_nat (length fs - 1) +:+ "/"
                              +:+ Ui.show_nat (length fs) +:+ " file(s)")])%list
        (List.map (fun f => Upload.mkRequest "/api/files/upload" f folder) fs)
        (length fs - 1) true
        (store ++ List.map (Upload.recordOf folder)
                    (List.filter (fun f => negb (Upload.turnedDown verdict f)) fs))%list).
  { unfold FolderManager.onDrop. destruct folder as [|a folder]; [contradiction|].
    rewrite onDrop_loop. simpl. rewrite Hfilter, Hgood. reflexivity. }
  assert (Hfst : exists f0 rest, fs = (f0 :: rest)%list).
  { destruct fs as [|f0 rest]; [destruct Hin|]. eauto. }
  assert (Hup :
    GalleryPage.handleUpload (Upload.endpoint verdict) token current st fs store
    = GalleryPage.mkUploaded
        (Ui.ToastError ("Failed to upload " +:+ Upload.name failed)
          :: if (0 <? length fs - 1)%nat
             then [Ui.ToastSuccess ("Uploaded " +:+ Ui.show_nat (length fs - 1)
                                    +:+ " file(s)")]
             else [])%list
        (List.map (fun f => Upload.mkRequest ("/api/gallery/" +:+ token +:+ "/upload")
                               f folder) fs)
        (length fs - 1) (0 <? length fs - 1)%nat
        (store ++ List.map (Upload.recordOf folder)
                    (List.filter (fun f => negb (Upload.turnedDown verdict f)) fs))%list).
  { destruct Hfst as (f0 & rest & Hfs).
    transitivity (GalleryPage.handleUpload (Upload.endpoint verdict) token (Some folder)
                    GalleryPage.initial fs store).
    { rewrite Hfs. apply handleUpload_target; assumption. }
    unfold GalleryPage.handleUpload.
    rewrite Hfs at 1. unfold GalleryPage.orElse. simpl Ui.truthy.
    destruct folder as [|a folder]; [contradiction|]. simpl negb. cbv iota.
    simpl (String.eqb _ _). cbv iota.
    rewrite handleUpload_loop. simpl. rewrite Hfilter, Hgood.
    destruct (0 <? length fs - 1)%nat; reflexivity. }
  rewrite Hdrop, Hup. simpl.
  rewrite !map_file_requests, !length_app, !length_map, Hgood.
  repeat split; reflexivity.
Qed.

(** Three files of which the second is turned down by the server, dropped
    into a folder by the admin and picked at the root of a gallery, where
    the folder comes from the share. *)
Lemma batch_survives_one_failure_witness :
  exists failed,
    In failed [Upload.mkUploadFile "a.jpg" 10; Upload.mkUploadFile "b.jpg" 20;
               Upload.mkUploadFile "c.jpg" 30]
    /\ GalleryPage.count
         (GalleryPage.handleUpload
            (Upload.endpoint
               (fun f => if String.eqb (Upload.name f) "b.jpg"
                         then Some (Upload.Refuses Upload.ValidationError (Some "corrupted"))
                         else None))
            "lisatara" None
            (GalleryPage.mkState
               (Some (GalleryPage.mkGallery (Some "folder-1") (Some "Lisa & Tara")
                        (Some "edit")))
               [] false None false false false)
            [Upload.mkUploadFile "a.jpg" 10; Upload.mkUploadFile "b.jpg" 20;
             Upload.mkUploadFile "c.jpg" 30] []) = 2.
Proof.
  destruct (batch_survives_one_failure
              (fun f => if String.eqb (Upload.name f) "b.jpg"
                        then Some (Upload.Refuses Upload.ValidationError (Some "corrupted"))
                        else None)
              "lisatara" "folder-1" None
              (GalleryPage.mkState
                 (Some (GalleryPage.mkGallery (Some "folder-1") (Some "Lisa & Tara")
                          (Some "edit")))
                 [] false None false false false)
              [Upload.mkUploadFile "a.jpg" 10; Upload.mkUploadFile "b.jpg" 20;
               Upload.mkUploadFile "c.jpg" 30] []
              ltac:(discriminate) eq_refl eq_refl)
    as (failed & Hin & _ & _ & _ & _ & _ & _ & _ & Hcount & _).
  exists failed. split; [exact Hin | exact Hcount].
Defined.

(** ** Order totals *)

Section Totals.

Import PrintOrderCart.

Lemma subtotal_nil : subtotal [] = 0%float.
Proof. reflexivity. Qed.

Lemma subtotal_snoc (c : Cart) (item : Item) :
  subtotal (c ++ [item])%list
  = (subtotal c + price item * number_of_Z (quantity item))%float.
Proof. unfold subtotal. rewrite List.fold_left_app. reflexivity. Qed.

Lemma fold_order_items (c : Cart) (start : float) :
  List.fold_left
    (fun sum line => (sum + oi_price line * number_of_Z (oi_quantity line))%float)
    (List.map orderItem c) start
  = List.fold_left
      (fun sum item => (sum + price item * number_of_Z (quantity item))%float) c start.
Proof.
  revert start. induction c as [|item c IH]; intros start; simpl; [reflexivity|].
  apply IH.
Qed.

Lemma submitOrder_data (shareToken : string) (st : State) (data : OrderData) :
  submitOrder shareToken st = inr data -> data = orderData shareToken st.
Proof.
  unfold submitOrder. destruct (validateDetails _); [discriminate|].
  intros [= <-]. reflexivity.
Qed.

End Totals.

(** C6. For every order that the cart submits: the shipping sent is the flat
    fee 2.50; the subtotal is the running sum, from 0 and in cart order, of
    price times quantity; the order stored by the server (as the
    specification describes it) has that subtotal, shipping 2.50, total
    equal to subtotal plus shipping, which is the total the cart displays,
    and status pending; a subtotal of 12.00 gives a total of 14.50. *)
Theorem submitted_order_totals
    (shareToken : string) (st : PrintOrderCart.State) (data : PrintOrderCart.OrderData) :
  PrintOrderCart.submitOrder shareToken st = inr data ->
  PrintOrderCart.shipping data = 2.5%float
  /\ PrintOrderCart.items data = List.map PrintOrderCart.orderItem (PrintOrderCart.cart st)
  /\ PrintOrderCart.subtotal [] = 0%float
  /\ (forall c item,
        PrintOrderCart.subtotal (c ++ [item])%list
        = (PrintOrderCart.subtotal c
           + PrintOrderCart.price item
             * PrintOrderCart.number_of_Z (PrintOrderCart.quantity item))%float)
  /\ OrderBackend.order_subtotal (OrderBackend.createOrder data)
     = PrintOrderCart.subtotal (PrintOrderCart.cart st)
  /\ OrderBackend.order_shipping (OrderBackend.createOrder data) = 2.5%float
  /\ OrderBackend.order_total (OrderBackend.createOrder data)
     = (OrderBackend.order_subtotal (OrderBackend.createOrder data)
        + OrderBackend.order_shipping (OrderBackend.createOrder data))%float
  /\ OrderBackend.order_total (OrderBackend.createOrder data)
     = PrintOrderCart.total (PrintOrderCart.cart st)
  /\ OrderBackend.order_status (OrderBackend.createOrder data) = OrdersManager.Pending
  /\ (PrintOrderCart.subtotal (PrintOrderCart.cart st) = 12%float ->
      OrderBackend.order_total (OrderBackend.createOrder data) = 14.5%float).
Proof.
  intros H. apply submitOrder_data in H. subst data.
  assert (Hsub : OrderBackend.order_subtotal
                   (OrderBackend.createOrder (PrintOrderCart.orderData shareToken st))
                 = PrintOrderCart.subtotal (PrintOrderCart.cart st)).
  { unfold OrderBackend.createOrder, PrintOrderCart.orderData. simpl.
    apply fold_order_items. }
  assert (Htot : OrderBackend.order_total
                   (OrderBackend.createOrder (PrintOrderCart.orderData shareToken st))
                 = PrintOrderCart.total (PrintOrderCart.cart st)).
  { unfold OrderBackend.createOrder, PrintOrderCart.orderData, PrintOrderCart.total.
    simpl. rewrite fold_order_items. reflexivity. }
  repeat split.
  - apply subtotal_snoc.
  - exact Hsub.
  - exact Htot.
  - intros H12. rewrite Htot. unfold PrintOrderCart.total. rewrite H12. reflexivity.
Qed.

(** Four prints at 3.00 with complete delivery details. *)
Lemma submitted_order_totals_witness :
  OrderBackend.order_total
    (OrderBackend.createOrder
       (PrintOrderCart.orderData "lisatara"
          (PrintOrderCart.mkState
             [PrintOrderCart.mkItem "f1" "one.jpg" "/t/f1" "p1" "6x4 Lustre" "6x4" "lustre"
                3%float 4]
             PrintOrderCart.StepDetails
             (PrintOrderCart.mkDetails
                (Js.of_string "lisa@example.com") (Js.of_string "Lisa")
                (Js.of_string "1 High Street") [] (Js.of_string "Leeds") []
                (Js.of_string "LS1 4AP") (Js.of_string "0113 496 0000")))))
  = 14.5%float.
Proof.
  match goal with
  | |- OrderBackend.order_total
         (OrderBackend.createOrder (PrintOrderCart.orderData ?t ?s)) = _ =>
      exact (proj2 (proj2 (proj2 (proj2 (proj2 (proj2 (proj2 (proj2 (proj2
               (submitted_order_totals t s (PrintOrderCart.orderData t s) eq_refl)))))))))
               eq_refl)
  end.
Defined.

(** ** The minimum order *)

Section MinimumOrder.

Import PrintOrderCart.

Lemma SFcompare_finite_pos (m1 m2 : positive) (e1 e2 : Z) :
  SFcompare (S754_finite false m1 e1) (S754_finite false m2 e2)
  = Some match (e1 ?= e2)%Z with
         | Eq => (m1 ?= m2)%positive
         | Lt => Lt
         | Gt => Gt
         end.
Proof. reflexivity. Qed.

(** A number that is not below the minimum is at least the minimum. *)
Lemma not_below_minimum (x : float) :
  is_nan x = false -> (x <? MIN_ORDER)%float = false -> (MIN_ORDER <=? x)%float = true.
Proof.
  intros Hn H. rewrite FloatAxioms.ltb_spec in H. rewrite FloatAxioms.leb_spec.
  unfold is_nan in Hn. rewrite FloatAxioms.eqb_spec in Hn.
  assert (E : Prim2SF MIN_ORDER = S754_finite false 8444249301319680 (-49))
    by (vm_compute; reflexivity).
  rewrite E in *. clear E.
  generalize dependent (8444249301319680%positive). intros M.
  generalize dependent (-49)%Z. intros E.
  destruct (Prim2SF x) as [s|s| |s m e]; try destruct s;
    try reflexivity; try discriminate.
  unfold SFltb, SFleb. rewrite !SFcompare_finite_pos.
  rewrite (Z.compare_antisym e E), (Pos.compare_antisym m M).
  destruct (e ?= E)%Z; cbn; try reflexivity; try discriminate.
  destruct (m ?= M)%positive; cbn; try reflexivity; try discriminate.
Qed.

Lemma canContinue_spec (st : State) :
  canContinue st = true <->
  step st = StepCart /\ cart st <> [] /\ (subtotal (cart st) <? MIN_ORDER)%float = false.
Proof.
  unfold canContinue, cartPanel. destruct (step st), (cart st) as [|item c];
    cbv beta iota;
    try (split; [discriminate | intros (? & ? & ?); congruence]).
  rewrite negb_true_iff. split.
  - intros H. repeat split; [discriminate | exact H].
  - intros (_ & _ & H). exact H.
Qed.

Lemma handle_passedGate (shareToken : string) (e : Event) (st : State) :
  passedGate st -> passedGate (handle shareToken e st).
Proof.
  intros Hst. unfold handle.
  destruct (step st) eqn:Hstep, e as [i|i|i| | |d|answer| ]; try exact Hst;
    try (unfold passedGate; simpl; discriminate).
  - destruct (canContinue st) eqn:Hc; [|exact Hst].
    intros _. apply canContinue_spec in Hc. apply Hc.
  - intros _. apply Hst, Hstep.
  - destruct (submitOrder shareToken st); [exact Hst|].
    destruct answer as [res|m]; [|exact Hst].
    destruct (Ui.ok res); [|exact Hst].
    destruct (Ui.json res); [exact Hst| |]; unfold passedGate; simpl; discriminate.
Qed.

Lemma run_passedGate (shareToken : string) (events : list Event) (st : State) :
  passedGate st -> passedGate (run shareToken events st).
Proof.
  revert st. induction events as [|e events IH]; intros st Hst; [exact Hst|].
  simpl. apply IH, handle_passedGate, Hst.
Qed.

Lemma mounted_passedGate (saved : option Cart) : passedGate (loadSaved saved initial).
Proof. unfold passedGate. destruct saved; discriminate. Qed.

Lemma posts_details (shareToken : string) (st : State) (data : OrderData) :
  posts shareToken st = Some data -> step st = StepDetails.
Proof. unfold posts. destruct (step st); [discriminate|reflexivity|discriminate]. Qed.

End MinimumOrder.

(** C8, as stated: every cart with a subtotal below 15.00 would show the
    disabled button and the shortfall line, and checkout would proceed only
    with a subtotal of at least 15.00.  The empty cart has subtotal 0 and
    its panel shows neither the button nor the shortfall line; and a cart
    line without a price (the product of an undefined price and the
    quantity is NaN) gives a subtotal that is not below 15.00 for [<], so
    the button is enabled, while the subtotal is not at least 15.00. *)
Lemma minimum_order_gate_fails :
  (PrintOrderCart.subtotal [] <? PrintOrderCart.MIN_ORDER)%float = true
  /\ PrintOrderCart.cartPanel [] = PrintOrderCart.EmptyCart
  /\ ~ (forall c,
          (PrintOrderCart.subtotal c <? PrintOrderCart.MIN_ORDER)%float = true ->
          exists sub shipping tot shortfall,
            PrintOrderCart.cartPanel c
            = PrintOrderCart.Lines c sub shipping tot (Some shortfall) true)
  /\ PrintOrderCart.canContinue
       (PrintOrderCart.mkState
          [PrintOrderCart.mkItem "f1" "one.jpg" "/t/f1" "p1" "6x4 Lustre" "6x4" "lustre"
             nan 1]
          PrintOrderCart.StepCart PrintOrderCart.noDetails) = true
  /\ (PrintOrderCart.MIN_ORDER
      <=? PrintOrderCart.subtotal
            [PrintOrderCart.mkItem "f1" "one.jpg" "/t/f1" "p1" "6x4 Lustre" "6x4" "lustre"
               nan 1])%float = false.
Proof.
  split; [vm_compute; reflexivity|]. split; [reflexivity|]. split.
  - intros H. destruct (H [] ltac:(vm_compute; reflexivity)) as (? & ? & ? & ? & E).
    discriminate E.
  - split; vm_compute; reflexivity.
Qed.

(** C8, amended.  "Continue to Checkout" reaches its handler exactly in the
    cart step, for a cart that is not empty and whose subtotal is not below
    [MIN_ORDER] = 15.00, that is, for a subtotal that is a number, when it
    is at least 15.00.  In the cart step, for every non-empty cart whose
    subtotal is below 15.00, the button is disabled, a click leaves the
    state as it is, and the panel shows the shortfall line with the amount
    [MIN_ORDER - subtotal].  The empty cart shows neither, and there is
    nothing to proceed with.  Whatever cart was saved and whatever the
    customer does in the dialog, an order is posted only from a cart that
    passed the gate; a cart with subtotal 12.00 posts nothing. *)
Theorem minimum_order_gate :
  PrintOrderCart.MIN_ORDER = 15%float
  /\ (forall st,
        PrintOrderCart.canContinue st = true <->
        PrintOrderCart.step st = PrintOrderCart.StepCart
        /\ PrintOrderCart.cart st <> []
        /\ (PrintOrderCart.subtotal (PrintOrderCart.cart st)
            <? PrintOrderCart.MIN_ORDER)%float = false)
  /\ (forall st,
        PrintOrderCart.canContinue st = true ->
        is_nan (PrintOrderCart.subtotal (PrintOrderCart.cart st)) = false ->
        (PrintOrderCart.MIN_ORDER <=? PrintOrderCart.subtotal (PrintOrderCart.cart st))%float
        = true)
  /\ (forall shareToken st,
        PrintOrderCart.step st = PrintOrderCart.StepCart ->
        PrintOrderCart.cart st <> [] ->
        (PrintOrderCart.subtotal (PrintOrderCart.cart st) <? PrintOrderCart.MIN_ORDER)%float
        = true ->
        PrintOrderCart.canContinue st = false
        /\ PrintOrderCart.handle shareToken PrintOrderCart.Continue st = st
        /\ PrintOrderCart.cartPanel (PrintOrderCart.cart st)
           = PrintOrderCart.Lines (PrintOrderCart.cart st)
               (PrintOrderCart.subtotal (PrintOrderCart.cart st))
               PrintOrderCart.SHIPPING_FEE
               (PrintOrderCart.total (PrintOrderCart.cart st))
               (Some (PrintOrderCart.mkShortfall PrintOrderCart.MIN_ORDER
                        (PrintOrderCart.MIN_ORDER
                         - PrintOrderCart.subtotal (PrintOrderCart.cart st))%float))
               true)
  /\ (forall shareToken st,
        PrintOrderCart.cart st = [] ->
        PrintOrderCart.cartPanel (PrintOrderCart.cart st) = PrintOrderCart.EmptyCart
        /\ PrintOrderCart.canContinue st = false
        /\ PrintOrderCart.handle shareToken PrintOrderCart.Continue st = st)
  /\ (forall shareToken saved events data,
        PrintOrderCart.posts shareToken
          (PrintOrderCart.run shareToken events
             (PrintOrderCart.loadSaved saved PrintOrderCart.initial)) = Some data ->
        (PrintOrderCart.subtotal
           (PrintOrderCart.cart
              (PrintOrderCart.run shareToken events
                 (PrintOrderCart.loadSaved saved PrintOrderCart.initial)))
         <? PrintOrderCart.MIN_ORDER)%float = false)
  /\ (forall shareToken saved events,
        PrintOrderCart.subtotal
          (PrintOrderCart.cart
             (PrintOrderCart.run shareToken events
                (PrintOrderCart.loadSaved saved PrintOrderCart.initial))) = 12%float ->
        PrintOrderCart.posts shareToken
          (PrintOrderCart.run shareToken events
             (PrintOrderCart.loadSaved saved PrintOrderCart.initial)) = None)
  /\ PrintOrderCart.cartPanel
       [PrintOrderCart.mkItem "f1" "one.jpg" "/t/f1" "p1" "6x4 Lustre" "6x4" "lustre"
          3%float 4]
     = PrintOrderCart.Lines
         [PrintOrderCart.mkItem "f1" "one.jpg" "/t/f1" "p1" "6x4 Lustre" "6x4" "lustre"
            3%float 4]
         12%float 2.5%float 14.5%float
         (Some (PrintOrderCart.mkShortfall 15%float 3%float)) true.
Proof.
  assert (Hposted : forall shareToken saved events data,
    PrintOrderCart.posts shareToken
      (PrintOrderCart.run shareToken events
         (PrintOrderCart.loadSaved saved PrintOrderCart.initial)) = Some data ->
    (PrintOrderCart.subtotal
       (PrintOrderCart.cart
          (PrintOrderCart.run shareToken events
             (PrintOrderCart.loadSaved saved PrintOrderCart.initial)))
     <? PrintOrderCart.MIN_ORDER)%float = false).
  { intros shareToken saved events data H.
    apply (run_passedGate shareToken events _ (mounted_passedGate saved)).
    exact (posts_details _ _ _ H). }
  assert (Hoff : forall st,
    PrintOrderCart.canContinue st = false ->
    forall shareToken, PrintOrderCart.handle shareToken PrintOrderCart.Continue st = st).
  { intros st Hc shareToken. unfold PrintOrderCart.handle. rewrite Hc.
    destruct (PrintOrderCart.step st); reflexivity. }
  split; [reflexivity|]. split; [|split; [|split; [|split; [|split; [|split]]]]].
  - apply canContinue_spec.
  - intros st Hc Hn. apply canContinue_spec in Hc. destruct Hc as (_ & _ & Hlt).
    apply not_below_minimum; assumption.
  - intros shareToken st Hstep Hne Hlt.
    assert (Hc : PrintOrderCart.canContinue st = false).
    { destruct (PrintOrderCart.canContinue st) eqn:Hc; [|reflexivity].
      apply canContinue_spec in Hc. destruct Hc as (_ & _ & Hc). congruence. }
    split; [exact Hc|]. split; [apply Hoff, Hc|].
    unfold PrintOrderCart.cartPanel.
    destruct (PrintOrderCart.cart st) as [|item c]; [contradiction|].
    rewrite Hlt. reflexivity.
  - intros shareToken st Hempty.
    assert (Hc : PrintOrderCart.canContinue st = false).
    { destruct (PrintOrderCart.canContinue st) eqn:Hc; [|reflexivity].
      apply canContinue_spec in Hc. destruct Hc as (_ & Hc & _). contradiction. }
    split; [rewrite Hempty; reflexivity|]. split; [exact Hc|apply Hoff, Hc].
  - exact Hposted.
  - intros shareToken saved events H12.
    destruct (PrintOrderCart.posts shareToken _) as [data|] eqn:Hp; [|reflexivity].
    apply Hposted in Hp. rewrite H12 in Hp. discriminate Hp.
  - vm_compute. reflexivity.
Qed.

(** ** The cart invariant *)

Section CartInvariant.

Import PrintOrderCart CartOps.

Lemma lineKey_with_quantity (item : Item) (q : Z) :
  lineKey (with_quantity item q) = lineKey item.
Proof. reflexivity. Qed.

Lemma wellFormed_nil : wellFormed [].
Proof. split; [constructor|]. simpl. constructor. Qed.

Lemma wellFormed_requantify (c : Cart) (i : nat) (item : Item) (q : Z) :
  wellFormed c -> c !! i = Some item -> (1 <= q)%Z ->
  wellFormed (<[i := with_quantity item q]> c).
Proof.
  intros [Hq Hk] Hi Hge. split.
  - apply Forall_insert; [exact Hq|exact Hge].
  - rewrite list_fmap_insert, lineKey_with_quantity.
    rewrite list_insert_id; [exact Hk|].
    rewrite list_lookup_fmap, Hi. reflexivity.
Qed.

Lemma wellFormed_delete (c : Cart) (i : nat) : wellFormed c -> wellFormed (delete i c).
Proof.
  intros [Hq Hk]. split.
  - apply Forall_delete, Hq.
  - rewrite list_fmap_delete. eapply sublist_NoDup; [exact Hk|apply sublist_delete].
Qed.

Lemma wellFormed_append (c : Cart) (file : File) (product : Product) :
  wellFormed c -> Forall (fun item => ~ sameLine file product item) c ->
  wellFormed (c ++ [newItem file product])%list.
Proof.
  intros [Hq Hk] Hnone. split.
  - apply Forall_app. split; [exact Hq|]. constructor; [simpl; lia|constructor].
  - rewrite fmap_app. apply NoDup_app. split; [exact Hk|]. split.
    + intros k Hin Hk'. simpl in Hk'. apply list_elem_of_singleton in Hk'. subst k.
      apply list_elem_of_fmap in Hin. destruct Hin as (item & Hkey & Hitem).
      rewrite Forall_forall in Hnone. apply (Hnone item Hitem).
      unfold lineKey, newItem in Hkey. simpl in Hkey. injection Hkey as H1 H2.
      split; congruence.
    + simpl. apply NoDup_singleton.
Qed.

Lemma addToCart_wellFormed (file : File) (product : Product) (c : Cart) :
  wellFormed c -> wellFormed (addToCart file product c).
Proof.
  intros Hwf. unfold addToCart.
  destruct (list_find (sameLine file product) c) as [[i item]|] eqn:Hfind.
  - apply list_find_Some in Hfind. destruct Hfind as (Hi & _ & _).
    apply wellFormed_requantify; [exact Hwf|exact Hi|].
    destruct Hwf as [Hq _]. pose proof (Forall_lookup_1 _ _ _ _ Hq Hi) as H1.
    simpl in H1. lia.
  - apply list_find_None in Hfind. apply wellFormed_append; assumption.
Qed.

Lemma handleAddToCart_stored (file : File) (product : Product) (c : Cart) :
  GalleryPage.handleAddToCart file product (Some c) = addToCart file product c.
Proof. reflexivity. Qed.

Lemma updateQuantity_wellFormed (i : nat) (delta : Z) (c : Cart) :
  wellFormed c -> wellFormed (updateQuantity i delta c).
Proof.
  intros Hwf. unfold updateQuantity. destruct (c !! i) as [item|] eqn:Hi; [|exact Hwf].
  cbv zeta. destruct (Z.leb_spec (quantity item + delta) 0).
  - apply wellFormed_delete, Hwf.
  - apply wellFormed_requantify; [exact Hwf|exact Hi|lia].
Qed.



End CartInvariant.


(** ** The two copies of [formatBytes] *)

Section FormatBytes.

Import JsNumber.
Local Open Scope Z_scope.

Variable log : float -> float.





Lemma toFixed2_bound (b i : Z) :
  0 <= b < 2 ^ 53 -> 0 <= i -> 0 <= toFixed2 b i <= 100 * b + 1.
Proof.
  intros Hb Hi. unfold toFixed2. rewrite (proj2 (Z.leb_le 0 i) Hi).
  assert (HP : 1 <= 1024 ^ i) by (pose proof (Z.pow_pos_nonneg 1024 i); lia).
  split.
  - apply Z.div_pos; lia.
  - apply Z.lt_succ_r. apply Z.div_lt_upper_bound; nia.
Qed.

Lemma quotientText_whole (b i : Z) :
  0 <= b < 2 ^ 53 -> 0 <= i ->
  quotientText b (Whole i) = Some (showHundredths (toFixed2 b i)).
Proof.
  intros Hb Hi. unfold quotientText. cbv zeta.
  pose proof (toFixed2_bound b i Hb Hi) as Hn.
  destruct (Z.ltb_spec (toFixed2 b i / 100) (2 ^ 53)) as [_|Hge]; [reflexivity|].
  exfalso. assert (toFixed2 b i / 100 <= b); [|lia].
  apply Z.lt_succ_r. apply Z.div_lt_upper_bound; lia.
Qed.

Lemma formatBytes_unfold_folder (b : Z) :
  0 < b < 2 ^ 53 ->
  FolderManagerBytes.formatBytes log b
  = match quotientText b (index log b) with
    | Some text =>
        Some (text +:+ " " +:+ orUndefined (unitAt FolderManagerBytes.sizes (index log b)))
    | None => None
    end.
Proof.
  intros Hb. unfold FolderManagerBytes.formatBytes.
  destruct (Z.eqb_spec b 0); [lia|]. destruct (Z.ltb_spec b 0); [lia|].
  destruct (Z.leb_spec (2 ^ 53) b); [lia|]. reflexivity.
Qed.

Lemma formatBytes_unfold_dashboard (b : Z) :
  0 < b < 2 ^ 53 ->
  DashboardHome.formatBytes log b
  = match quotientText b (index log b) with
    | Some text =>
        Some (text +:+ " " +:+ orUndefined (unitAt DashboardHome.sizes (index log b)))
    | None => None
    end.
Proof.
  intros Hb. unfold DashboardHome.formatBytes.
  destruct (Z.eqb_spec b 0); [lia|]. destruct (Z.ltb_spec b 0); [lia|].
  destruct (Z.leb_spec (2 ^ 53) b); [lia|]. reflexivity.
Qed.



End FormatBytes.



(** ** Clearing the activity log *)

(** C4, on the code.  The confirmation button is wired to the name
    [clearLogs], which neither the module nor the component declares, so a
    confirmed "Clear All" runs no handler, whatever the server would answer
    and whatever the log shows.  The statements that would clear the log
    (and that reset logs, total and page on an ok answer) stand in the
    component without a declaration. *)
Theorem clear_all_handler_is_not_declared :
  ActivityLogs.clearAllOnClick = "clearLogs"
  /\ ActivityLogs.resolve ActivityLogs.clearAllOnClick = None
  /\ (forall answer st, ActivityLogs.confirmClear answer st = None)
  /\ (forall res st,
        Ui.ok res = true ->
        ActivityLogs.clearStatements (Ui.Resolved res) st
        = ([Ui.ToastSuccess "Activity logs cleared"],
           ActivityLogs.mkState [] 0 0 false (ActivityLogs.searchTerm st))).
Proof.
  split; [reflexivity|]. split; [vm_compute; reflexivity|].
  split; [intros answer st; vm_compute; reflexivity|].
  intros res st Hok. unfold ActivityLogs.clearStatements. rewrite Hok. reflexivity.
Qed.

(** ** The couple's names *)

Section CoupleNamesFacts.

Import Js CoupleNames.
Local Open Scope list_scope.

Lemma digit_not_space (c : N) : isDigit c = true -> isWhiteSpace c = false.
Proof.
  unfold isDigit, isWhiteSpace. rewrite andb_true_iff, !N.leb_le. intros [H1 H2].
  rewrite !orb_false_iff, !andb_false_iff, !N.leb_gt, !N.eqb_neq. lia.
Qed.

Lemma skipSpaces_split (s : jsstring) :
  exists sp, s = sp ++ skipSpaces s /\ List.forallb isWhiteSpace sp = true.
Proof.
  induction s as [|c s (sp & Hs & Hsp)]; [exists []; split; reflexivity|].
  simpl. destruct (isWhiteSpace c) eqn:Hc.
  - exists (c :: sp). simpl. rewrite Hc, Hsp. split; [f_equal; exact Hs|reflexivity].
  - exists []. split; reflexivity.
Qed.

Lemma skipSpaces_spaces (sp rest : jsstring) :
  List.forallb isWhiteSpace sp = true -> skipSpaces (sp ++ rest) = skipSpaces rest.
Proof.
  induction sp as [|c sp IH]; simpl; [reflexivity|].
  intros [Hc Hsp]%andb_prop. rewrite Hc. apply IH, Hsp.
Qed.

Lemma skipSpaces_head (c : N) (rest : jsstring) :
  isWhiteSpace c = false -> skipSpaces (c :: rest) = c :: rest.
Proof. intros Hc. simpl. rewrite Hc. reflexivity. Qed.

Lemma digitsThen_split (n : nat) (s rest : jsstring) :
  digitsThen n s = Some rest ->
  exists ds, s = ds ++ rest /\ List.forallb isDigit ds = true /\ length ds = n.
Proof.
  revert s. induction n as [|n IH]; intros s; simpl.
  - intros [= <-]. exists []. repeat split.
  - destruct s as [|c s]; [discriminate|]. destruct (isDigit c) eqn:Hc; [|discriminate].
    intros H. destruct (IH _ H) as (ds & -> & Hds & Hlen).
    exists (c :: ds). simpl. rewrite Hc, Hds, Hlen. repeat split.
Qed.

Lemma sepThen_split (s rest : jsstring) :
  sepThen s = Some rest -> exists c, s = c :: rest /\ isDateSep c = true.
Proof.
  destruct s as [|c s]; simpl; [discriminate|].
  destruct (isDateSep c) eqn:Hc; [|discriminate]. intros [= <-]. eauto.
Qed.

Lemma forallb_weaken (p q : N -> bool) (s : jsstring) :
  (forall c, p c = true -> q c = true) ->
  List.forallb p s = true -> List.forallb q s = true.
Proof.
  intros Hpq. induction s as [|c s IH]; simpl; [reflexivity|].
  intros [Hc Hs]%andb_prop. rewrite (Hpq c Hc), (IH Hs). reflexivity.
Qed.

Lemma spaces_dateChar (s : jsstring) :
  List.forallb isWhiteSpace s = true -> List.forallb dateChar s = true.
Proof. apply forallb_weaken. intros c H. unfold dateChar. rewrite H. reflexivity. Qed.

Lemma digits_dateChar (s : jsstring) :
  List.forallb isDigit s = true -> List.forallb dateChar s = true.
Proof.
  apply forallb_weaken. intros c H. unfold dateChar. rewrite H, orb_true_r. reflexivity.
Qed.

(** A text that matches the dotted date pattern holds date characters only. *)
Lemma matchesDotted_chars (s : jsstring) :
  matchesDotted s = true -> List.forallb dateChar s = true.
Proof.
  unfold matchesDotted. destruct (skipSpaces_split s) as (sp & Hs & Hsp).
  destruct (digitsThen 2 (skipSpaces s)) as [r1|] eqn:H1; [|discriminate].
  destruct (sepThen r1) as [r2|] eqn:H2; [|discriminate].
  destruct (digitsThen 2 r2) as [r3|] eqn:H3; [|discriminate].
  destruct (sepThen r3) as [r4|] eqn:H4; [|discriminate].
  intros H. apply List.existsb_exists in H. destruct H as (k & _ & Hk).
  destruct (digitsThen k r4) as [r5|] eqn:H5; [|discriminate].
  apply digitsThen_split in H1, H3, H5.
  destruct H1 as (d1 & E1 & Hd1 & _), H3 as (d3 & E3 & Hd3 & _),
           H5 as (d5 & E5 & Hd5 & _).
  apply sepThen_split in H2, H4.
  destruct H2 as (c2 & E2 & Hc2), H4 as (c4 & E4 & Hc4).
  rewrite Hs, E1, E2, E3, E4, E5.
  repeat (rewrite ?List.forallb_app; cbn [List.forallb]).
  rewrite (spaces_dateChar _ Hsp), (digits_dateChar _ Hd1), (digits_dateChar _ Hd3),
    (digits_dateChar _ Hd5), (spaces_dateChar _ Hk).
  unfold dateChar at 1 2. rewrite Hc2, Hc4, !orb_true_r. reflexivity.
Qed.

(** It holds a separator as well. *)
Lemma matchesDotted_sep (s : jsstring) :
  matchesDotted s = true -> List.existsb isDateSep s = true.
Proof.
  unfold matchesDotted. destruct (skipSpaces_split s) as (sp & Hs & Hsp).
  destruct (digitsThen 2 (skipSpaces s)) as [r1|] eqn:H1; [|discriminate].
  destruct (sepThen r1) as [r2|] eqn:H2; [|discriminate]. intros _.
  apply digitsThen_split in H1. destruct H1 as (d1 & E1 & _ & _).
  apply sepThen_split in H2. destruct H2 as (c2 & E2 & Hc2).
  rewrite Hs, E1, E2. repeat (rewrite ?List.existsb_app; cbn [List.existsb]).
  rewrite Hc2, !orb_true_r. reflexivity.
Qed.

(** A text that matches a run of digits holds white space and digits only. *)
Lemma matchesDigits_chars (n : nat) (s : jsstring) :
  matchesDigits n s = true ->
  List.forallb (fun c => isWhiteSpace c || isDigit c) s = true.
Proof.
  unfold matchesDigits. destruct (skipSpaces_split s) as (sp & Hs & Hsp).
  destruct (digitsThen n (skipSpaces s)) as [r1|] eqn:H1; [|discriminate].
  intros H. apply digitsThen_split in H1. destruct H1 as (d1 & E1 & Hd1 & _).
  rewrite Hs, E1, !List.forallb_app.
  rewrite (forallb_weaken isWhiteSpace _ sp), (forallb_weaken isDigit _ d1),
    (forallb_weaken isWhiteSpace _ r1); try assumption; try reflexivity.
  - intros c Hc. rewrite Hc. reflexivity.
  - intros c Hc. rewrite Hc, orb_true_r. reflexivity.
  - intros c Hc. rewrite Hc. reflexivity.
Qed.

Lemma removeMatch_unfold (matches : jsstring -> bool) (s : jsstring) :
  removeMatch matches s
  = if matches s then []
    else match s with
         | c :: rest => c :: removeMatch matches rest
         | [] => []
         end.
Proof. destruct s; reflexivity. Qed.

Lemma removeMatch_nil (matches : jsstring -> bool) : removeMatch matches [] = [].
Proof. simpl. destruct (matches []); reflexivity. Qed.

(** What [replace] leaves is the text up to the match. *)
Lemma removeMatch_prefix (matches : jsstring -> bool) (s : jsstring) :
  exists rest, s = removeMatch matches s ++ rest.
Proof.
  induction s as [|c s (rest & Hrest)]; rewrite removeMatch_unfold.
  - exists []. destruct (matches []); reflexivity.
  - destruct (matches (c :: s)).
    + exists (c :: s). reflexivity.
    + exists rest. simpl. f_equal. exact Hrest.
Qed.

(** A character that no match can hold is kept, with all that precedes it. *)
Lemma removeMatch_keeps (matches : jsstring -> bool) (c : N) :
  (forall a b, matches (a ++ c :: b) = false) ->
  forall body rest,
    removeMatch matches (body ++ c :: rest) = body ++ c :: removeMatch matches rest.
Proof.
  intros Hc body rest. induction body as [|x body IH].
  - rewrite removeMatch_unfold. pose proof (Hc [] rest) as H0. simpl in *.
    rewrite H0. reflexivity.
  - rewrite removeMatch_unfold. pose proof (Hc (x :: body) rest) as H0. simpl in *.
    rewrite H0. f_equal. exact IH.
Qed.

Lemma dotted_blocked (c : N) (a b : jsstring) :
  dateChar c = false -> matchesDotted (a ++ c :: b) = false.
Proof.
  intros Hc. destruct (matchesDotted (a ++ c :: b)) eqn:H; [|reflexivity].
  apply matchesDotted_chars in H. rewrite List.forallb_app in H. simpl in H.
  rewrite Hc in H. rewrite andb_false_r in H. discriminate H.
Qed.

Lemma digits_blocked (n : nat) (c : N) (a b : jsstring) :
  dateChar c = false -> matchesDigits n (a ++ c :: b) = false.
Proof.
  intros Hc. destruct (matchesDigits n (a ++ c :: b)) eqn:H; [|reflexivity].
  apply matchesDigits_chars in H. rewrite List.forallb_app in H. simpl in H.
  unfold dateChar in Hc. apply orb_false_elim in Hc. destruct Hc as [Hc _].
  rewrite Hc in H. rewrite andb_false_r in H. discriminate H.
Qed.

(** The dotted pattern removes nothing from a text without separator. *)
Lemma removeMatch_dotted_nosep (s : jsstring) :
  List.existsb isDateSep s = false -> removeMatch matchesDotted s = s.
Proof.
  induction s as [|c s IH]; intros H; rewrite removeMatch_unfold.
  - reflexivity.
  - destruct (matchesDotted (c :: s)) eqn:Hm.
    + apply matchesDotted_sep in Hm. congruence.
    + simpl in H. apply orb_false_elim in H. f_equal. apply IH, H.
Qed.

Lemma nosep_of_spaces_digits (s : jsstring) :
  List.forallb (fun c => isWhiteSpace c || isDigit c) s = true ->
  List.existsb isDateSep s = false.
Proof.
  induction s as [|c s IH]; simpl; [reflexivity|].
  intros [Hc Hs]%andb_prop. rewrite (IH Hs), orb_false_r.
  unfold isWhiteSpace, isDigit, isDateSep in *.
  rewrite !orb_true_iff, !andb_true_iff, !N.leb_le, !N.eqb_eq in Hc.
  rewrite !orb_false_iff, !N.eqb_neq. lia.
Qed.

(** A pattern that starts with [\s*] sees through leading white space. *)
Lemma removeMatch_digits_spaces (n : nat) (ws t : jsstring) :
  List.forallb isWhiteSpace ws = true ->
  matchesDigits n t = false ->
  removeMatch (matchesDigits n) (ws ++ t) = ws ++ removeMatch (matchesDigits n) t.
Proof.
  intros Hws Ht. induction ws as [|w ws IH]; [reflexivity|].
  rewrite removeMatch_unfold. simpl in Hws. apply andb_prop in Hws.
  destruct Hws as [Hw Hws].
  assert (Hm : matchesDigits n ((w :: ws) ++ t) = false).
  { unfold matchesDigits in *. rewrite skipSpaces_spaces; [exact Ht|].
    simpl. rewrite Hw, Hws. reflexivity. }
  rewrite Hm. simpl. f_equal. apply IH, Hws.
Qed.

Lemma skipSpaces_snoc (body : jsstring) (c : N) :
  isWhiteSpace c = false -> exists b, skipSpaces (body ++ [c]) = b ++ [c].
Proof.
  intros Hc. induction body as [|x body (b & Hb)]; simpl.
  - rewrite Hc. exists []. reflexivity.
  - destruct (isWhiteSpace x); [exists b; exact Hb|]. exists (x :: body). reflexivity.
Qed.

Lemma skipSpaces_through (body rest : jsstring) (c : N) :
  isWhiteSpace c = false ->
  skipSpaces (body ++ c :: rest) = skipSpaces (body ++ [c]) ++ rest.
Proof.
  intros Hc. induction body as [|x body IH]; simpl.
  - rewrite Hc. reflexivity.
  - destruct (isWhiteSpace x); [exact IH|]. simpl. f_equal.
    rewrite <- List.app_assoc. reflexivity.
Qed.

(** [trim] of a text that ends in a character other than white space
    removes the leading white space only. *)
Lemma trim_snoc (body : jsstring) (c : N) :
  isWhiteSpace c = false -> trim (body ++ [c]) = skipSpaces (body ++ [c]).
Proof.
  intros Hc. unfold trim. destruct (skipSpaces_snoc body c Hc) as (b & ->).
  rewrite List.rev_app_distr. simpl. rewrite Hc. simpl.
  rewrite List.rev_involutive. reflexivity.
Qed.

Lemma skipSpaces_idempotent (s : jsstring) : skipSpaces (skipSpaces s) = skipSpaces s.
Proof.
  induction s as [|c s IH]; simpl; [reflexivity|].
  destruct (isWhiteSpace c) eqn:Hc; [exact IH|]. simpl. rewrite Hc. reflexivity.
Qed.

(** [trim] leaves white space neither in front nor at the end. *)
Lemma trim_trimmed (s : jsstring) :
  skipSpaces (trim s) = trim s /\ skipSpaces (List.rev (trim s)) = List.rev (trim s).
Proof.
  unfold trim. split.
  - destruct (skipSpaces s) as [|h y] eqn:Hy; [reflexivity|].
    assert (Hh : isWhiteSpace h = false).
    { pose proof (skipSpaces_idempotent s) as Hi. rewrite Hy in Hi. simpl in Hi.
      destruct (isWhiteSpace h); [|reflexivity].
      exfalso. destruct (skipSpaces_split y) as (sp & Hsp & _).
      apply (f_equal (@length N)) in Hi. rewrite Hsp in Hi at 2.
      simpl in Hi. rewrite length_app in Hi. lia. }
    simpl List.rev. destruct (skipSpaces_snoc (List.rev y) h Hh) as (b & ->).
    rewrite List.rev_app_distr. simpl. rewrite Hh. reflexivity.
  - rewrite List.rev_involutive. apply skipSpaces_idempotent.
Qed.

(** [trim] returns a part of its argument. *)
Lemma trim_infix (s : jsstring) : exists pre post, s = pre ++ trim s ++ post.
Proof.
  unfold trim. destruct (skipSpaces_split s) as (pre & Hs & _).
  destruct (skipSpaces_split (List.rev (skipSpaces s))) as (sp & Hr & _).
  exists pre, (List.rev sp).
  rewrite <- List.rev_app_distr, <- Hr, List.rev_involutive. exact Hs.
Qed.

Lemma extract_cons (s : jsstring) :
  s <> [] ->
  extractCoupleNames (Some s)
  = match trim (removeMatch (matchesDigits 8)
                  (removeMatch (matchesDigits 6) (removeMatch matchesDotted s))) with
    | [] => Some s
    | c :: w => Some (c :: w)
    end.
Proof.
  destruct s as [|x s]; [contradiction|]. intros _. unfold extractCoupleNames.
  cbv zeta. destruct (trim _); reflexivity.
Qed.

End CoupleNamesFacts.

(** X1. A folder name whose last character before the date is not a digit,
    a separator or white space, followed by a date written DD.MM.YY or
    DD.MM.YYYY (with ".", "-" or "/") or DDMMYY, with any white space around
    it, is shown without the date and without leading white space. *)
Theorem trailing_date_removed (body : Js.jsstring) (c : N) (date : Js.jsstring) :
  CoupleNames.dateChar c = false ->
  CoupleNames.matchesDotted date = true \/ CoupleNames.matchesDigits 6 date = true ->
  CoupleNames.extractCoupleNames (Some (body ++ [c] ++ date)%list)
  = Some (CoupleNames.skipSpaces (body ++ [c])%list).
Proof.
  intros Hc Hdate.
  assert (Hws : Js.isWhiteSpace c = false).
  { unfold CoupleNames.dateChar in Hc. apply orb_false_elim in Hc.
    destruct Hc as [Hc _]. apply orb_false_elim in Hc. apply Hc. }
  rewrite extract_cons by (destruct body; discriminate).
  assert (Hcore :
    CoupleNames.removeMatch (CoupleNames.matchesDigits 8)
      (CoupleNames.removeMatch (CoupleNames.matchesDigits 6)
         (CoupleNames.removeMatch CoupleNames.matchesDotted (body ++ [c] ++ date)%list))
    = (body ++ [c])%list).
  { change (body ++ [c] ++ date)%list with (body ++ c :: date)%list.
    rewrite (removeMatch_keeps CoupleNames.matchesDotted c
               (fun a b => dotted_blocked c a b Hc)).
    destruct Hdate as [Hd|Hd].
    - rewrite (removeMatch_unfold CoupleNames.matchesDotted date), Hd.
      rewrite (removeMatch_keeps (CoupleNames.matchesDigits 6) c
                 (fun a b => digits_blocked 6 c a b Hc)), removeMatch_nil.
      rewrite (removeMatch_keeps (CoupleNames.matchesDigits 8) c
                 (fun a b => digits_blocked 8 c a b Hc)), removeMatch_nil.
      reflexivity.
    - rewrite removeMatch_dotted_nosep
        by (apply nosep_of_spaces_digits, (matchesDigits_chars 6), Hd).
      rewrite (removeMatch_keeps (CoupleNames.matchesDigits 6) c
                 (fun a b => digits_blocked 6 c a b Hc)).
      rewrite (removeMatch_unfold (CoupleNames.matchesDigits 6) date), Hd.
      rewrite (removeMatch_keeps (CoupleNames.matchesDigits 8) c
                 (fun a b => digits_blocked 8 c a b Hc)), removeMatch_nil.
      reflexivity. }
  rewrite Hcore, trim_snoc by exact Hws.
  destruct (skipSpaces_snoc body c Hws) as (b & ->). destruct b; reflexivity.
Qed.

(** "Lisa & Tara 21.01.26" is shown as "Lisa & Tara". *)
Lemma trailing_date_removed_witness :
  CoupleNames.extractCoupleNames (Some (Js.of_string "Lisa & Tara 21.01.26"))
  = Some (Js.of_string "Lisa & Tara").
Proof.
  exact (trailing_date_removed (Js.of_string "Lisa & Tar") 97%N (Js.of_string " 21.01.26")
           eq_refl (or_introl eq_refl)).
Defined.

(** X2. A date written DDMMYYYY is not removed whole: the pattern for six
    digits comes first and takes the last six, so the folder name keeps the
    first two digits of the date (and the white space before them), and the
    pattern for eight digits finds nothing left to remove. *)
Theorem eight_digit_date_leaves_two_digits
    (body : Js.jsstring) (c : N) (ws d : Js.jsstring) :
  CoupleNames.dateChar c = false ->
  List.forallb Js.isWhiteSpace ws = true ->
  List.forallb CoupleNames.isDigit d = true ->
  length d = 8 ->
  CoupleNames.extractCoupleNames (Some (body ++ [c] ++ ws ++ d)%list)
  = Some (CoupleNames.skipSpaces (body ++ [c]) ++ ws ++ List.firstn 2 d)%list.
Proof.
  intros Hc Hsp Hd Hlen.
  assert (Hws : Js.isWhiteSpace c = false).
  { unfold CoupleNames.dateChar in Hc. apply orb_false_elim in Hc.
    destruct Hc as [Hc _]. apply orb_false_elim in Hc. apply Hc. }
  destruct d as [|d0 [|d1 [|d2 [|d3 [|d4 [|d5 [|d6 [|d7 [|d8 d]]]]]]]]];
    try discriminate Hlen.
  simpl in Hd.
  apply andb_prop in Hd; destruct Hd as [Hd0 Hd].
  apply andb_prop in Hd; destruct Hd as [Hd1 Hd].
  apply andb_prop in Hd; destruct Hd as [Hd2 Hd].
  apply andb_prop in Hd; destruct Hd as [Hd3 Hd].
  apply andb_prop in Hd; destruct Hd as [Hd4 Hd].
  apply andb_prop in Hd; destruct Hd as [Hd5 Hd].
  apply andb_prop in Hd; destruct Hd as [Hd6 Hd].
  apply andb_prop in Hd; destruct Hd as [Hd7 _].
  pose proof (digit_not_space d0 Hd0) as Hw0.
  pose proof (digit_not_space d1 Hd1) as Hw1.
  pose proof (digit_not_space d2 Hd2) as Hw2.
  pose proof (digit_not_space d6 Hd6) as Hw6.
  pose proof (digit_not_space d7 Hd7) as Hw7.
  assert (Hno6 : CoupleNames.matchesDigits 6 [d0; d1; d2; d3; d4; d5; d6; d7] = false)
    by (unfold CoupleNames.matchesDigits;
      repeat (cbn [CoupleNames.skipSpaces CoupleNames.digitsThen CoupleNames.spacesToEnd
                   List.forallb andb];
              rewrite ?Hw0, ?Hw1, ?Hw2, ?Hw6, ?Hw7,
                ?Hd0, ?Hd1, ?Hd2, ?Hd3, ?Hd4, ?Hd5, ?Hd6, ?Hd7);
      reflexivity).
  assert (Hno6' : CoupleNames.matchesDigits 6 [d1; d2; d3; d4; d5; d6; d7] = false)
    by (unfold CoupleNames.matchesDigits;
      repeat (cbn [CoupleNames.skipSpaces CoupleNames.digitsThen CoupleNames.spacesToEnd
                   List.forallb andb];
              rewrite ?Hw0, ?Hw1, ?Hw2, ?Hw6, ?Hw7,
                ?Hd0, ?Hd1, ?Hd2, ?Hd3, ?Hd4, ?Hd5, ?Hd6, ?Hd7);
      reflexivity).
  assert (Hyes6 : CoupleNames.matchesDigits 6 [d2; d3; d4; d5; d6; d7] = true)
    by (unfold CoupleNames.matchesDigits;
      repeat (cbn [CoupleNames.skipSpaces CoupleNames.digitsThen CoupleNames.spacesToEnd
                   List.forallb andb];
              rewrite ?Hw0, ?Hw1, ?Hw2, ?Hw6, ?Hw7,
                ?Hd0, ?Hd1, ?Hd2, ?Hd3, ?Hd4, ?Hd5, ?Hd6, ?Hd7);
      reflexivity).
  assert (Hno8 : CoupleNames.matchesDigits 8 [d0; d1] = false)
    by (unfold CoupleNames.matchesDigits;
      repeat (cbn [CoupleNames.skipSpaces CoupleNames.digitsThen CoupleNames.spacesToEnd
                   List.forallb andb];
              rewrite ?Hw0, ?Hw1, ?Hw2, ?Hw6, ?Hw7,
                ?Hd0, ?Hd1, ?Hd2, ?Hd3, ?Hd4, ?Hd5, ?Hd6, ?Hd7);
      reflexivity).
  assert (Hno8' : CoupleNames.matchesDigits 8 [d1] = false)
    by (unfold CoupleNames.matchesDigits;
      repeat (cbn [CoupleNames.skipSpaces CoupleNames.digitsThen CoupleNames.spacesToEnd
                   List.forallb andb];
              rewrite ?Hw0, ?Hw1, ?Hw2, ?Hw6, ?Hw7,
                ?Hd0, ?Hd1, ?Hd2, ?Hd3, ?Hd4, ?Hd5, ?Hd6, ?Hd7);
      reflexivity).
  rewrite extract_cons by (destruct body; discriminate).
  change (body ++ [c] ++ ws ++ [d0; d1; d2; d3; d4; d5; d6; d7])%list
    with (body ++ c :: ws ++ [d0; d1; d2; d3; d4; d5; d6; d7])%list.
  rewrite (removeMatch_keeps CoupleNames.matchesDotted c
             (fun a b => dotted_blocked c a b Hc)).
  rewrite removeMatch_dotted_nosep.
  2:{ apply nosep_of_spaces_digits. rewrite List.forallb_app. apply andb_true_intro. split.
      - revert Hsp. apply forallb_weaken. intros x Hx. rewrite Hx. reflexivity.
      - cbn [List.forallb]. rewrite Hd0, Hd1, Hd2, Hd3, Hd4, Hd5, Hd6, Hd7.
        rewrite !orb_true_r. reflexivity. }
  rewrite (removeMatch_keeps (CoupleNames.matchesDigits 6) c
             (fun a b => digits_blocked 6 c a b Hc)).
  rewrite (removeMatch_digits_spaces 6 ws _ Hsp Hno6).
  rewrite (removeMatch_unfold _ [d0; d1; d2; d3; d4; d5; d6; d7]), Hno6.
  rewrite (removeMatch_unfold _ [d1; d2; d3; d4; d5; d6; d7]), Hno6'.
  rewrite (removeMatch_unfold _ [d2; d3; d4; d5; d6; d7]), Hyes6.
  rewrite (removeMatch_keeps (CoupleNames.matchesDigits 8) c
             (fun a b => digits_blocked 8 c a b Hc)).
  rewrite (removeMatch_digits_spaces 8 ws _ Hsp Hno8).
  rewrite (removeMatch_unfold _ [d0; d1]), Hno8.
  rewrite (removeMatch_unfold _ [d1]), Hno8', removeMatch_nil.
  replace (body ++ c :: ws ++ [d0; d1])%list
    with ((body ++ c :: ws ++ [d0]) ++ [d1])%list
    by (rewrite <- !List.app_assoc; simpl; rewrite <- !List.app_assoc; reflexivity).
  rewrite trim_snoc by exact Hw1.
  replace ((body ++ c :: ws ++ [d0]) ++ [d1])%list
    with (body ++ c :: ws ++ [d0; d1])%list
    by (rewrite <- !List.app_assoc; simpl; rewrite <- !List.app_assoc; reflexivity).
  rewrite skipSpaces_through by exact Hws.
  destruct (skipSpaces_snoc body c Hws) as (b & ->). destruct b; reflexivity.
Qed.

(** "Lisa & Tara 21012026" is shown as "Lisa & Tara 21". *)
Lemma eight_digit_date_leaves_two_digits_witness :
  CoupleNames.extractCoupleNames (Some (Js.of_string "Lisa & Tara 21012026"))
  = Some (Js.of_string "Lisa & Tara 21").
Proof.
  exact (eight_digit_date_leaves_two_digits (Js.of_string "Lisa & Tar") 97%N
           (Js.of_string " ") (Js.of_string "21012026") eq_refl eq_refl eq_refl eq_refl).
Defined.

(** X3. [extractCoupleNames] gives nothing for a missing or empty folder
    name only.  For every other folder name the heading is not empty and is
    a part of the folder name, and unless it is the whole folder name it
    neither starts nor ends with white space. *)
Theorem heading_is_part_of_folder_name :
  CoupleNames.extractCoupleNames None = None
  /\ CoupleNames.extractCoupleNames (Some []) = None
  /\ (forall name,
        name <> [] ->
        exists heading pre post,
          CoupleNames.extractCoupleNames (Some name) = Some heading
          /\ heading <> []
          /\ name = (pre ++ heading ++ post)%list
          /\ (heading = name
              \/ (CoupleNames.skipSpaces heading = heading
                  /\ CoupleNames.skipSpaces (List.rev heading) = List.rev heading))).
Proof.
  split; [reflexivity|]. split; [reflexivity|].
  intros name Hne. rewrite extract_cons by exact Hne.
  destruct (removeMatch_prefix CoupleNames.matchesDotted name) as (r1 & H1).
  destruct (removeMatch_prefix (CoupleNames.matchesDigits 6)
              (CoupleNames.removeMatch CoupleNames.matchesDotted name)) as (r2 & H2).
  destruct (removeMatch_prefix (CoupleNames.matchesDigits 8)
              (CoupleNames.removeMatch (CoupleNames.matchesDigits 6)
                 (CoupleNames.removeMatch CoupleNames.matchesDotted name))) as (r3 & H3).
  destruct (trim_infix
              (CoupleNames.removeMatch (CoupleNames.matchesDigits 8)
                 (CoupleNames.removeMatch (CoupleNames.matchesDigits 6)
                    (CoupleNames.removeMatch CoupleNames.matchesDotted name))))
    as (pre & post & H4).
  pose proof (trim_trimmed
              (CoupleNames.removeMatch (CoupleNames.matchesDigits 8)
                 (CoupleNames.removeMatch (CoupleNames.matchesDigits 6)
                    (CoupleNames.removeMatch CoupleNames.matchesDotted name)))) as Ht.
  destruct (CoupleNames.trim _) as [|x w] eqn:Htrim.
  - exists name, [], []. rewrite List.app_nil_r. repeat split; auto.
  - exists (x :: w), pre, (post ++ r3 ++ r2 ++ r1)%list.
    split; [reflexivity|]. split; [discriminate|]. split; [|right; exact Ht].
    rewrite H1 at 1. rewrite H2 at 1. rewrite H3 at 1. rewrite H4 at 1.
    rewrite <- !List.app_assoc. reflexivity.
Qed.

(** ** Selections *)

Section SelectionFacts.

Local Open Scope list_scope.

Lemma has_true (x : string) (s : list string) : JsSet.has x s = true <-> elem_of x s.
Proof. unfold JsSet.has. apply bool_decide_eq_true. Qed.

Lemma has_false (x : string) (s : list string) : JsSet.has x s = false <-> ~ elem_of x s.
Proof. unfold JsSet.has. apply bool_decide_eq_false. Qed.

Lemma has_eq (x : string) (s t : list string) :
  (elem_of x s <-> elem_of x t) -> JsSet.has x s = JsSet.has x t.
Proof. intros H. unfold JsSet.has. apply bool_decide_ext, H. Qed.

Lemma add_NoDup (x : string) (s : list string) : NoDup s -> NoDup (JsSet.add x s).
Proof.
  intros Hs. unfold JsSet.add. destruct (JsSet.has x s) eqn:Hx; [exact Hs|].
  apply has_false in Hx. apply NoDup_app. split; [exact Hs|]. split.
  - intros y Hy Hy'. apply list_elem_of_singleton in Hy'. subst y. contradiction.
  - apply NoDup_singleton.
Qed.

Lemma ofList_from (ids acc : list string) :
  NoDup (acc ++ ids) -> List.fold_left (fun s x => JsSet.add x s) ids acc = acc ++ ids.
Proof.
  revert acc. induction ids as [|x ids IH]; intros acc Hnd; simpl.
  - rewrite List.app_nil_r. reflexivity.
  - assert (Hx : JsSet.has x acc = false).
    { apply has_false. intros Hin. apply NoDup_app in Hnd.
      destruct Hnd as (_ & Hdisj & _). apply (Hdisj x Hin). left. }
    unfold JsSet.add at 2. rewrite Hx. rewrite IH.
    + rewrite <- List.app_assoc. reflexivity.
    + rewrite <- List.app_assoc. exact Hnd.
Qed.

Lemma ofList_NoDup (ids : list string) : NoDup ids -> JsSet.ofList ids = ids.
Proof. intros H. unfold JsSet.ofList. rewrite ofList_from; [reflexivity|exact H]. Qed.

Lemma delete_absent (x : string) (s : list string) :
  ~ elem_of x s -> JsSet.delete x s = s.
Proof.
  unfold JsSet.delete. induction s as [|y l IH]; intros Hx; [reflexivity|].
  apply not_elem_of_cons in Hx. destruct Hx as [Hy Hl].
  rewrite filter_cons_True by congruence. f_equal. apply IH, Hl.
Qed.

Lemma delete_length (x : string) (s : list string) :
  NoDup s -> elem_of x s -> S (length (JsSet.delete x s)) = length s.
Proof.
  induction s as [|y l IH]; intros Hnd Hx; [apply elem_of_nil in Hx; contradiction|].
  apply NoDup_cons in Hnd. destruct Hnd as [Hy Hnd].
  destruct (decide (y = x)) as [->|Hne].
  - unfold JsSet.delete. rewrite filter_cons_False by tauto.
    fold (JsSet.delete x l). rewrite delete_absent by exact Hy. reflexivity.
  - unfold JsSet.delete. rewrite filter_cons_True by exact Hne.
    fold (JsSet.delete x l). simpl. f_equal. apply IH; [exact Hnd|].
    apply elem_of_cons in Hx. destruct Hx as [Hx|Hx]; [congruence|exact Hx].
Qed.

End SelectionFacts.

(** X4. A click on a photo in selection mode flips the selection of that
    photo and of no other, keeps every id at most once in the set, and a
    second click on the same photo brings back the same selected photos. *)
Theorem toggle_flips_one_file (fileId : string) (selectedFiles : list string) :
  NoDup selectedFiles ->
  NoDup (Selection.toggleSelectFile fileId selectedFiles)
  /\ JsSet.has fileId (Selection.toggleSelectFile fileId selectedFiles)
     = negb (JsSet.has fileId selectedFiles)
  /\ (forall other,
        other <> fileId ->
        JsSet.has other (Selection.toggleSelectFile fileId selectedFiles)
        = JsSet.has other selectedFiles)
  /\ (forall any,
        JsSet.has any
          (Selection.toggleSelectFile fileId
             (Selection.toggleSelectFile fileId selectedFiles))
        = JsSet.has any selectedFiles)
  /\ length (Selection.toggleSelectFile fileId
               (Selection.toggleSelectFile fileId selectedFiles))
     = length selectedFiles.
Proof.
  intros Hnd.
  assert (Hflip : forall s, JsSet.has fileId (Selection.toggleSelectFile fileId s)
                            = negb (JsSet.has fileId s)).
  { intros s. unfold Selection.toggleSelectFile.
    destruct (JsSet.has fileId s) eqn:Hx; simpl.
    - apply has_false. unfold JsSet.delete. rewrite list_elem_of_filter. tauto.
    - apply has_true. unfold JsSet.add. rewrite Hx. apply elem_of_app. right. left. }
  assert (Hother : forall s other, other <> fileId ->
                     JsSet.has other (Selection.toggleSelectFile fileId s)
                     = JsSet.has other s).
  { intros s other Hne. apply has_eq. unfold Selection.toggleSelectFile.
    destruct (JsSet.has fileId s) eqn:Hx.
    - unfold JsSet.delete. rewrite list_elem_of_filter. tauto.
    - unfold JsSet.add. rewrite Hx, elem_of_app, list_elem_of_singleton. tauto. }
  assert (Hkeep : forall s, NoDup s -> NoDup (Selection.toggleSelectFile fileId s)).
  { intros s Hs. unfold Selection.toggleSelectFile.
    destruct (JsSet.has fileId s); [apply NoDup_filter, Hs|apply add_NoDup, Hs]. }
  split; [apply Hkeep, Hnd|]. split; [apply Hflip|]. split; [apply Hother|]. split.
  - intros any. destruct (decide (any = fileId)) as [->|Hne].
    + rewrite !Hflip. apply negb_involutive.
    + rewrite !Hother by exact Hne. reflexivity.
  - unfold Selection.toggleSelectFile at 2.
    destruct (JsSet.has fileId selectedFiles) eqn:Hx.
    + apply has_true in Hx.
      assert (Hgone : JsSet.has fileId (JsSet.delete fileId selectedFiles) = false).
      { apply has_false. unfold JsSet.delete. rewrite list_elem_of_filter. tauto. }
      unfold Selection.toggleSelectFile. rewrite Hgone. unfold JsSet.add. rewrite Hgone.
      rewrite length_app. simpl. pose proof (delete_length _ _ Hnd Hx). lia.
    + unfold Selection.toggleSelectFile, JsSet.add. rewrite Hx.
      assert (Hin : JsSet.has fileId (selectedFiles ++ [fileId]) = true).
      { apply has_true, elem_of_app. right. left. }
      rewrite Hin. apply has_false in Hx.
      unfold JsSet.delete. rewrite filter_app, filter_cons_False by tauto.
      rewrite filter_nil, List.app_nil_r. fold (JsSet.delete fileId selectedFiles).
      rewrite delete_absent by exact Hx. reflexivity.
Qed.

(** A click on "b.jpg" when "a.jpg" and "b.jpg" are selected. *)
Lemma toggle_flips_one_file_witness :
  JsSet.has "b" (Selection.toggleSelectFile "b" ["a"; "b"]) = negb (JsSet.has "b" ["a"; "b"]).
Proof.
  refine (proj1 (proj2 (toggle_flips_one_file "b" ["a"; "b"] _))).
  repeat constructor; rewrite ?elem_of_cons, ?elem_of_nil; intuition discriminate.
Defined.

(** X5. "Select All" on files with distinct ids: from a selection whose
    size differs from the number of files, it selects exactly the files, in
    their order; a second click then clears the selection.  The same holds
    for the photos of the gallery and for the files of the admin's folder. *)
Theorem select_all_then_deselect_all (ids : list string) (selectedFiles : list string) :
  NoDup ids ->
  length selectedFiles <> length ids ->
  Selection.selectAllFiles ids selectedFiles = ids
  /\ Selection.selectAllFiles ids (Selection.selectAllFiles ids selectedFiles) = []
  /\ (forall st,
        List.map GalleryPage.id (GalleryPage.imageFiles st) = ids ->
        Selection.gallerySelectAll st selectedFiles = ids
        /\ Selection.gallerySelectAll st (Selection.gallerySelectAll st selectedFiles) = [])
  /\ (forall files,
        List.map GalleryPage.id files = ids ->
        Selection.folderSelectAll files selectedFiles = ids
        /\ Selection.folderSelectAll files (Selection.folderSelectAll files selectedFiles)
           = []).
Proof.
  intros Hnd Hlen.
  assert (H1 : Selection.selectAllFiles ids selectedFiles = ids).
  { unfold Selection.selectAllFiles. destruct (Nat.eqb_spec (length selectedFiles) (length ids));
      [contradiction|]. apply ofList_NoDup, Hnd. }
  assert (H2 : Selection.selectAllFiles ids (Selection.selectAllFiles ids selectedFiles) = []).
  { rewrite H1. unfold Selection.selectAllFiles. rewrite Nat.eqb_refl. reflexivity. }
  split; [exact H1|]. split; [exact H2|]. split.
  - intros st Hst. unfold Selection.gallerySelectAll. rewrite Hst. split; assumption.
  - intros files Hf. unfold Selection.folderSelectAll. rewrite Hf. split; assumption.
Qed.

(** Three photos, one of them selected. *)
Lemma select_all_then_deselect_all_witness :
  Selection.selectAllFiles ["a"; "b"; "c"] ["b"] = ["a"; "b"; "c"].
Proof.
  refine (proj1 (select_all_then_deselect_all ["a"; "b"; "c"] ["b"] _ _)).
  - repeat constructor; rewrite ?elem_of_cons, ?elem_of_nil; intuition discriminate.
  - simpl. lia.
Defined.

Section DeleteSelectedFacts.

Context {World : Type}.
Variable send : string -> World -> Ui.Fetched unit * World.

Lemma deleteOne_loop (ids : list string) (acc : Selection.Loop) :
  Selection.requests (List.fold_left (Selection.deleteOne send) ids acc)
  = (Selection.requests acc ++ ids)%list
  /\ Selection.deleted acc
     <= Selection.deleted (List.fold_left (Selection.deleteOne send) ids acc)
     <= Selection.deleted acc + length ids.
Proof.
  revert acc. induction ids as [|x ids IH]; intros acc; simpl.
  - rewrite List.app_nil_r. split; [reflexivity|lia].
  - destruct (IH (Selection.deleteOne send acc x)) as [Hr Hd]. rewrite Hr.
    unfold Selection.deleteOne in *. destruct (send x (Selection.world acc)) as [answer w].
    simpl in *. rewrite <- List.app_assoc. split; [reflexivity|].
    destruct (match answer with
              | Ui.Resolved res => Ui.ok res
              | Ui.Rejected _ => false
              end); lia.
Qed.

Lemma deleteOne_all_fail (ids : list string) (acc : Selection.Loop) :
  (forall fileId w, exists message w', send fileId w = (Ui.Rejected message, w')) ->
  Selection.deleted (List.fold_left (Selection.deleteOne send) ids acc)
  = Selection.deleted acc.
Proof.
  intros Hfail. revert acc. induction ids as [|x ids IH]; intros acc; simpl; [reflexivity|].
  rewrite IH. unfold Selection.deleteOne.
  destruct (Hfail x (Selection.world acc)) as (message & w' & ->). reflexivity.
Qed.

End DeleteSelectedFacts.

(** X6. "Delete selected" in the admin's folder view, whatever the server
    answers: one [DELETE] is sent for each selected file, in the order of
    the selection; the number reported is at most the number selected; the
    only toast is the success toast "Deleted k file(s)"; the selection is
    cleared, selection mode is left and the listing is fetched again.  When
    every request fails the toast still reads "Deleted 0 file(s)".  With
    nothing selected, nothing is sent or shown and the selection mode stays
    as it is. *)
Theorem delete_selected_reports_count_only :
  forall (World : Type) (send : string -> World -> Ui.Fetched unit * World)
         (selectionMode : bool) (w : World),
    (forall first others,
        Selection.posted
          (Selection.deleteSelectedFiles send (first :: others) selectionMode w)
        = (first :: others)%list
        /\ Selection.count
             (Selection.deleteSelectedFiles send (first :: others) selectionMode w)
           <= length (first :: others)%list
        /\ Selection.shown
             (Selection.deleteSelectedFiles send (first :: others) selectionMode w)
           = [Ui.ToastSuccess
                ("Deleted "
                 +:+ Ui.show_nat
                       (Selection.count
                          (Selection.deleteSelectedFiles send (first :: others)
                             selectionMode w))
                 +:+ " file(s)")]
        /\ Selection.selectedAfter
             (Selection.deleteSelectedFiles send (first :: others) selectionMode w) = []
        /\ Selection.selectionModeAfter
             (Selection.deleteSelectedFiles send (first :: others) selectionMode w) = false
        /\ Selection.refreshed
             (Selection.deleteSelectedFiles send (first :: others) selectionMode w) = true)
    /\ (forall first others,
          (forall fileId w0, exists message w', send fileId w0 = (Ui.Rejected message, w')) ->
          Selection.shown
            (Selection.deleteSelectedFiles send (first :: others) selectionMode w)
          = [Ui.ToastSuccess "Deleted 0 file(s)"])
    /\ Selection.deleteSelectedFiles send [] selectionMode w
       = Selection.mkOutcome [] [] 0 [] selectionMode false w.
Proof.
  intros World send selectionMode w. split; [|split].
  - intros first others. unfold Selection.deleteSelectedFiles.
    destruct (deleteOne_loop send (first :: others) (Selection.mkLoop 0 [] w)) as [Hr Hd].
    cbn [Selection.posted Selection.count Selection.shown Selection.selectedAfter
         Selection.selectionModeAfter Selection.refreshed].
    rewrite Hr. simpl in Hd. repeat split; simpl; lia.
  - intros first others Hfail. unfold Selection.deleteSelectedFiles.
    cbn [Selection.shown].
    rewrite (deleteOne_all_fail send (first :: others) _ Hfail). reflexivity.
  - reflexivity.
Qed.

(** ** The lightbox *)

Section LightboxFacts.

Import Lightbox.

Lemma advance_below (count i : nat) : 0 < count -> advance count i < count.
Proof.
  intros Hc. unfold advance. destruct (Nat.ltb_spec (i + 1) count); lia.
Qed.

Lemma handle_in_range (count : nat) (selectionMode : bool) (e : Event) (st : State) :
  (forall i, lightboxIndex st = Some i -> i < count) ->
  (slideshowPlaying st = true -> lightboxIndex st <> None) ->
  (forall i, lightboxIndex (handle count selectionMode e st) = Some i -> i < count)
  /\ (slideshowPlaying (handle count selectionMode e st) = true ->
      lightboxIndex (handle count selectionMode e st) <> None).
Proof.
  intros Hi Hp. unfold handle.
  destruct e, (lightboxIndex st) as [j|] eqn:Hj; try (split; [exact Hi|exact Hp]);
    try (split; [rewrite Hj; exact Hi | rewrite Hj; exact Hp]).
  all: try specialize (Hi j eq_refl).
  all: repeat match goal with
              | |- context [if ?b then _ else _] =>
                  let E := fresh "E" in destruct b eqn:E
              end;
       simpl; rewrite ?Hj; split;
       try (intros i [= <-]); try discriminate; try (intros _; discriminate);
       try exact Hp; try lia.
  all: try (apply andb_prop in E; destruct E as [E _]; apply Nat.ltb_lt in E; lia).
  all: try (apply Nat.ltb_lt in E; lia).
  all: try (apply advance_below; lia).
  all: try (intros i Hsome; rewrite Hsome in *; discriminate).
Qed.

Lemma run_in_range (count : nat) (selectionMode : bool) (events : list Event) (st : State) :
  (forall i, lightboxIndex st = Some i -> i < count) ->
  (slideshowPlaying st = true -> lightboxIndex st <> None) ->
  (forall i, lightboxIndex (run count selectionMode events st) = Some i -> i < count)
  /\ (slideshowPlaying (run count selectionMode events st) = true ->
      lightboxIndex (run count selectionMode events st) <> None).
Proof.
  revert st. induction events as [|e events IH]; intros st Hi Hp; [split; assumption|].
  simpl. destruct (handle_in_range count selectionMode e st Hi Hp) as [Hi' Hp'].
  apply IH; assumption.
Qed.

Lemma advance_iter (count i k : nat) :
  i < count -> Nat.iter k (advance count) i = (i + k) mod count.
Proof.
  intros Hi. induction k as [|k IH]; simpl.
  - rewrite Nat.add_0_r. symmetry. apply Nat.mod_small, Hi.
  - rewrite IH. unfold advance.
    assert (Hm : (i + k) mod count < count) by (apply Nat.mod_upper_bound; lia).
    replace (i + S k) with ((i + k) + 1) by lia.
    rewrite <- (Nat.Div0.add_mod_idemp_l (i + k) 1 count).
    destruct (Nat.ltb_spec ((i + k) mod count + 1) count) as [Hlt|Hge].
    + symmetry. apply Nat.mod_small. exact Hlt.
    + assert (Heq : (i + k) mod count + 1 = count) by lia.
      rewrite Heq. symmetry. apply Nat.Div0.mod_same.
Qed.

End LightboxFacts.

(** X7. Whatever the visitor does with the lightbox (open a photo, start
    it from the "Slideshow" button, next, previous, start and stop the
    slideshow, let it tick, close), the index of the lightbox stays below
    the number of photos, so the lightbox always has a photo to show, and
    the slideshow runs only while the lightbox is open. *)
Theorem lightbox_stays_on_a_photo :
  forall (count : nat) (selectionMode : bool) (events : list Lightbox.Event),
    (forall i,
        Lightbox.lightboxIndex (Lightbox.run count selectionMode events Lightbox.closed)
        = Some i ->
        i < count
        /\ Lightbox.showing count
             (Lightbox.run count selectionMode events Lightbox.closed) = Some i)
    /\ (Lightbox.slideshowPlaying
          (Lightbox.run count selectionMode events Lightbox.closed) = true ->
        exists i,
          Lightbox.lightboxIndex
            (Lightbox.run count selectionMode events Lightbox.closed) = Some i).
Proof.
  intros count selectionMode events.
  destruct (run_in_range count selectionMode events Lightbox.closed) as [Hi Hp];
    [discriminate|discriminate|].
  split.
  - intros i Hsome. pose proof (Hi i Hsome) as Hlt. split; [exact Hlt|].
    unfold Lightbox.showing. rewrite Hsome.
    destruct (Nat.ltb_spec i count); [reflexivity|lia].
  - intros Hplay. specialize (Hp Hplay).
    destruct (Lightbox.lightboxIndex _) as [i|]; [eauto|contradiction].
Qed.

(** X8. The slideshow goes round: from any photo, [k] ticks lead to the
    photo [k] places further, counted modulo the number of photos, so as
    many ticks as there are photos lead back to the same photo. *)
Theorem slideshow_goes_round (count i k : nat) :
  i < count ->
  Nat.iter k (Lightbox.advance count) i = (i + k) mod count
  /\ Nat.iter count (Lightbox.advance count) i = i.
Proof.
  intros Hi. split; [apply advance_iter, Hi|].
  rewrite advance_iter by exact Hi.
  rewrite <- (Nat.Div0.add_mod_idemp_r i count count), Nat.Div0.mod_same, Nat.add_0_r.
  apply Nat.mod_small, Hi.
Qed.

(** Five photos, from the fourth. *)
Lemma slideshow_goes_round_witness :
  Nat.iter 5 (Lightbox.advance 5) 3 = 3.
Proof. exact (proj2 (slideshow_goes_round 5 3 0 ltac:(lia))). Defined.

(** X9. The third upload button of the gallery, in the empty state, is
    shown only when [canEdit] holds, and whenever it is shown the upload
    section with its button is on the page too: no upload control of the
    page is shown without [canEdit]. *)
Theorem empty_state_upload_needs_canEdit (folderCount : nat) (st : GalleryPage.State) :
  EmptyState.emptyUploadShown folderCount st = true ->
  GalleryPage.canEdit st = true
  /\ elem_of GalleryPage.section_upload_btn (GalleryPage.controls st).
Proof.
  unfold EmptyState.emptyUploadShown. intros H.
  apply andb_prop in H. destruct H as [H Hc]. apply andb_prop in H. destruct H as [_ Hf].
  apply Nat.eqb_eq in Hf. split; [exact Hc|].
  unfold GalleryPage.controls, GalleryPage.uploadSection, GalleryPage.imageFiles.
  destruct (GalleryPage.files st); [|discriminate]. simpl. rewrite Hc.
  apply elem_of_app. left. left.
Qed.

(** An empty gallery opened through an edit share. *)
Lemma empty_state_upload_needs_canEdit_witness :
  GalleryPage.canEdit
    (GalleryPage.mkState (Some (GalleryPage.mkGallery (Some "f1") (Some "Lisa & Tara")
                                  (Some "edit"))) [] false None false false false) = true.
Proof.
  exact (proj1 (empty_state_upload_needs_canEdit 0
                  (GalleryPage.mkState
                     (Some (GalleryPage.mkGallery (Some "f1") (Some "Lisa & Tara")
                              (Some "edit"))) [] false None false false false)
                  eq_refl)).
Defined.

(** ** The admin session *)

Section SessionFacts.

Import AuthContext.

Lemma apply_token_stored (op : Op) (st : State) :
  token st = stored st \/ token st = None ->
  token (apply op st) = stored (apply op st) \/ token (apply op st) = None.
Proof.
  intros H. destruct op as [answer| |answer]; simpl.
  - unfold login. destruct answer as [res|m]; [|exact H].
    destruct (Ui.ok res); simpl; destruct (Ui.json res); simpl; auto.
  - left. reflexivity.
  - unfold tokenEffect, verifyToken. destruct (Ui.truthy (token st)); [|exact H].
    destruct answer as [res|m]; [|left; reflexivity].
    destruct (Ui.ok res); [|left; reflexivity].
    destruct (Ui.json res); simpl; auto.
Qed.

Lemma run_token_stored (ops : list Op) (st : State) :
  token st = stored st \/ token st = None ->
  token (run ops st) = stored (run ops st) \/ token (run ops st) = None.
Proof.
  revert st. induction ops as [|op ops IH]; intros st H; [exact H|].
  simpl. apply IH, apply_token_stored, H.
Qed.

End SessionFacts.

(** X10. Through any sequence of logins (whatever the server answers),
    logouts and token verifications since the provider was mounted,
    whenever the admin counts as authenticated the token in use is the one
    kept in local storage, and it is not empty. *)
Theorem authenticated_token_is_the_stored_one :
  forall (storage : option string) (ops : list AuthContext.Op),
    AuthContext.isAuthenticated (AuthContext.run ops (AuthContext.mount storage)) = true ->
    AuthContext.stored (AuthContext.run ops (AuthContext.mount storage))
    = AuthContext.token (AuthContext.run ops (AuthContext.mount storage))
    /\ exists t,
         AuthContext.token (AuthContext.run ops (AuthContext.mount storage)) = Some t
         /\ t <> "".
Proof.
  intros storage ops Hauth.
  destruct (run_token_stored ops (AuthContext.mount storage) (or_introl eq_refl)) as [H|H].
  - split; [symmetry; exact H|].
    unfold AuthContext.isAuthenticated in Hauth. apply andb_prop in Hauth.
    destruct Hauth as [Ht _].
    destruct (AuthContext.token _) as [t|]; [|discriminate].
    exists t. split; [reflexivity|]. intros ->. discriminate.
  - unfold AuthContext.isAuthenticated in Hauth. rewrite H in Hauth. discriminate.
Qed.

(** A login that the server accepts, after a logout. *)
Lemma authenticated_token_is_the_stored_one_witness :
  AuthContext.stored
    (AuthContext.run
       [AuthContext.Logout;
        AuthContext.Login
          (Ui.Resolved (Ui.mkResponse 200
                          (Ui.Data (AuthContext.mkLoginData "jwt-1" "mark"))))]
       (AuthContext.mount (Some "old")))
  = AuthContext.token
      (AuthContext.run
         [AuthContext.Logout;
          AuthContext.Login
            (Ui.Resolved (Ui.mkResponse 200
                            (Ui.Data (AuthContext.mkLoginData "jwt-1" "mark"))))]
         (AuthContext.mount (Some "old"))).
Proof.
  exact (proj1 (authenticated_token_is_the_stored_one (Some "old")
                  [AuthContext.Logout;
                   AuthContext.Login
                     (Ui.Resolved (Ui.mkResponse 200
                                     (Ui.Data (AuthContext.mkLoginData "jwt-1" "mark"))))]
                  eq_refl)).
Defined.

(** X11. A token that the server does not confirm ends the session: when
    [GET /api/auth/me] is answered with a status outside 2xx, or the
    request fails, the token is removed from local storage and from the
    state, the user is cleared, [loading] ends, and the admin is not
    authenticated.  Without a token nothing is asked and [loading] ends as
    well. *)
Theorem unconfirmed_token_logs_out
    (answer : Ui.Fetched AuthContext.UserObject) (st : AuthContext.State) :
  match answer with
  | Ui.Resolved res => Ui.ok res = false
  | Ui.Rejected _ => True
  end ->
  AuthContext.loading (AuthContext.tokenEffect answer st) = false
  /\ AuthContext.isAuthenticated (AuthContext.tokenEffect answer st) = false
  /\ (Ui.truthy (AuthContext.token st) = true ->
      AuthContext.tokenEffect answer st = AuthContext.mkState None None false None).
Proof.
  intros Hfail. unfold AuthContext.tokenEffect, AuthContext.verifyToken.
  destruct (Ui.truthy (AuthContext.token st)) eqn:Ht.
  - destruct answer as [res|m]; [rewrite Hfail|]; simpl; repeat split; reflexivity.
  - split; [reflexivity|]. split; [|discriminate].
    unfold AuthContext.isAuthenticated. simpl. rewrite Ht. reflexivity.
Qed.

(** A stored token that the server answers with 401. *)
Lemma unconfirmed_token_logs_out_witness :
  AuthContext.tokenEffect (Ui.Resolved (Ui.mkResponse 401 (Ui.ErrorObject None)))
    (AuthContext.mount (Some "expired"))
  = AuthContext.mkState None None false None.
Proof.
  exact (proj2 (proj2 (unconfirmed_token_logs_out
                         (Ui.Resolved (Ui.mkResponse 401 (Ui.ErrorObject None)))
                         (AuthContext.mount (Some "expired")) eq_refl)) eq_refl).
Defined.

(** X12. A login that does not go through throws and changes nothing:
    token, user and local storage stay as they were.  For an answer that is
    not ok the message is the [detail] of the answer when it has a non-empty
    one, the message of the parser when the body is not JSON, and
    "Login failed" otherwise; a request that fails, or an ok answer whose
    body is not JSON, throws with the message of that failure.  A login
    that the server accepts with a non-empty token leaves the admin
    authenticated with that token stored. *)
Theorem login_outcomes (st : AuthContext.State) :
  (forall res : Ui.Response AuthContext.LoginData,
      Ui.ok res = false ->
      AuthContext.login (Ui.Resolved res) st
      = (inl match Ui.json res with
             | Ui.SyntaxError message => message
             | Ui.ErrorObject (Some "") | Ui.ErrorObject None => "Login failed"
             | Ui.ErrorObject (Some d) => d
             | Ui.Data _ => "Login failed"
             end, st))
  /\ (forall message, AuthContext.login (Ui.Rejected message) st = (inl message, st))
  /\ (forall status message,
        AuthContext.login (Ui.Resolved (Ui.mkResponse status (Ui.SyntaxError message))) st
        = (inl message, st))
  /\ (forall status data,
        Ui.ok (Ui.mkResponse status (Ui.Data data)) = true ->
        AuthContext.data_token data <> "" ->
        fst (AuthContext.login (Ui.Resolved (Ui.mkResponse status (Ui.Data data))) st)
        = inr (Some data)
        /\ AuthContext.isAuthenticated
             (snd (AuthContext.login (Ui.Resolved (Ui.mkResponse status (Ui.Data data))) st))
           = true
        /\ AuthContext.stored
             (snd (AuthContext.login (Ui.Resolved (Ui.mkResponse status (Ui.Data data))) st))
           = Some (AuthContext.data_token data)).
Proof.
  split; [|split; [|split]].
  - intros res Hok. unfold AuthContext.login. rewrite Hok. simpl.
    destruct (Ui.json res) as [message|[[|a d]|]|data]; reflexivity.
  - reflexivity.
  - intros status message. unfold AuthContext.login.
    destruct (negb (Ui.ok _)); reflexivity.
  - intros status data Hok Htok. unfold AuthContext.login. rewrite Hok. simpl.
    repeat split. unfold AuthContext.isAuthenticated. simpl.
    destruct (AuthContext.data_token data); [contradiction|reflexivity].
Qed.

(** ** The routes *)

(** X13. Once the setup check has answered, every location settles on a
    page after at most two redirects (the root needs both when nobody is
    logged in), so the routes cannot redirect in a circle.  The dashboard
    is shown only when the setup is complete and the admin is authenticated
    and the session is not loading; a gallery location always shows its
    gallery, whatever the session is.  A failed setup check counts as a
    setup that is not complete. *)
Theorem routes_settle_in_two_redirects :
  (forall complete isAuthenticated loading location,
      exists page,
        App.settle 2 (Some complete) isAuthenticated loading location = Some page
        /\ (page = App.AdminDashboard ->
            complete = true /\ isAuthenticated = true /\ loading = false)
        /\ (forall token, location = App.Gallery token -> page = App.GalleryPage token))
  /\ App.settle 1 (Some true) false false App.Root = None
  /\ (forall isAuthenticated loading location,
        App.settle 0 None isAuthenticated loading location = Some App.LoadingPage)
  /\ (forall message, App.checkSetup (Ui.Rejected message) = false).
Proof.
  split; [|split; [|split]]; try reflexivity.
  intros complete isAuthenticated loading location.
  destruct complete, isAuthenticated, loading, location as [| | |token| ];
    simpl; eexists; (split; [reflexivity|]);
    (split; [try discriminate; auto | intros t; try discriminate; intros [= ->]; reflexivity]).
Qed.

(** ** The pages of the activity log *)

Section PagingFacts.

Import LogPaging.
Local Open Scope Z_scope.

Lemma click_in_range (total : Z) (c : Click) (page : Z) :
  0 <= page /\ (barShown total = true -> page <= totalPages total - 1) ->
  0 <= click total c page
  /\ (barShown total = true -> click total c page <= totalPages total - 1).
Proof.
  intros [H0 H1]. unfold click. destruct (barShown total) eqn:Hbar; [|split; [exact H0|discriminate]].
  specialize (H1 eq_refl). destruct c.
  - unfold prevDisabled. destruct (Z.eqb_spec page 0); split; intros; lia.
  - unfold nextDisabled. destruct (Z.leb_spec (totalPages total - 1) page); split; intros; lia.
Qed.

Lemma clicks_in_range (total : Z) (cs : list Click) (page : Z) :
  0 <= page /\ (barShown total = true -> page <= totalPages total - 1) ->
  0 <= clicks total cs page
  /\ (barShown total = true -> clicks total cs page <= totalPages total - 1).
Proof.
  revert page. induction cs as [|c cs IH]; intros page H; [exact H|].
  simpl. apply IH, click_in_range, H.
Qed.

End PagingFacts.

(** X14. From the first page and for a fixed number of entries, whatever
    the admin clicks in the pagination bar, the page stays between 0 and
    the last page; when the bar is shown, "Showing from - to of total"
    satisfies 1 <= from <= to <= total with at most 20 entries in the range,
    and the [skip] sent to the server stays below the total. *)
Theorem log_pages_stay_in_range (total : Z) (cs : list LogPaging.Click) :
  (0 <= total)%Z ->
  (0 <= LogPaging.clicks total cs 0)%Z
  /\ (LogPaging.barShown total = true ->
      (LogPaging.clicks total cs 0 < LogPaging.totalPages total)%Z
      /\ (1 <= LogPaging.shownFrom (LogPaging.clicks total cs 0))%Z
      /\ (LogPaging.shownFrom (LogPaging.clicks total cs 0)
          <= LogPaging.shownTo (LogPaging.clicks total cs 0) total)%Z
      /\ (LogPaging.shownTo (LogPaging.clicks total cs 0) total <= total)%Z
      /\ (LogPaging.shownTo (LogPaging.clicks total cs 0) total
          - LogPaging.shownFrom (LogPaging.clicks total cs 0) < LogPaging.limit)%Z
      /\ (LogPaging.skip (LogPaging.clicks total cs 0) < total)%Z).
Proof.
  intros Htotal.
  assert (Hstart : (0 <= 0)%Z
                   /\ (LogPaging.barShown total = true -> (0 <= LogPaging.totalPages total - 1)%Z)).
  { split; [lia|]. unfold LogPaging.barShown. intros H. apply Z.ltb_lt in H. lia. }
  destruct (clicks_in_range total cs 0%Z Hstart) as [H0 H1].
  split; [exact H0|]. intros Hbar. specialize (H1 Hbar).
  set (p := LogPaging.clicks total cs 0%Z) in *.
  unfold LogPaging.totalPages, LogPaging.shownFrom, LogPaging.shownTo, LogPaging.skip,
    LogPaging.limit in *.
  pose proof (Z.mul_div_le (total + 20 - 1) 20 ltac:(lia)) as Hdiv.
  repeat split; lia.
Qed.

(** Forty-five entries, after "next", "next", "next", "previous". *)
Lemma log_pages_stay_in_range_witness :
  (0 <= LogPaging.clicks 45
          [LogPaging.Following; LogPaging.Following; LogPaging.Following;
           LogPaging.Previous] 0)%Z.
Proof.
  exact (proj1 (log_pages_stay_in_range 45
                  [LogPaging.Following; LogPaging.Following; LogPaging.Following;
                   LogPaging.Previous] ltac:(lia))).
Defined.

(** ** More on the cart *)

Section CartFacts.

Import PrintOrderCart CartBadge.
Local Open Scope Z_scope.

Lemma countOf_from (c : Cart) (start : Z) :
  List.fold_left (fun sum item => sum + quantity item) c start = start + countOf c.
Proof.
  unfold countOf. revert start. induction c as [|item c IH]; intros start; simpl; [lia|].
  rewrite IH, (IH (0 + quantity item)). lia.
Qed.

Lemma countOf_app (c1 c2 : Cart) : countOf (c1 ++ c2) = countOf c1 + countOf c2.
Proof. unfold countOf at 1. rewrite List.fold_left_app. rewrite countOf_from. reflexivity. Qed.

Lemma countOf_cons (item : Item) (c : Cart) : countOf (item :: c) = quantity item + countOf c.
Proof. unfold countOf at 1. simpl. rewrite countOf_from. lia. Qed.

Lemma countOf_insert (c : Cart) (i : nat) (item item' : Item) :
  c !! i = Some item ->
  countOf (<[i := item']> c) = countOf c - quantity item + quantity item'.
Proof.
  intros Hi. pose proof (lookup_lt_Some _ _ _ Hi) as Hlt.
  rewrite insert_take_drop by exact Hlt.
  rewrite <- (take_drop_middle c i item Hi) at 3.
  rewrite !countOf_app, !countOf_cons. lia.
Qed.

Lemma with_quantity_same (item : Item) : with_quantity item (quantity item) = item.
Proof. destruct item. reflexivity. Qed.

Lemma with_quantity_twice (item : Item) (q q' : Z) :
  with_quantity (with_quantity item q) q' = with_quantity item q'.
Proof. reflexivity. Qed.

End CartFacts.

(** X15. Adding a print to the cart raises the number on the cart badge
    (the sum of the quantities) by exactly one, whether the print merges
    into an existing line or becomes a new one, from the gallery as from the
    cart component, and also when nothing was stored before. *)
Theorem adding_a_print_counts_one :
  forall (file : PrintOrderCart.File) (product : PrintOrderCart.Product)
         (cart : list PrintOrderCart.Item),
    CartBadge.countOf (PrintOrderCart.addToCart file product cart)
    = (CartBadge.countOf cart + 1)%Z
    /\ CartBadge.countOf (GalleryPage.handleAddToCart file product (Some cart))
       = (CartBadge.countOf cart + 1)%Z
    /\ CartBadge.countOf (GalleryPage.handleAddToCart file product None) = 1%Z.
Proof.
  intros file product cart.
  assert (H : CartBadge.countOf (PrintOrderCart.addToCart file product cart)
              = (CartBadge.countOf cart + 1)%Z).
  { unfold PrintOrderCart.addToCart.
    destruct (list_find (PrintOrderCart.sameLine file product) cart) as [[i item]|] eqn:Hf.
    - apply list_find_Some in Hf. destruct Hf as (Hi & _ & _).
      rewrite (countOf_insert cart i item _ Hi). simpl. lia.
    - rewrite countOf_app, countOf_cons. simpl. unfold CartBadge.countOf at 2. simpl. lia. }
  split; [exact H|]. split; [exact H|]. reflexivity.
Qed.

(** X16. In a cart whose quantities are at least 1, the minus button on
    the line that [addToCart] has just touched undoes the addition: the
    cart is again what it was, a merged line back at its quantity and a new
    line gone. *)
Theorem minus_undoes_add
    (file : PrintOrderCart.File) (product : PrintOrderCart.Product)
    (cart : list PrintOrderCart.Item) :
  Forall (fun item => (1 <= PrintOrderCart.quantity item)%Z) cart ->
  PrintOrderCart.updateQuantity (CartBadge.lineIndex file product cart) (-1)
    (PrintOrderCart.addToCart file product cart)
  = cart.
Proof.
  intros Hq. unfold CartBadge.lineIndex, PrintOrderCart.addToCart.
  destruct (list_find (PrintOrderCart.sameLine file product) cart) as [[i item]|] eqn:Hf.
  - apply list_find_Some in Hf. destruct Hf as (Hi & _ & _).
    pose proof (lookup_lt_Some _ _ _ Hi) as Hlt.
    pose proof (Forall_lookup_1 _ _ _ _ Hq Hi) as H1. simpl in H1.
    unfold PrintOrderCart.updateQuantity.
    rewrite list_lookup_insert_eq by exact Hlt. cbv zeta. simpl PrintOrderCart.quantity.
    destruct (Z.leb_spec (PrintOrderCart.quantity item + 1 + -1) 0); [lia|].
    rewrite list_insert_insert_eq, with_quantity_twice.
    replace (PrintOrderCart.quantity item + 1 + -1)%Z with (PrintOrderCart.quantity item)
      by lia.
    rewrite with_quantity_same. apply list_insert_id, Hi.
  - unfold PrintOrderCart.updateQuantity.
    rewrite lookup_app_r by lia. rewrite Nat.sub_diag. simpl.
    rewrite delete_middle. apply List.app_nil_r.
Qed.

(** A cart with two prints of one photo, and a third one added. *)
Lemma minus_undoes_add_witness :
  PrintOrderCart.updateQuantity 0 (-1)
    (PrintOrderCart.addToCart
       (PrintOrderCart.mkFile "f1" "one.jpg" "/t/f1")
       (PrintOrderCart.mkProduct "p1" "6x4 Lustre" "6x4" "lustre" 3%float)
       [PrintOrderCart.mkItem "f1" "one.jpg" "/t/f1" "p1" "6x4 Lustre" "6x4" "lustre"
          3%float 2])
  = [PrintOrderCart.mkItem "f1" "one.jpg" "/t/f1" "p1" "6x4 Lustre" "6x4" "lustre"
       3%float 2].
Proof.
  refine (minus_undoes_add
            (PrintOrderCart.mkFile "f1" "one.jpg" "/t/f1")
            (PrintOrderCart.mkProduct "p1" "6x4 Lustre" "6x4" "lustre" 3%float)
            [PrintOrderCart.mkItem "f1" "one.jpg" "/t/f1" "p1" "6x4 Lustre" "6x4" "lustre"
               3%float 2] _).
  repeat constructor. simpl. lia.
Defined.

(** X17. After an order has been accepted by the server with a body that
    parses as JSON, the dialog is on its confirmation step with an empty
    cart, and the amount that the confirmation and its PayPal link show is
    computed from that empty cart: it is the shipping fee, 2.50, whatever
    the order came to.  An ok answer whose body does not parse leaves the
    dialog on the details with its cart. *)
Theorem confirmation_shows_the_shipping_fee
    (shareToken : string) (st : PrintOrderCart.State) (res : Ui.Response unit) :
  PrintOrderCart.step st = PrintOrderCart.StepDetails ->
  PrintOrderCart.validateDetails (PrintOrderCart.customerDetails st) = None ->
  Ui.ok res = true ->
  (match Ui.json res with
   | Ui.SyntaxError _ => False
   | _ => True
   end ->
   PrintOrderCart.step
     (PrintOrderCart.handle shareToken (PrintOrderCart.Submit (Ui.Resolved res)) st)
   = PrintOrderCart.StepConfirm
   /\ PrintOrderCart.cart
        (PrintOrderCart.handle shareToken (PrintOrderCart.Submit (Ui.Resolved res)) st) = []
   /\ CartBadge.confirmAmount
        (PrintOrderCart.handle shareToken (PrintOrderCart.Submit (Ui.Resolved res)) st)
      = 2.5%float)
  /\ (forall message,
        Ui.json res = Ui.SyntaxError message ->
        PrintOrderCart.handle shareToken (PrintOrderCart.Submit (Ui.Resolved res)) st = st).
Proof.
  intros Hstep Hvalid Hok. unfold PrintOrderCart.handle, PrintOrderCart.submitOrder.
  rewrite Hstep, Hvalid, Hok. split.
  - destruct (Ui.json res); [contradiction| |]; intros _; repeat split; reflexivity.
  - intros message Hm. rewrite Hm. reflexivity.
Qed.

(** An order of four prints at 3.00 (total 14.50) that the server accepts. *)
Lemma confirmation_shows_the_shipping_fee_witness :
  CartBadge.confirmAmount
    (PrintOrderCart.handle "lisatara"
       (PrintOrderCart.Submit (Ui.Resolved (Ui.mkResponse 200 (Ui.Data tt))))
       (PrintOrderCart.mkState
          [PrintOrderCart.mkItem "f1" "one.jpg" "/t/f1" "p1" "6x4 Lustre" "6x4" "lustre"
             3%float 4]
          PrintOrderCart.StepDetails
          (PrintOrderCart.mkDetails
             (Js.of_string "lisa@example.com") (Js.of_string "Lisa")
             (Js.of_string "1 High Street") [] (Js.of_string "Leeds") []
             (Js.of_string "LS1 4AP") (Js.of_string "0113 496 0000"))))
  = 2.5%float.
Proof.
  match goal with
  | |- CartBadge.confirmAmount
         (PrintOrderCart.handle ?t (PrintOrderCart.Submit (Ui.Resolved ?r)) ?s) = _ =>
      exact (proj2 (proj2 (proj1 (confirmation_shows_the_shipping_fee t s r
                                    eq_refl eq_refl eq_refl) I)))
  end.
Defined.

(** X18. The delivery form lets an order through exactly when e-mail, name,
    first address line, city, postcode and phone each hold something other
    than white space, the e-mail holds an "@", and the postcode has at least
    five characters (white space included).  The second address line and
    the county are never looked at.  Nothing is posted otherwise. *)
Theorem delivery_form_gate :
  (forall d,
      PrintOrderCart.validateDetails d = None <->
      Js.trimsToEmpty (PrintOrderCart.email d) = false
      /\ Js.trimsToEmpty (PrintOrderCart.cname d) = false
      /\ Js.trimsToEmpty (PrintOrderCart.line1 d) = false
      /\ Js.trimsToEmpty (PrintOrderCart.city d) = false
      /\ Js.trimsToEmpty (PrintOrderCart.postcode d) = false
      /\ Js.trimsToEmpty (PrintOrderCart.phone d) = false
      /\ Js.includes 64 (PrintOrderCart.email d) = true
      /\ 5 <= length (PrintOrderCart.postcode d))
  /\ (forall d other_line2 other_county,
        PrintOrderCart.validateDetails
          (PrintOrderCart.mkDetails (PrintOrderCart.email d) (PrintOrderCart.cname d)
             (PrintOrderCart.line1 d) other_line2 (PrintOrderCart.city d) other_county
             (PrintOrderCart.postcode d) (PrintOrderCart.phone d))
        = PrintOrderCart.validateDetails d)
  /\ (forall shareToken st,
        PrintOrderCart.validateDetails (PrintOrderCart.customerDetails st) <> None ->
        PrintOrderCart.posts shareToken st = None
        /\ forall answer,
             PrintOrderCart.handle shareToken (PrintOrderCart.Submit answer) st = st).
Proof.
  split; [|split].
  - intros d. unfold PrintOrderCart.validateDetails. cbn [List.find snd].
    destruct (Js.trimsToEmpty (PrintOrderCart.email d));
      [split; [discriminate | intros (H & _); discriminate]|].
    destruct (Js.trimsToEmpty (PrintOrderCart.cname d));
      [split; [discriminate | intros (_ & H & _); discriminate]|].
    destruct (Js.trimsToEmpty (PrintOrderCart.line1 d));
      [split; [discriminate | intros (_ & _ & H & _); discriminate]|].
    destruct (Js.trimsToEmpty (PrintOrderCart.city d));
      [split; [discriminate | intros (_ & _ & _ & H & _); discriminate]|].
    destruct (Js.trimsToEmpty (PrintOrderCart.postcode d));
      [split; [discriminate | intros (_ & _ & _ & _ & H & _); discriminate]|].
    destruct (Js.trimsToEmpty (PrintOrderCart.phone d));
      [split; [discriminate | intros (_ & _ & _ & _ & _ & H & _); discriminate]|].
    destruct (Js.includes 64 (PrintOrderCart.email d)); simpl;
      [|split; [discriminate | intros (_ & _ & _ & _ & _ & _ & H & _); discriminate]].
    destruct (Nat.ltb_spec (length (PrintOrderCart.postcode d)) 5) as [Hlt|Hge].
    + split; [discriminate|]. intros (_ & _ & _ & _ & _ & _ & _ & H). lia.
    + split; [|reflexivity]. intros _. repeat split; assumption.
  - intros d l2 co. reflexivity.
  - intros shareToken st Hbad.
    assert (Hs : exists t, PrintOrderCart.submitOrder shareToken st = inl t).
    { unfold PrintOrderCart.submitOrder.
      destruct (PrintOrderCart.validateDetails _); [eauto|contradiction]. }
    destruct Hs as (t & Hs). split.
    + unfold PrintOrderCart.posts. rewrite Hs. destruct (PrintOrderCart.step st); reflexivity.
    + intros answer. unfold PrintOrderCart.handle. rewrite Hs.
      destruct (PrintOrderCart.step st); reflexivity.
Qed.

(** ** Uploads over any transport *)

Section UploadAccounting.

Context {World : Type}.
Variable send : Upload.Request -> World -> Ui.Fetched unit * World.

Lemma onDrop_accounts (folder : string) (fs : list Upload.UploadFile)
    (acc : FolderManager.Loop) :
  List.map Upload.file
    (FolderManager.requests (List.fold_left (FolderManager.uploadOne send folder) fs acc))
  = (List.map Upload.file (FolderManager.requests acc) ++ fs)%list
  /\ (Forall (fun req => Upload.folder_id req = folder) (FolderManager.requests acc) ->
      Forall (fun req => Upload.folder_id req = folder)
        (FolderManager.requests
           (List.fold_left (FolderManager.uploadOne send folder) fs acc)))
  /\ FolderManager.completed (List.fold_left (FolderManager.uploadOne send folder) fs acc)
     + length (FolderManager.toasts
                 (List.fold_left (FolderManager.uploadOne send folder) fs acc))
     = FolderManager.completed acc + length (FolderManager.toasts acc) + length fs.
Proof.
  revert acc. induction fs as [|f fs IH]; intros acc; simpl.
  - rewrite List.app_nil_r. split; [reflexivity|]. split; [tauto|lia].
  - destruct (IH (FolderManager.uploadOne send folder acc f)) as (Hr & Hf & Hc).
    rewrite Hr, Hc. clear IH Hr Hc.
    assert (Hstep : Forall (fun req => Upload.folder_id req = folder) (FolderManager.requests acc) ->
                    Forall (fun req => Upload.folder_id req = folder)
                      (FolderManager.requests (FolderManager.uploadOne send folder acc f))).
    { intros Hacc. unfold FolderManager.uploadOne.
      destruct (send _ (FolderManager.world acc)) as [answer w].
      destruct (match answer with
                | Ui.Resolved res => Ui.ok res
                | Ui.Rejected _ => false
                end); simpl; apply Forall_app; (split; [exact Hacc|]);
        constructor; [reflexivity|constructor|reflexivity|constructor]. }
    split; [|split; [intros Hacc; apply Hf, Hstep, Hacc|]];
      unfold FolderManager.uploadOne;
      destruct (send _ (FolderManager.world acc)) as [answer w];
      destruct (match answer with
                | Ui.Resolved res => Ui.ok res
                | Ui.Rejected _ => false
                end); simpl;
      rewrite ?List.map_app, ?length_app, <- ?List.app_assoc; simpl;
      try reflexivity; lia.
Qed.

Lemma handleUpload_accounts (token folder : string) (fs : list Upload.UploadFile)
    (acc : GalleryPage.Loop) :
  List.map Upload.file
    (GalleryPage.requests (List.fold_left (GalleryPage.uploadOne send token folder) fs acc))
  = (List.map Upload.file (GalleryPage.requests acc) ++ fs)%list
  /\ (Forall (fun req => Upload.folder_id req = folder) (GalleryPage.requests acc) ->
      Forall (fun req => Upload.folder_id req = folder)
        (GalleryPage.requests
           (List.fold_left (GalleryPage.uploadOne send token folder) fs acc)))
  /\ GalleryPage.uploaded (List.fold_left (GalleryPage.uploadOne send token folder) fs acc)
     + length (GalleryPage.toasts
                 (List.fold_left (GalleryPage.uploadOne send token folder) fs acc))
     = GalleryPage.uploaded acc + length (GalleryPage.toasts acc) + length fs.
Proof.
  revert acc. induction fs as [|f fs IH]; intros acc; simpl.
  - rewrite List.app_nil_r. split; [reflexivity|]. split; [tauto|lia].
  - destruct (IH (GalleryPage.uploadOne send token folder acc f)) as (Hr & Hf & Hc).
    rewrite Hr, Hc. clear IH Hr Hc.
    assert (Hstep : Forall (fun req => Upload.folder_id req = folder) (GalleryPage.requests acc) ->
                    Forall (fun req => Upload.folder_id req = folder)
                      (GalleryPage.requests (GalleryPage.uploadOne send token folder acc f))).
    { intros Hacc. unfold GalleryPage.uploadOne.
      destruct (send _ (GalleryPage.world acc)) as [answer w].
      destruct (match answer with
                | Ui.Resolved res => Ui.ok res
                | Ui.Rejected _ => false
                end); simpl; apply Forall_app; (split; [exact Hacc|]);
        constructor; [reflexivity|constructor|reflexivity|constructor]. }
    split; [|split; [intros Hacc; apply Hf, Hstep, Hacc|]];
      unfold GalleryPage.uploadOne;
      destruct (send _ (GalleryPage.world acc)) as [answer w];
      destruct (match answer with
                | Ui.Resolved res => Ui.ok res
                | Ui.Rejected _ => false
                end); simpl;
      rewrite ?List.map_app, ?length_app, <- ?List.app_assoc; simpl;
      try reflexivity; lia.
Qed.

End UploadAccounting.

(** X19. Whatever the server answers to each upload, both upload handlers
    (the admin's into its current folder, the gallery's into its target: the
    folder of the URL, or at the root of the gallery the folder of the
    share) send every chosen file once, in order and to that folder, and
    account for each: the number of uploads counted plus the number of
    error toasts is the number of files.  The admin's handler always closes
    with its report and refreshes the folder; the gallery's handler shows
    its success toast and refreshes exactly when at least one upload went
    through. *)
Theorem every_upload_is_accounted_for :
  forall (World : Type) (send : Upload.Request -> World -> Ui.Fetched unit * World)
         (token folder : string) (current : option string) (st : GalleryPage.State)
         (first : Upload.UploadFile) (others : list Upload.UploadFile) (w : World),
    folder <> "" ->
    GalleryPage.targetFolder current st = Some folder ->
    List.map Upload.file
      (FolderManager.posted (FolderManager.onDrop send (Some folder) (first :: others) w))
    = (first :: others)%list
    /\ Forall (fun req => Upload.folder_id req = folder)
         (FolderManager.posted (FolderManager.onDrop send (Some folder) (first :: others) w))
    /\ FolderManager.done (FolderManager.onDrop send (Some folder) (first :: others) w)
       + (length (FolderManager.shown
                    (FolderManager.onDrop send (Some folder) (first :: others) w)) - 1)
       = length (first :: others)%list
    /\ FolderManager.refreshed
         (FolderManager.onDrop send (Some folder) (first :: others) w) = true
    /\ List.map Upload.file
         (GalleryPage.posted
            (GalleryPage.handleUpload send token current st (first :: others) w))
       = (first :: others)%list
    /\ Forall (fun req => Upload.folder_id req = folder)
         (GalleryPage.posted
            (GalleryPage.handleUpload send token current st (first :: others) w))
    /\ GalleryPage.refreshed
         (GalleryPage.handleUpload send token current st (first :: others) w)
       = (0 <? GalleryPage.count
                 (GalleryPage.handleUpload send token current st (first :: others) w))%nat
    /\ GalleryPage.count
         (GalleryPage.handleUpload send token current st (first :: others) w)
       + length (GalleryPage.shown
                   (GalleryPage.handleUpload send token current st (first :: others) w))
       = length (first :: others)%list
         + (if GalleryPage.refreshed
                 (GalleryPage.handleUpload send token current st (first :: others) w)
            then 1 else 0).
Proof.
  intros World send token folder current st first others w Hfolder Htarget.
  rewrite (handleUpload_target send token current st folder first others w Htarget Hfolder).
  destruct folder as [|a folder]; [contradiction|].
  destruct (onDrop_accounts send (String a folder) (first :: others)
              (FolderManager.mkLoop 0 [] [] w)) as (Hr & Hf & Hc).
  destruct (handleUpload_accounts send token (String a folder) (first :: others)
              (GalleryPage.mkLoop 0 [] [] w)) as (Hr' & Hf' & Hc').
  cbn [FolderManager.completed FolderManager.toasts FolderManager.requests
       List.map app length Nat.add] in Hr, Hc.
  cbn [GalleryPage.uploaded GalleryPage.toasts GalleryPage.requests
       List.map app length Nat.add] in Hr', Hc'.
  specialize (Hf (List.Forall_nil _)). specialize (Hf' (List.Forall_nil _)).
  unfold FolderManager.onDrop, GalleryPage.handleUpload, GalleryPage.orElse.
  cbn [Ui.truthy String.eqb negb Ascii.eqb].
  cbn [FolderManager.posted FolderManager.done FolderManager.shown FolderManager.refreshed].
  rewrite Hr, length_app. cbn [length].
  split; [reflexivity|]. split; [exact Hf|]. split; [lia|]. split; [reflexivity|].
  destruct (0 <? GalleryPage.uploaded _)%nat eqn:Hup;
    cbn [GalleryPage.posted GalleryPage.count GalleryPage.shown GalleryPage.refreshed];
    rewrite Hr', ?Hup, ?length_app; cbn [length];
    (split; [reflexivity|]); (split; [exact Hf'|]); (split; [reflexivity|]); lia.
Qed.

(** Two files picked at the root of a gallery, where the folder comes from
    the share, with a server that is down. *)
Lemma every_upload_is_accounted_for_witness :
  List.map Upload.file
    (GalleryPage.posted
       (GalleryPage.handleUpload
          (fun (_ : Upload.Request) (w : unit) => (Ui.Rejected (A := unit) "down", w))
          "lisatara" None
          (GalleryPage.mkState
             (Some (GalleryPage.mkGallery (Some "folder-1") (Some "Lisa & Tara")
                      (Some "edit")))
             [] false None false false false)
          [Upload.mkUploadFile "a.jpg" 10; Upload.mkUploadFile "b.jpg" 20] tt))
  = [Upload.mkUploadFile "a.jpg" 10; Upload.mkUploadFile "b.jpg" 20].
Proof.
  exact (proj1 (proj2 (proj2 (proj2 (proj2
           (every_upload_is_accounted_for unit
              (fun (_ : Upload.Request) (w : unit) => (Ui.Rejected "down", w))
              "lisatara" "folder-1" None
              (GalleryPage.mkState
                 (Some (GalleryPage.mkGallery (Some "folder-1") (Some "Lisa & Tara")
                          (Some "edit")))
                 [] false None false false false)
              (Upload.mkUploadFile "a.jpg" 10) [Upload.mkUploadFile "b.jpg" 20] tt
              ltac:(discriminate) eq_refl)))))).
Defined.

(** X20. Nothing is sent without a target: the admin's drop outside a
    folder shows "Please select a folder first" and sends nothing; the
    gallery's handler sends and shows nothing for an empty selection, and
    shows "Cannot upload here" and sends nothing when neither the current
    folder nor the folder of the gallery is known. *)
Theorem no_upload_without_a_target :
  forall (World : Type) (send : Upload.Request -> World -> Ui.Fetched unit * World)
         (token : string) (files : list Upload.UploadFile) (w : World),
    (forall current,
        current = None \/ current = Some "" ->
        FolderManager.onDrop send current files w
        = FolderManager.mkDropped [Ui.ToastError "Please select a folder first"] [] 0 false w)
    /\ (forall current st,
          GalleryPage.handleUpload send token current st [] w
          = GalleryPage.mkUploaded [] [] 0 false w)
    /\ (forall current st,
          files <> [] ->
          Ui.truthy current = false ->
          Ui.truthy match GalleryPage.gallery st with
                    | Some g => GalleryPage.folder_id g
                    | None => None
                    end = false ->
          GalleryPage.handleUpload send token current st files w
          = GalleryPage.mkUploaded [Ui.ToastError "Cannot upload here"] [] 0 false w).
Proof.
  intros World send token files w. split; [|split].
  - intros current [-> | ->]; reflexivity.
  - reflexivity.
  - intros current st Hne Hcur Hgal. unfold GalleryPage.handleUpload, GalleryPage.orElse.
    destruct files as [|f fs]; [contradiction|]. rewrite Hcur.
    destruct (match GalleryPage.gallery st with
              | Some g => GalleryPage.folder_id g
              | None => None
              end) as [[|a s]|]; try reflexivity. discriminate Hgal.
Qed.

(** ** Byte counts *)

Section BytesFacts.

Import JsNumber.
Local Open Scope Z_scope.

Lemma toFixed2_range (b i : Z) :
  0 <= i -> 1024 ^ i <= b < 1024 ^ (i + 1) -> 100 <= toFixed2 b i <= 102400.
Proof.
  intros Hi [Hlo Hhi]. unfold toFixed2. rewrite (proj2 (Z.leb_le 0 i) Hi).
  rewrite Z.pow_add_r, Z.pow_1_r in Hhi by lia.
  set (P := 1024 ^ i) in *.
  assert (HP : 0 < P) by (apply Z.pow_pos_nonneg; lia).
  split.
  - apply Z.div_le_lower_bound; lia.
  - apply Z.lt_succ_r. apply Z.div_lt_upper_bound; lia.
Qed.

Lemma digits_hundred (b : Z) : 0 <= b -> showHundredths (100 * b) = digits b.
Proof.
  intros Hb. unfold showHundredths.
  replace (100 * b mod 100) with 0 by (rewrite Z.mul_comm, Z.mod_mul; lia).
  simpl. f_equal. rewrite Z.mul_comm, Z.div_mul; lia.
Qed.

End BytesFacts.

(** X21. Whatever [Math.log] returns: when the index computed for a byte
    count is the exact one ([1024^i <= bytes < 1024^(i+1)]), both copies of
    [formatBytes] print a number between 1 and 1024 (in hundredths, between
    100 and 102400) followed by their unit at that index; a count below
    1024 with index 0 is printed as it is, followed by "Bytes"; a count of
    zero is printed as "0 Bytes". *)
Theorem formatBytes_number_range :
  (forall log (b i : Z),
      (0 < b < 2 ^ 53)%Z ->
      JsNumber.index log b = JsNumber.Whole i ->
      (0 <= i)%Z ->
      (1024 ^ i <= b < 1024 ^ (i + 1))%Z ->
      (100 <= JsNumber.toFixed2 b i <= 102400)%Z
      /\ FolderManagerBytes.formatBytes log b
         = Some (JsNumber.showHundredths (JsNumber.toFixed2 b i) +:+ " "
                 +:+ JsNumber.orUndefined
                       (JsNumber.unitAt FolderManagerBytes.sizes (JsNumber.Whole i)))
      /\ DashboardHome.formatBytes log b
         = Some (JsNumber.showHundredths (JsNumber.toFixed2 b i) +:+ " "
                 +:+ JsNumber.orUndefined
                       (JsNumber.unitAt DashboardHome.sizes (JsNumber.Whole i))))
  /\ (forall log (b : Z),
        (1 <= b < 1024)%Z ->
        JsNumber.index log b = JsNumber.Whole 0 ->
        FolderManagerBytes.formatBytes log b = Some (JsNumber.digits b +:+ " Bytes")
        /\ DashboardHome.formatBytes log b = Some (JsNumber.digits b +:+ " Bytes"))
  /\ (forall log,
        FolderManagerBytes.formatBytes log 0 = Some "0 Bytes"
        /\ DashboardHome.formatBytes log 0 = Some "0 Bytes").
Proof.
  split; [|split; [|split; reflexivity]].
  - intros log b i Hb Hidx Hi Hexact.
    split; [apply toFixed2_range; assumption|].
    rewrite formatBytes_unfold_folder, formatBytes_unfold_dashboard by exact Hb.
    rewrite Hidx, quotientText_whole by lia. split; reflexivity.
  - intros log b Hb Hidx.
    assert (Hn : JsNumber.toFixed2 b 0 = (100 * b)%Z).
    { unfold JsNumber.toFixed2. cbn [Z.leb Z.compare]. rewrite Z.pow_0_r.
      replace (200 * b + 1)%Z with (1 + (100 * b) * 2)%Z by lia.
      replace (2 * 1)%Z with 2%Z by lia.
      rewrite Z.div_add by lia. reflexivity. }
    rewrite formatBytes_unfold_folder, formatBytes_unfold_dashboard by lia.
    rewrite Hidx, quotientText_whole, Hn, digits_hundred by lia. split; reflexivity.
Qed.

(** ** The share form *)

(** X22. The share form posts exactly when a folder is chosen and the
    token holds something other than white space.  The token may still
    clean to nothing: for such a token the request carries the empty token,
    while the preview under the input shows "yourtoken". *)
Theorem share_form_gate :
  (forall newShare,
      (exists body, ShareManager.createShare newShare = ShareManager.Posted body)
      <-> ShareManager.folder_id newShare <> ""
          /\ Js.trimsToEmpty (ShareManager.token newShare) = false)
  /\ (forall newShare,
        ShareManager.folder_id newShare <> "" ->
        Js.trimsToEmpty (ShareManager.token newShare) = false ->
        ShareManager.cleanToken (ShareManager.token newShare) = [] ->
        ShareManager.createShare newShare
        = ShareManager.Posted
            (ShareManager.mkShareRequest (ShareManager.folder_id newShare) []
               (ShareManager.permission newShare))
        /\ ShareManager.previewToken newShare = Js.of_string "yourtoken")
  /\ ShareManager.createShare
       (ShareManager.mkNewShare "folder-1" (Js.of_string "---") "read")
     = ShareManager.Posted (ShareManager.mkShareRequest "folder-1" [] "read").
Proof.
  split; [|split; [|reflexivity]].
  - intros newShare. unfold ShareManager.createShare.
    destruct (String.eqb_spec (ShareManager.folder_id newShare) "") as [He|Hne];
      destruct (Js.trimsToEmpty (ShareManager.token newShare)); simpl; split;
      try (intros (body & H); discriminate);
      try (intros (H1 & H2); congruence).
    + intros _. split; [exact Hne|reflexivity].
    + intros _. eauto.
  - intros newShare Hf Ht Hc. unfold ShareManager.createShare, ShareManager.previewToken.
    rewrite Ht, Hc. destruct (String.eqb_spec (ShareManager.folder_id newShare) "");
      [contradiction|]. split; reflexivity.
Qed.

(** ** The modes of the gallery *)

(** X23. In a loaded gallery, whatever the visitor clicks, wherever they
    navigate and whatever files arrive, starting outside favourites mode:
    favourites mode is only ever on together with selection mode and with
    [canEdit], so the "Save Album Favourites" button is on the page only
    for a gallery opened with the edit or full permission. *)
Theorem favourites_mode_needs_canEdit
    (st : GalleryPage.State) (events : list GalleryModes.Event) :
  GalleryPage.favouritesMode st = false ->
  (GalleryPage.favouritesMode (GalleryModes.run events st) = true ->
   GalleryPage.selectionMode (GalleryModes.run events st) = true
   /\ GalleryPage.canEdit (GalleryModes.run events st) = true)
  /\ (elem_of GalleryPage.save_favourites_btn
        (GalleryPage.controls (GalleryModes.run events st)) ->
      GalleryPage.canEdit (GalleryModes.run events st) = true)
  /\ GalleryPage.canEdit (GalleryModes.run events st) = GalleryPage.canEdit st.
Proof.
  intros Hf.
  destruct (run_modes events st) as [Hg Hinv]; [rewrite Hf; discriminate|].
  split; [exact Hinv|]. split.
  - intros Hbtn. apply Hinv.
    unfold GalleryPage.controls, GalleryPage.uploadSection, GalleryPage.photosSection,
      GalleryPage.actionButtons in Hbtn.
    destruct (GalleryPage.favouritesMode (GalleryModes.run events st)); [reflexivity|].
    exfalso. revert Hbtn.
    destruct ((length (GalleryPage.imageFiles (GalleryModes.run events st)) =? 0)%nat
              && GalleryPage.canEdit (GalleryModes.run events st));
      destruct (0 <? length (GalleryPage.imageFiles (GalleryModes.run events st)))%nat;
      destruct (GalleryPage.selectionMode (GalleryModes.run events st));
      destruct (GalleryPage.canEdit (GalleryModes.run events st)); simpl;
      rewrite ?elem_of_cons, ?elem_of_nil; intuition discriminate.
  - unfold GalleryPage.canEdit. rewrite Hg. reflexivity.
Qed.

(** A read-only gallery with one photo: "Select", then a click where the
    favourites button would be. *)
Lemma favourites_mode_needs_canEdit_witness :
  GalleryPage.canEdit
    (GalleryModes.run
       [GalleryModes.Click GalleryPage.select_btn true;
        GalleryModes.Click GalleryPage.select_favourites_btn true]
       (GalleryPage.mkState
          (Some (GalleryPage.mkGallery (Some "f1") (Some "Lisa & Tara") (Some "read")))
          [GalleryPage.mkFileEntry "p1" "one.jpg" "image"] false None false false false))
  = false.
Proof.
  exact (proj2 (proj2 (favourites_mode_needs_canEdit
                         (GalleryPage.mkState
                            (Some (GalleryPage.mkGallery (Some "f1") (Some "Lisa & Tara")
                                     (Some "read")))
                            [GalleryPage.mkFileEntry "p1" "one.jpg" "image"]
                            false None false false false)
                         [GalleryModes.Click GalleryPage.select_btn true;
                          GalleryModes.Click GalleryPage.select_favourites_btn true]
                         eq_refl))).
Defined.

(** ** The sidebar *)

Section NavFacts.

Lemma prefix_cons (a : ascii) (s p : string) :
  String.prefix (String a s) p = true ->
  exists p', p = String a p' /\ String.prefix s p' = true.
Proof.
  destruct p as [|b p']; simpl; [discriminate|].
  destruct (ascii_dec a b) as [->|]; [eauto|discriminate].
Qed.

End NavFacts.

(** X24. At every location at most one item of the sidebar is highlighted,
    and at the path of an item it is that item: "Dashboard" only at
    "/admin" itself, the other three on their path and everything under
    it. *)
Theorem one_nav_item_is_active :
  (forall pathname,
      length (List.filter (AdminNav.isActive pathname) AdminNav.navItems) <= 1)
  /\ (forall item,
        In item AdminNav.navItems ->
        List.filter (AdminNav.isActive (AdminNav.path item)) AdminNav.navItems = [item])
  /\ (forall item rest,
        In item (tl AdminNav.navItems) ->
        List.filter (AdminNav.isActive (AdminNav.path item +:+ rest)) AdminNav.navItems
        = [item]).
Proof.
  split; [|split].
  - intros pathname. unfold AdminNav.navItems. cbn [List.filter AdminNav.isActive
      AdminNav.exact AdminNav.path].
    destruct (String.eqb_spec pathname "/admin") as [->|Hne]; [simpl; lia|].
    destruct (String.prefix "/admin/folders" pathname) eqn:H1;
      destruct (String.prefix "/admin/shares" pathname) eqn:H2;
      destruct (String.prefix "/admin/activity" pathname) eqn:H3;
      try (simpl; lia); exfalso;
      repeat match goal with
             | H : String.prefix (String _ _) _ = true |- _ =>
                 apply prefix_cons in H; destruct H as (? & ? & H); subst
             | H : String _ _ = String _ _ |- _ => injection H as ? ?; subst
             end; discriminate.
  - intros item Hin. simpl in Hin.
    destruct Hin as [<-|[<-|[<-|[<-|[]]]]]; reflexivity.
  - intros item rest Hin. simpl in Hin.
    destruct Hin as [<-|[<-|[<-|[]]]]; destruct rest; reflexivity.
Qed.

Section LogoutFacts.

Lemma apply_stays_logged_out (op : AuthContext.Op) (st : AuthContext.State) :
  match op with AuthContext.Login _ => False | _ => True end ->
  AuthContext.token st = None /\ AuthContext.stored st = None ->
  AuthContext.token (AuthContext.apply op st) = None
  /\ AuthContext.stored (AuthContext.apply op st) = None.
Proof.
  intros Hop [Ht Hs]. destruct op as [answer| |answer]; [contradiction|split; reflexivity|].
  simpl. unfold AuthContext.tokenEffect. rewrite Ht. simpl. split; [reflexivity|exact Hs].
Qed.

Lemma run_stays_logged_out (ops : list AuthContext.Op) (st : AuthContext.State) :
  Forall (fun op => match op with AuthContext.Login _ => False | _ => True end) ops ->
  AuthContext.token st = None /\ AuthContext.stored st = None ->
  AuthContext.token (AuthContext.run ops st) = None
  /\ AuthContext.stored (AuthContext.run ops st) = None.
Proof.
  intros Hops. revert st. induction Hops as [|op ops Hop _ IH]; intros st Hst; [exact Hst|].
  simpl. apply IH. apply apply_stays_logged_out; assumption.
Qed.

End LogoutFacts.

(** X25. After "Logout" the admin stays logged out until a login: through
    any later logouts and token verifications, whatever the server answers,
    the admin is not authenticated and nothing is in local storage; the
    location that [handleLogout] navigates to shows the login page, and the
    dashboard location leads back to the login page in one redirect. *)
Theorem logged_out_until_login
    (st : AuthContext.State) (ops : list AuthContext.Op) (loading : bool) :
  Forall (fun op => match op with AuthContext.Login _ => False | _ => True end) ops ->
  AuthContext.isAuthenticated
    (AuthContext.run ops (fst (fst (AdminNav.handleLogout st)))) = false
  /\ AuthContext.stored
       (AuthContext.run ops (fst (fst (AdminNav.handleLogout st)))) = None
  /\ App.route (Some true)
       (AuthContext.isAuthenticated
          (AuthContext.run ops (fst (fst (AdminNav.handleLogout st)))))
       loading (snd (fst (AdminNav.handleLogout st)))
     = App.Show App.LoginPage
  /\ App.settle 1 (Some true)
       (AuthContext.isAuthenticated
          (AuthContext.run ops (fst (fst (AdminNav.handleLogout st)))))
       false App.Admin
     = Some App.LoginPage.
Proof.
  intros Hops.
  destruct (run_stays_logged_out ops (fst (fst (AdminNav.handleLogout st))) Hops)
    as [Ht Hs]; [split; reflexivity|].
  assert (Ha : AuthContext.isAuthenticated
                 (AuthContext.run ops (fst (fst (AdminNav.handleLogout st)))) = false).
  { unfold AuthContext.isAuthenticated. rewrite Ht. reflexivity. }
  rewrite Ha. split; [reflexivity|]. split; [exact Hs|]. split; reflexivity.
Qed.

(** A logout followed by a token effect and a second logout. *)
Lemma logged_out_until_login_witness :
  AuthContext.isAuthenticated
    (AuthContext.run
       [AuthContext.TokenEffect (Ui.Rejected "Failed to fetch"); AuthContext.Logout]
       (fst (fst (AdminNav.handleLogout (AuthContext.mount (Some "abc"))))))
  = false.
Proof.
  apply (logged_out_until_login (AuthContext.mount (Some "abc"))
           [AuthContext.TokenEffect (Ui.Rejected "Failed to fetch"); AuthContext.Logout]
           false).
  repeat constructor.
Defined.


(** ** The two carts *)

Section CartStoresFacts.

Import PrintOrderCart CartOps CartStores.

Lemma handleAddToCart_wellFormed (file : File) (product : Product) (saved : option Cart) :
  (forall c, saved = Some c -> wellFormed c) ->
  wellFormed (GalleryPage.handleAddToCart file product saved).
Proof.
  intros H. destruct saved as [c|].
  - rewrite handleAddToCart_stored. apply addToCart_wellFormed, H. reflexivity.
  - change (wellFormed (addToCart file product [])).
    apply addToCart_wellFormed, wellFormed_nil.
Qed.

Lemma stores_apply_wellFormed (op : CartStores.Op) (s : Stores) :
  wellFormed (component s) /\ (forall c, stored s = Some c -> wellFormed c) ->
  wellFormed (component (CartStores.apply op s))
  /\ (forall c, stored (CartStores.apply op s) = Some c -> wellFormed c).
Proof.
  intros [Hc Hs].
  assert (Hsave : forall c, wellFormed c ->
            wellFormed (component (save c))
            /\ (forall c', stored (save c) = Some c' -> wellFormed c')).
  { intros c Hwf. split; [exact Hwf|]. intros c' [= <-]. exact Hwf. }
  destruct op as [|file product|i delta|i| |file product]; simpl.
  - apply Hsave. destruct (stored s) as [c|]; simpl; [apply Hs; reflexivity|].
    apply wellFormed_nil.
  - apply Hsave, addToCart_wellFormed, Hc.
  - destruct (component s !! i); [|split; assumption].
    apply Hsave, updateQuantity_wellFormed, Hc.
  - apply Hsave, wellFormed_delete, Hc.
  - apply Hsave, wellFormed_nil.
  - split; [exact Hc|]. intros c [= <-]. apply handleAddToCart_wellFormed, Hs.
Qed.

Lemma stores_run_wellFormed (ops : list CartStores.Op) (s : Stores) :
  wellFormed (component s) /\ (forall c, stored s = Some c -> wellFormed c) ->
  wellFormed (component (CartStores.run ops s))
  /\ (forall c, stored (CartStores.run ops s) = Some c -> wellFormed c).
Proof.
  revert s. induction ops as [|op ops IH]; intros s Hs; [exact Hs|].
  simpl. apply IH, stores_apply_wellFormed, Hs.
Qed.

End CartStoresFacts.

(** X26. A gallery session keeps two carts, the state of the dialog and
    local storage.  From an empty storage, through any sequence of page
    loads, changes in the dialog, accepted orders and prints added from the
    gallery, both carts keep every quantity at 1 or more and at most one
    line per file and product.  After a page load and after every change
    that the dialog makes, the stored cart is the cart of the dialog.  A
    print added from the gallery goes to the stored cart only: the dialog
    shows it after the next page load, and a change in the dialog before
    that replaces the stored cart by the cart of the dialog. *)
Theorem both_carts_stay_well_formed :
  (forall ops,
      CartOps.wellFormed (CartStores.component (CartStores.run ops CartStores.start))
      /\ (forall c,
            CartStores.stored (CartStores.run ops CartStores.start) = Some c ->
            CartOps.wellFormed c))
  /\ (forall s file product index,
        CartStores.stored (CartStores.apply CartStores.Mount s)
        = Some (CartStores.component (CartStores.apply CartStores.Mount s))
        /\ CartStores.stored (CartStores.apply (CartStores.AddToCart file product) s)
           = Some (CartStores.component
                     (CartStores.apply (CartStores.AddToCart file product) s))
        /\ CartStores.stored (CartStores.apply (CartStores.RemoveItem index) s)
           = Some (CartStores.component (CartStores.apply (CartStores.RemoveItem index) s))
        /\ CartStores.stored (CartStores.apply CartStores.OrderAccepted s) = Some [])
  /\ (forall s index delta,
        index < length (CartStores.component s) ->
        CartStores.stored (CartStores.apply (CartStores.UpdateQuantity index delta) s)
        = Some (CartStores.component
                  (CartStores.apply (CartStores.UpdateQuantity index delta) s)))
  /\ (forall s file product,
        CartStores.component (CartStores.apply (CartStores.HandleAddToCart file product) s)
        = CartStores.component s
        /\ CartStores.stored (CartStores.apply (CartStores.HandleAddToCart file product) s)
           = Some (GalleryPage.handleAddToCart file product (CartStores.stored s))
        /\ CartStores.component
             (CartStores.apply CartStores.Mount
                (CartStores.apply (CartStores.HandleAddToCart file product) s))
           = GalleryPage.handleAddToCart file product (CartStores.stored s))
  /\ (forall s file product index,
        CartStores.stored
          (CartStores.apply (CartStores.RemoveItem index)
             (CartStores.apply (CartStores.HandleAddToCart file product) s))
        = Some (PrintOrderCart.removeItem index (CartStores.component s)))
  /\ (forall file product,
        CartStores.run
          [CartStores.Mount; CartStores.HandleAddToCart file product;
           CartStores.RemoveItem 0]
          CartStores.start
        = CartStores.mkStores [] (Some [])).
Proof.
  split; [|split; [|split; [|split; [|split]]]].
  - intros ops. apply stores_run_wellFormed. split; [apply wellFormed_nil|discriminate].
  - intros s file product index. repeat split.
  - intros s index delta Hi. simpl.
    destruct (CartStores.component s !! index) eqn:E; [reflexivity|].
    apply lookup_ge_None in E. lia.
  - intros s file product. repeat split.
  - reflexivity.
  - reflexivity.
Qed.

(** A dialog that shows one line of two prints: the minus button. *)
Lemma both_carts_stay_well_formed_witness :
  CartStores.stored
    (CartStores.apply (CartStores.UpdateQuantity 0 (-1))
       (CartStores.mkStores
          [PrintOrderCart.mkItem "f1" "one.jpg" "/t/f1" "p1" "6x4 Lustre" "6x4" "lustre"
             3%float 2]
          None))
  = Some (CartStores.component
            (CartStores.apply (CartStores.UpdateQuantity 0 (-1))
               (CartStores.mkStores
                  [PrintOrderCart.mkItem "f1" "one.jpg" "/t/f1" "p1" "6x4 Lustre" "6x4"
                     "lustre" 3%float 2]
                  None))).
Proof.
  apply (proj1 (proj2 (proj2 both_carts_stay_well_formed))). simpl. lia.
Defined.

(** ** Instances of the properties at concrete inputs *)

(** "Lisa & Tara 21.01.26" has a heading, and the heading is a part of it. *)
Lemma heading_is_part_of_folder_name_witness :
  exists heading pre post,
    CoupleNames.extractCoupleNames (Some (Js.of_string "Lisa & Tara 21.01.26"))
    = Some heading
    /\ heading <> []
    /\ Js.of_string "Lisa & Tara 21.01.26" = (pre ++ heading ++ post)%list
    /\ (heading = Js.of_string "Lisa & Tara 21.01.26"
        \/ (CoupleNames.skipSpaces heading = heading
            /\ CoupleNames.skipSpaces (List.rev heading) = List.rev heading)).
Proof.
  apply (proj2 (proj2 heading_is_part_of_folder_name)).
  intros H. vm_compute in H. discriminate H.
Defined.

(** Two files selected and a network that fails every request. *)
Lemma delete_selected_reports_count_only_witness :
  Selection.shown
    (Selection.deleteSelectedFiles
       (fun (_ : string) (w : unit) => (Ui.Rejected (A := unit) "Failed to fetch", w))
       ["file-1"; "file-2"] true tt)
  = [Ui.ToastSuccess "Deleted 0 file(s)"].
Proof.
  apply (proj1 (proj2 (delete_selected_reports_count_only unit
                         (fun _ w => (Ui.Rejected "Failed to fetch", w)) true tt))).
  intros fileId w0. exists "Failed to fetch", w0. reflexivity.
Defined.

(** Three photos: the "Slideshow" button, then "next". *)
Lemma lightbox_stays_on_a_photo_witness :
  1 < 3
  /\ Lightbox.showing 3
       (Lightbox.run 3 false [Lightbox.OpenFirst; Lightbox.Next] Lightbox.closed)
     = Some 1.
Proof.
  exact (proj1 (lightbox_stays_on_a_photo 3 false [Lightbox.OpenFirst; Lightbox.Next])
           1 eq_refl).
Defined.

(** A login answered with 401 and a [detail]. *)
Lemma login_outcomes_witness :
  AuthContext.login
    (Ui.Resolved (Ui.mkResponse 401 (Ui.ErrorObject (Some "Invalid credentials"))))
    (AuthContext.mount None)
  = (inl "Invalid credentials", AuthContext.mount None).
Proof.
  exact (proj1 (login_outcomes (AuthContext.mount None))
           (Ui.mkResponse 401 (Ui.ErrorObject (Some "Invalid credentials"))) eq_refl).
Defined.

(** The dialog as it mounts, with an empty delivery form. *)
Lemma delivery_form_gate_witness :
  PrintOrderCart.posts "lisatara" PrintOrderCart.initial = None
  /\ forall answer,
       PrintOrderCart.handle "lisatara" (PrintOrderCart.Submit answer)
         PrintOrderCart.initial
       = PrintOrderCart.initial.
Proof.
  apply (proj2 (proj2 delivery_form_gate)). vm_compute. discriminate.
Defined.

(** One photo chosen in a gallery whose data has not arrived. *)
Lemma no_upload_without_a_target_witness :
  GalleryPage.handleUpload
    (fun (_ : Upload.Request) (w : unit) => (Ui.Rejected (A := unit) "Failed to fetch", w))
    "lisatara" None GalleryPage.initial [Upload.mkUploadFile "one.jpg" 1024] tt
  = GalleryPage.mkUploaded [Ui.ToastError "Cannot upload here"] [] 0 false tt.
Proof.
  apply (proj2 (proj2 (no_upload_without_a_target unit
                         (fun _ w => (Ui.Rejected "Failed to fetch", w)) "lisatara"
                         [Upload.mkUploadFile "one.jpg" 1024] tt)));
    [discriminate | reflexivity | reflexivity].
Defined.

(** 2^40 bytes, where the index is 4. *)
Lemma formatBytes_number_range_witness :
  (100 <= JsNumber.toFixed2 (2 ^ 40) 4 <= 102400)%Z.
Proof.
  apply (proj1 formatBytes_number_range JsNumber.logAt (2 ^ 40)%Z 4%Z);
    [split; reflexivity | vm_compute; reflexivity | discriminate
     | split; [discriminate | reflexivity]].
Defined.

(** The token "---" passes the form and cleans to nothing. *)
Lemma share_form_gate_witness :
  ShareManager.createShare
    (ShareManager.mkNewShare "folder-1" (Js.of_string "---") "read")
  = ShareManager.Posted (ShareManager.mkShareRequest "folder-1" [] "read")
  /\ ShareManager.previewToken
       (ShareManager.mkNewShare "folder-1" (Js.of_string "---") "read")
     = Js.of_string "yourtoken".
Proof.
  apply (proj1 (proj2 share_form_gate)
           (ShareManager.mkNewShare "folder-1" (Js.of_string "---") "read"));
    [discriminate | reflexivity | reflexivity].
Defined.

(** At "/admin/shares" the item "Share Links" is the one highlighted. *)
Lemma one_nav_item_is_active_witness :
  List.filter (AdminNav.isActive "/admin/shares") AdminNav.navItems
  = [AdminNav.mkNavItem "/admin/shares" "Share Links" false].
Proof.
  apply (proj1 (proj2 one_nav_item_is_active)
           (AdminNav.mkNavItem "/admin/shares" "Share Links" false)).
  right. right. left. reflexivity.
Defined.
